(** * OCI artifact manifests for Solidity ABI files and git submodules

    A shallow embedding of the two Node.js scripts of the repository:
    [store-solidity-abis.js] (src/gen.js) and
    [oci-submodules-approach-c.js] (the script carried in src/README.md),
    together with the parts of the Node.js runtime they call: [crypto]'s
    SHA-256, [path], [fs], [JSON.stringify], [console] and [process.exit].

    Conventions of the model
    - JavaScript strings are Rocq [string]s, one character per code unit;
      the model is exact for ASCII text, which is what the scripts' own
      literals are.  File contents are [list byte].
    - The file system is a finite map from absolute paths to nodes.
    - A JavaScript computation is a function from the world (file system,
      console) to a new world and an outcome: a value, an uncaught
      exception, or a [process.exit].
    - The two programs the scripts shell out to ([tar] and [git]) are
      parameters of the development.

    The definitions come first: the runtime, the two scripts, the
    vocabulary of the properties and a sample repository.  The properties
    follow. *)

From Stdlib Require Import NArith List Strings.String Strings.Ascii Strings.Byte Lia.
From stdpp Require Import gmap strings list pretty sorting.


(** ** SHA-256 (FIPS 180-4), as computed by [crypto.createHash("sha256")] *)

Module SHA256.
Local Open Scope N_scope.

Definition w32 (x : N) : N := x mod 2 ^ 32.
Definition add32 (x y : N) : N := w32 (x + y).
Definition rotr (n x : N) : N :=
  N.lor (N.shiftr x n) (w32 (N.shiftl x (32 - n))).
Definition shr (n x : N) : N := N.shiftr x n.
Definition not32 (x : N) : N := N.lxor x 0xffffffff.

Definition Ch (x y z : N) : N := N.lxor (N.land x y) (N.land (not32 x) z).
Definition Maj (x y z : N) : N :=
  N.lxor (N.lxor (N.land x y) (N.land x z)) (N.land y z).
Definition Sigma0 (x : N) : N := N.lxor (N.lxor (rotr 2 x) (rotr 13 x)) (rotr 22 x).
Definition Sigma1 (x : N) : N := N.lxor (N.lxor (rotr 6 x) (rotr 11 x)) (rotr 25 x).
Definition sigma0 (x : N) : N := N.lxor (N.lxor (rotr 7 x) (rotr 18 x)) (shr 3 x).
Definition sigma1 (x : N) : N := N.lxor (N.lxor (rotr 17 x) (rotr 19 x)) (shr 10 x).

(** The constants are derived as the standard derives them: the first 32
    bits of the fractional parts of the cube roots (round constants) and
    of the square roots (initial hash value) of the first primes. *)
Definition is_prime (n : nat) : bool :=
  (1 <? n)%nat && forallb (fun d => negb (n mod d =? 0)%nat) (seq 2 (n - 2)).

Definition primes (count : nat) : list N :=
  map N.of_nat (firstn count (List.filter is_prime (seq 2 310))).

(** The integer cube root, bit by bit from the top. *)
Definition cube_root (n : N) : N :=
  fold_left (fun r i => let r' := r + 2 ^ N.of_nat i in
                        if r' * r' * r' <=? n then r' else r)
            (rev (seq 0 40)) 0.

Definition K : list N :=
  Eval vm_compute in map (fun p => w32 (cube_root (p * 2 ^ 96))) (primes 64).

(** The eight working variables a..h, also the chaining value. *)
Definition state : Type := N * N * N * N * N * N * N * N.

Definition initial_words : list N :=
  Eval vm_compute in map (fun p => w32 (N.sqrt (p * 2 ^ 64))) (primes 8).

Definition H0 : state :=
  match initial_words with
  | [a; b; c; d; e; f; g; h] => (a, b, c, d, e, f, g, h)
  | _ => (0, 0, 0, 0, 0, 0, 0, 0)
  end.

(** Padding: a one bit, zeros up to 56 mod 64, the bit length on 8 bytes. *)
Definition be_bytes (n : nat) (x : N) : list N :=
  map (fun i => (N.shiftr x (8 * N.of_nat i)) mod 256) (rev (seq 0 n)).

Definition pad (msg : list N) : list N :=
  let len := N.of_nat (length msg) in
  let zeros := N.to_nat ((119 - len mod 64) mod 64) in
  msg ++ 0x80 :: repeat 0 zeros ++ be_bytes 8 (8 * len).

Fixpoint be_words (bs : list N) : list N :=
  match bs with
  | b3 :: b2 :: b1 :: b0 :: rest =>
      (b3 * 2 ^ 24 + b2 * 2 ^ 16 + b1 * 2 ^ 8 + b0) :: be_words rest
  | _ => []
  end.

(** One round; [w] is the sliding window W[t] .. W[t+15] of the schedule. *)
Definition round (st : state) (w : list N) (k : N) : state * list N :=
  let '(a, b, c, d, e, f, g, h) := st in
  let wt := nth 0 w 0 in
  let t1 := add32 (add32 (add32 (add32 h (Sigma1 e)) (Ch e f g)) k) wt in
  let t2 := add32 (Sigma0 a) (Maj a b c) in
  let wnew := add32 (add32 (add32 (sigma1 (nth 14 w 0)) (nth 9 w 0))
                           (sigma0 (nth 1 w 0))) wt in
  ((add32 t1 t2, a, b, c, add32 d t1, e, f, g), tl w ++ [wnew]).

Definition compress (st : state) (block : list N) : state :=
  let '(a, b, c, d, e, f, g, h) := st in
  let '(a', b', c', d', e', f', g', h') :=
    fst (fold_left (fun sw k => round (fst sw) (snd sw) k) K (st, be_words block)) in
  (add32 a a', add32 b b', add32 c c', add32 d d',
   add32 e e', add32 f f', add32 g g', add32 h h').

Fixpoint blocks (n : nat) (st : state) (bs : list N) : state :=
  match n with
  | O => st
  | S n' => blocks n' (compress st (firstn 64 bs)) (skipn 64 bs)
  end.

Definition digest_words (st : state) : list N :=
  let '(a, b, c, d, e, f, g, h) := st in [a; b; c; d; e; f; g; h].

Definition hash (msg : list byte) : list N :=
  let p := pad (map Byte.to_N msg) in
  flat_map (be_bytes 4) (digest_words (blocks (length p / 64) H0 p)).

End SHA256.

(** ** Hexadecimal text, as produced by [hash.digest("hex")] *)

Definition hex_digit (n : N) : ascii :=
  nth (N.to_nat n) (list_ascii_of_string "0123456789abcdef") "0"%char.

Fixpoint hex_of_bytes (bs : list N) : string :=
  match bs with
  | [] => ""
  | b :: rest =>
      String (hex_digit (b / 16)%N)
        (String (hex_digit (b mod 16)%N) (hex_of_bytes rest))
  end.

Definition sha256_hex (data : list byte) : string :=
  hex_of_bytes (SHA256.hash data).


(** ** JavaScript strings *)

Definition chars (s : string) : list ascii := list_ascii_of_string s.
Definition text (cs : list ascii) : string := string_of_list_ascii cs.

Definition code (c : ascii) : N := N_of_ascii c.
Definition char_is (n : N) (c : ascii) : bool := (code c =? n)%N.

Definition dq : string := String (ascii_of_N 34) "".
Definition nl : string := String (ascii_of_N 10) "".
Definition backslash : string := String (ascii_of_N 92) "".
Definition tab : string := String (ascii_of_N 9) "".

(** [s.startsWith(p)] and [s.endsWith(p)]. *)
Definition startsWith (s p : string) : bool := String.prefix p s.
Definition endsWith (s p : string) : bool :=
  String.prefix (String.rev p) (String.rev s).

(** [arr.join(sep)]. *)
Definition join (sep : string) (parts : list string) : string :=
  String.concat sep parts.

(** White space of [String.prototype.trim] and of the regular expression
    class [\s], among the code units below 256. *)
Definition is_white (c : ascii) : bool :=
  let n := code c in
  ((9 <=? n) && (n <=? 13) || (n =? 32) || (n =? 160))%N.

(** Line terminators, which [.] does not match in a regular expression. *)
Definition is_line_terminator (c : ascii) : bool :=
  let n := code c in ((n =? 10) || (n =? 13))%N.

Fixpoint drop_while {A} (p : A -> bool) (l : list A) : list A :=
  match l with
  | [] => []
  | x :: l' => if p x then drop_while p l' else l
  end.

Fixpoint take_while {A} (p : A -> bool) (l : list A) : list A :=
  match l with
  | [] => []
  | x :: l' => if p x then x :: take_while p l' else []
  end.

Definition trim_chars (cs : list ascii) : list ascii :=
  rev (drop_while is_white (rev (drop_while is_white cs))).
Definition trim (s : string) : string := text (trim_chars (chars s)).

(** [s.split(sep)] for a one-character separator. *)
Fixpoint split_chars (sep : N) (cs : list ascii) : list (list ascii) :=
  match cs with
  | [] => [[]]
  | c :: cs' =>
      if char_is sep c then [] :: split_chars sep cs'
      else match split_chars sep cs' with
           | h :: t => (c :: h) :: t
           | [] => [[c]]
           end
  end.
Definition split (sep : N) (s : string) : list string :=
  map text (split_chars sep (chars s)).

(** [s.split(/\s+/)]: the pieces between maximal runs of white space. *)
Fixpoint words_go (cur : list ascii) (in_sep : bool) (cs : list ascii)
  : list (list ascii) :=
  match cs with
  | [] => [rev cur]
  | c :: cs' =>
      if is_white c
      then (if in_sep then words_go [] true cs'
            else rev cur :: words_go [] true cs')
      else words_go (c :: cur) false cs'
  end.
Definition split_white (s : string) : list string :=
  map text (words_go [] false (chars s)).

(** [s.replace] of every slash by an underscore. *)
Definition replace_slashes (s : string) : string :=
  text (map (fun c => if char_is 47 c then ascii_of_N 95 else c) (chars s)).

(** [s.replace] of a leading minus or plus sign by nothing. *)
Definition strip_sign (s : string) : string :=
  match s with
  | String c rest => if (char_is 45 c || char_is 43 c)%bool then rest else s
  | EmptyString => s
  end.

(** ** The [path] module (POSIX flavour) *)

Definition is_slash (c : ascii) : bool := char_is 47 c.

(** [normalizeString]: resolves [.] and [..] segments and drops empty ones. *)
Fixpoint normalize_segments (allowAboveRoot : bool) (acc : list string)
    (segs : list string) : list string :=
  match segs with
  | [] => rev acc
  | seg :: segs' =>
      if bool_decide (seg = "" \/ seg = ".") then
        normalize_segments allowAboveRoot acc segs'
      else if bool_decide (seg = "..") then
        match acc with
        | top :: acc' =>
            if bool_decide (top = "..")
            then normalize_segments allowAboveRoot (seg :: acc) segs'
            else normalize_segments allowAboveRoot acc' segs'
        | [] =>
            if allowAboveRoot
            then normalize_segments allowAboveRoot [seg] segs'
            else normalize_segments allowAboveRoot [] segs'
        end
      else normalize_segments allowAboveRoot (seg :: acc) segs'
  end.

Definition path_normalize (p : string) : string :=
  match chars p with
  | [] => "."
  | c :: _ =>
      let isAbsolute := is_slash c in
      let trailingSeparator :=
        match rev (chars p) with z :: _ => is_slash z | [] => false end in
      let body := join "/" (normalize_segments (negb isAbsolute) [] (split 47 p)) in
      if bool_decide (body = "") then
        (if isAbsolute then "/" else if trailingSeparator then "./" else ".")
      else
        let body' := if trailingSeparator then body +:+ "/" else body in
        if isAbsolute then "/" +:+ body' else body'
  end.

(** [path.join(...args)]. *)
Definition path_join (args : list string) : string :=
  match filter (fun a => a <> "") args with
  | [] => "."
  | parts => path_normalize (join "/" parts)
  end.

(** [path.dirname(p)]: the loop runs from the last index down to 1 and
    stops at the first slash that follows (leftwards) a non-slash. *)
Fixpoint dirname_end (cs : list ascii) (i : nat) (matchedSlash : bool)
  : option nat :=
  match cs with
  | [] => None
  | c :: cs' =>
      if is_slash c
      then (if matchedSlash then dirname_end cs' (i - 1) matchedSlash else Some i)
      else dirname_end cs' (i - 1) false
  end.

Definition path_dirname (p : string) : string :=
  match chars p with
  | [] => "."
  | c :: rest =>
      let hasRoot := is_slash c in
      match dirname_end (rev rest) (length rest) true with
      | None => if hasRoot then "/" else "."
      | Some e =>
          if (hasRoot && (e =? 1))%bool then "//"
          else text (take e (chars p))
      end
  end.

(** [path.basename(p)]: the last run of non-slash characters. *)
Definition path_basename (p : string) : string :=
  text (rev (take_while (fun c => negb (is_slash c))
               (drop_while is_slash (rev (chars p))))).

(** Text without a slash. *)
Definition plain (s : string) : Prop :=
  Forall (fun c => is_slash c = false) (chars s).

(** A name as a directory holds it: not empty, not [.] or [..], without
    a slash. *)
Definition simple_name (n : string) : Prop :=
  n <> "" /\ n <> "." /\ n <> ".." /\ plain n.

(** The absolute path of the given names, from the root down. *)
Definition under_root (segs : list string) : string := "/" +:+ join "/" segs.

(** An absolute, normalized path, as [process.cwd()] returns. *)
Definition absolute_path (p : string) : Prop :=
  exists segs, Forall simple_name segs /\ p = under_root segs.

(** ** JavaScript values that reach [JSON.stringify] *)

Set Warnings "-register-all".
Inductive value : Type :=
  | Num (n : N)
  | Str (s : string)
  | Arr (items : list value)
  | Obj (props : list (string * value)).

(** Own properties of an object literal, in insertion order. *)
Fixpoint lookup_prop (k : string) (props : list (string * value)) : option value :=
  match props with
  | [] => None
  | (k', v) :: rest => if bool_decide (k' = k) then Some v else lookup_prop k rest
  end.

(** [o.k = v]: replaces the value in place, or appends a new property. *)
Fixpoint assign_prop (k : string) (v : value) (props : list (string * value))
  : list (string * value) :=
  match props with
  | [] => [(k, v)]
  | (k', v') :: rest =>
      if bool_decide (k' = k) then (k, v) :: rest
      else (k', v') :: assign_prop k v rest
  end.

(** [o.k] *)
Definition get (k : string) (o : value) : option value :=
  match o with
  | Obj props => lookup_prop k props
  | _ => None
  end.

(** [o.k = v] *)
Definition set (k : string) (v : value) (o : value) : value :=
  match o with
  | Obj props => Obj (assign_prop k v props)
  | _ => o
  end.

(** [Object.keys(o)] of a value built from literals and assignments. *)
Definition keys (o : value) : list string :=
  match o with
  | Obj props => map fst props
  | _ => []
  end.

(** ** [JSON.stringify(v, null, 2)] *)

Definition hex4 (n : N) : string :=
  text (map hex_digit [n / 4096 mod 16; n / 256 mod 16; n / 16 mod 16; n mod 16]%N).

Definition json_escape (c : ascii) : string :=
  let n := code c in
  if (n =? 34)%N then backslash +:+ dq
  else if (n =? 92)%N then backslash +:+ backslash
  else if (n =? 8)%N then backslash +:+ "b"
  else if (n =? 9)%N then backslash +:+ "t"
  else if (n =? 10)%N then backslash +:+ "n"
  else if (n =? 12)%N then backslash +:+ "f"
  else if (n =? 13)%N then backslash +:+ "r"
  else if (n <? 32)%N then backslash +:+ "u" +:+ hex4 n
  else String c "".

Definition json_quote (s : string) : string :=
  dq +:+ join "" (map json_escape (chars s)) +:+ dq.

Fixpoint stringify (indent : string) (v : value) : string :=
  let inner := indent +:+ "  " in
  let sep := "," +:+ nl +:+ inner in
  match v with
  | Num n => pretty n
  | Str s => json_quote s
  | Arr [] => "[]"
  | Arr items =>
      "[" +:+ nl +:+ inner +:+ join sep (map (stringify inner) items)
      +:+ nl +:+ indent +:+ "]"
  | Obj [] => "{}"
  | Obj props =>
      "{" +:+ nl +:+ inner
      +:+ join sep (map (fun kv => json_quote (fst kv) +:+ ": " +:+ stringify inner (snd kv))
                        props)
      +:+ nl +:+ indent +:+ "}"
  end.

Definition JSON_stringify (v : value) : string := stringify "" v.

(** ** The world: file system and console *)

Inductive node : Type :=
  | File (data : list byte)
  | Dir (entries : list string).

Record world : Type := World {
  files : gmap string node;   (* absolute, normalized path |-> node *)
  stdout : list string;       (* one element per console.log *)
  stderr : list string        (* one element per console.error *)
}.

(** What can end a computation early. *)
Inductive exn : Type :=
  | TypeError (message : string)
  | SystemError (errno : string) (syscall : string) (path : option string)
  | CommandFailed (command : string).

Inductive outcome (A : Type) : Type :=
  | Val (a : A)              (* normal completion *)
  | Throw (e : exn)          (* uncaught exception *)
  | Exit (status : N).       (* process.exit(status) *)
Arguments Val {A} a.
Arguments Throw {A} e.
Arguments Exit {A} status.

Definition js (A : Type) : Type := world -> world * outcome A.

Definition ret {A} (a : A) : js A := fun w => (w, Val a).
Definition throw {A} (e : exn) : js A := fun w => (w, Throw e).
Definition process_exit {A} (status : N) : js A := fun w => (w, Exit status).

Definition bind {A B} (m : js A) (k : A -> js B) : js B :=
  fun w =>
    match m w with
    | (w', Val a) => k a w'
    | (w', Throw e) => (w', Throw e)
    | (w', Exit n) => (w', Exit n)
    end.

Notation "'let*' x := m 'in' k" := (bind m (fun x => k))
  (at level 10, x name, m at level 100, k at level 200, only parsing).
Notation "m ;;; k" := (bind m (fun _ => k))
  (at level 20, k at level 200, only parsing).

(** [try { m } catch (error) { handler }] *)
Definition try_catch {A} (m : js A) (handler : exn -> js A) : js A :=
  fun w =>
    match m w with
    | (w', Throw e) => handler e w'
    | r => r
    end.

Definition fmap_js {A B} (f : A -> B) (m : js A) : js B :=
  let* x := m in ret (f x).
Notation "f <$$> m" := (fmap_js f m) (at level 61, left associativity, only parsing).

Fixpoint forEach {A} (l : list A) (body : A -> js unit) : js unit :=
  match l with
  | [] => ret tt
  | x :: l' => body x ;;; forEach l' body
  end.

Definition console_log (line : string) : js unit :=
  fun w => (World (files w) (stdout w ++ [line]) (stderr w), Val tt).
Definition console_error (line : string) : js unit :=
  fun w => (World (files w) (stdout w) (stderr w ++ [line]), Val tt).

Definition with_files (w : world) (fs : gmap string node) : world :=
  World fs (stdout w) (stderr w).

(** ** The [fs] module

    Paths given to these functions are absolute and normalized, as the
    scripts build them from [process.cwd()].  A directory node lists the
    names of its entries in the order [readdirSync] reports them. *)

Definition add_entry (p : string) (fs : gmap string node) : gmap string node :=
  match fs !! path_dirname p with
  | Some (Dir es) => <[path_dirname p := Dir (es ++ [path_basename p])]> fs
  | _ => fs
  end.

Definition remove_entry (p : string) (fs : gmap string node) : gmap string node :=
  match fs !! path_dirname p with
  | Some (Dir es) =>
      <[path_dirname p :=
          Dir (filter (fun e => e <> path_basename p) es)]> fs
  | _ => fs
  end.

(** Creating or truncating a regular file, as [open(p, O_WRONLY|O_CREAT|O_TRUNC)]
    followed by the write. *)
Definition write_file (syscall : string) (p : string) (data : list byte)
    (fs : gmap string node) : gmap string node + exn :=
  match fs !! p with
  | Some (Dir _) => inr (SystemError "EISDIR" syscall (Some p))
  | Some (File _) => inl (<[p := File data]> fs)
  | None =>
      match fs !! path_dirname p with
      | Some (Dir _) => inl (<[p := File data]> (add_entry p fs))
      | Some (File _) => inr (SystemError "ENOTDIR" syscall (Some p))
      | None => inr (SystemError "ENOENT" syscall (Some p))
      end
  end.

Definition existsSync (p : string) : js bool :=
  fun w => (w, Val (bool_decide (is_Some (files w !! p)))).

(** [fs.readFileSync(p)]: a directory is opened and fails at the read,
    whose error names no path. *)
Definition readFileSync (p : string) : js (list byte) :=
  fun w =>
    match files w !! p with
    | Some (File data) => (w, Val data)
    | Some (Dir _) => (w, Throw (SystemError "EISDIR" "read" None))
    | None => (w, Throw (SystemError "ENOENT" "open" (Some p)))
    end.

Definition writeFileSync (p : string) (data : list byte) : js unit :=
  fun w =>
    match write_file "open" p data (files w) with
    | inl fs' => (with_files w fs', Val tt)
    | inr e => (w, Throw e)
    end.

Definition unlinkSync (p : string) : js unit :=
  fun w =>
    match files w !! p with
    | Some (File _) => (with_files w (delete p (remove_entry p (files w))), Val tt)
    | Some (Dir _) => (w, Throw (SystemError "EPERM" "unlink" (Some p)))
    | None => (w, Throw (SystemError "ENOENT" "unlink" (Some p)))
    end.

Definition readdirSync (p : string) : js (list string) :=
  fun w =>
    match files w !! p with
    | Some (Dir es) => (w, Val es)
    | Some (File _) => (w, Throw (SystemError "ENOTDIR" "scandir" (Some p)))
    | None => (w, Throw (SystemError "ENOENT" "scandir" (Some p)))
    end.

(** [fs.mkdirSync(p)] *)
Definition mkdirSync (p : string) : js unit :=
  fun w =>
    match files w !! p with
    | Some _ => (w, Throw (SystemError "EEXIST" "mkdir" (Some p)))
    | None =>
        match files w !! path_dirname p with
        | Some (Dir _) => (with_files w (<[p := Dir []]> (add_entry p (files w))), Val tt)
        | Some (File _) => (w, Throw (SystemError "ENOTDIR" "mkdir" (Some p)))
        | None => (w, Throw (SystemError "ENOENT" "mkdir" (Some p)))
        end
    end.

(** [fs.mkdirSync(p, { recursive: true })]: missing ancestors are created
    first.  The fuel is the length of the path, which bounds its depth. *)
Fixpoint mkdir_p (fuel : nat) (p : string) (fs : gmap string node)
  : gmap string node + exn :=
  match fs !! p with
  | Some (Dir _) => inl fs
  | Some (File _) => inr (SystemError "EEXIST" "mkdir" (Some p))
  | None =>
      match fuel with
      | O => inl (<[p := Dir []]> fs)
      | S fuel' =>
          if bool_decide (path_dirname p = p) then inl (<[p := Dir []]> fs)
          else
            match mkdir_p fuel' (path_dirname p) fs with
            | inl fs' => inl (<[p := Dir []]> (add_entry p fs'))
            | inr (SystemError _ _ _) => inr (SystemError "ENOTDIR" "mkdir" (Some p))
            | inr e => inr e
            end
      end
  end.

Definition mkdirSync_recursive (p : string) : js unit :=
  fun w =>
    match mkdir_p (String.length p) p (files w) with
    | inl fs' => (with_files w fs', Val tt)
    | inr e => (w, Throw e)
    end.

Definition is_file (fs : gmap string node) (p : string) : bool :=
  match fs !! p with Some (File _) => true | _ => false end.
Definition is_dir (fs : gmap string node) (p : string) : bool :=
  match fs !! p with Some (Dir _) => true | _ => false end.

(** Text files: [readFileSync(p, "utf8")] and [writeFileSync(p, s)]. *)
Definition utf8_encode (s : string) : list byte := list_byte_of_string s.
Definition utf8_decode (bs : list byte) : string := string_of_list_byte bs.

(** [path.dirname(arr[0])]: the argument is validated to be a string
    before anything else, so [undefined] raises [ERR_INVALID_ARG_TYPE]. *)
Definition undefined_path : exn :=
  TypeError ("The " +:+ dq +:+ "path" +:+ dq
             +:+ " argument must be of type string. Received undefined").

Definition path_dirname_arg (p : option string) : js string :=
  match p with
  | Some s => ret (path_dirname s)
  | None => throw undefined_path
  end.

(** ** Vocabulary of the properties *)

(** A descriptor: a media type, a digest and a size. *)
Definition is_descriptor (v : value) : Prop :=
  exists mediaType digest size,
    get "mediaType" v = Some (Str mediaType)
    /\ get "digest" v = Some (Str digest)
    /\ get "size" v = Some (Num size).

(** The required fields of a manifest: the schema version 2, the image
    manifest media type and one config descriptor. *)
Definition has_required_fields (m : value) : Prop :=
  get "schemaVersion" m = Some (Num 2)
  /\ get "mediaType" m = Some (Str "application/vnd.oci.image.manifest.v1+json")
  /\ (exists config, get "config" m = Some config /\ is_descriptor config)
  /\ length (List.filter (fun k => bool_decide (k = "config")) (keys m)) = 1.

(** The digits of lowercase hexadecimal text. *)
Definition lowercase_hex (c : ascii) : bool :=
  let n := code c in
  ((48 <=? n) && (n <=? 57) || (97 <=? n) && (n <=? 102))%N.

(** A character that the shell leaves as it is between double quotes:
    any but the double quote, the dollar sign, the backslash and the
    backquote (and the null character, which no argument holds). *)
Definition shell_literal (c : ascii) : bool :=
  negb (char_is 0 c || char_is 34 c || char_is 36 c || char_is 92 c || char_is 96 c).

(** Text that reaches a program as it is written, when the command line
    holds it between double quotes. *)
Definition quotable (s : string) : Prop :=
  Forall (fun c => shell_literal c = true) (chars s).

(** A name that [tar] reads as the name of a member: it is not empty,
    reaches [tar] as written and does not begin with a dash, which marks
    an option, nor with an at sign, which some versions of [tar] read as
    the name of an archive to copy from. *)
Definition member_name (n : string) : Prop :=
  n <> "" /\ quotable n /\ startsWith n "-" = false /\ startsWith n "@" = false.

(** * store-solidity-abis.js *)

Module Abis.

Record digest_and_size : Type := DigestAndSize { digest : string; size : N }.

(** Empty descriptor per OCI guidelines (used for the minimal config in
    approaches A and C). *)
Definition EMPTY_DESCRIPTOR : value :=
  Obj [ ("mediaType", Str "application/vnd.oci.empty.v1+json");
        ("digest", Str "sha256:44136fa355b3678a1146ad16f7e8649e94fb4fc21fe77e8310c060f61caaff8a");
        ("size", Num 2) ].

(** For approach D, a fake subject referencing another manifest. *)
Definition SUBJECT_DESCRIPTOR : value :=
  Obj [ ("mediaType", Str "application/vnd.oci.image.manifest.v1+json");
        ("digest", Str "sha256:1111111111111111111111111111111111111111111111111111111111111111");
        ("size", Num 9999) ].

Definition computeDigestAndSize (filePath : string) : js digest_and_size :=
  let* data := readFileSync filePath in
  let hash := sha256_hex data in
  ret {| digest := "sha256:" +:+ hash; size := N.of_nat (length data) |}.

Section Script.

(** [process.cwd()] *)
Variable cwd : string.

(** The archive bytes that [tar -cz] makes of its members, each given by
    the name on the command line and the node found under that name.  The
    parameter stands for [tar] in one environment: whatever else its
    output depends on, such as the time of the run, is fixed with it.
    (For a member that is a directory, [tar] also descends into it; the
    properties below are about regular files.) *)
Variable tar_archive : list (string * node) -> list byte.

Definition ABI_DIR : string := path_join [cwd; "contracts"].
Definition OUTPUT_DIR : string := path_join [cwd; "output"].
Definition SINGLE_LAYER_TGZ : string := path_join [OUTPUT_DIR; "abis-single-layer.tgz"].
Definition SINGLE_CONFIG_TGZ : string := path_join [OUTPUT_DIR; "abis-config.tgz"].
Definition MANIFEST_JSON : string := path_join [OUTPUT_DIR; "manifest.json"].

Definition ensureOutputDir : js unit :=
  let* present := existsSync OUTPUT_DIR in
  if negb present then mkdirSync_recursive OUTPUT_DIR else ret tt.

Definition listAbiFiles : js (list string) :=
  let* present := existsSync ABI_DIR in
  (if negb present then
     console_error ("No 'contracts' directory found at: " +:+ ABI_DIR) ;;;
     process_exit 1
   else ret tt) ;;;
  let* entries := readdirSync ABI_DIR in
  let all :=
    map (fun f => path_join [ABI_DIR; f])
        (List.filter (fun f => endsWith f ".abi") entries) in
  ret all.

(** The members [tar -C parent name ...] finds: each name is looked up in
    [parent]. *)
Definition tar_members (fs : gmap string node) (parent : string)
    (names : list string) : list (string * node) :=
  omap (fun name => pair name <$> fs !! path_join [parent; name]) names.

(** [execSync] of the [tar -czf out -C parent names...] command line: the
    archive of the members found is written to [out]; when the archive
    cannot be opened or a member is missing, [tar] exits with a failure
    status and [execSync] throws.

    This is the command for arguments that reach [tar] as they are
    written and that it reads as the names of members, [read_as_written]
    below.  What the shell expands between the double quotes, and what
    [tar] does with an argument it reads as an option, is not modelled:
    the properties of the archives carry that condition, through
    [archivable]. *)
Definition execSync_tar (command : string) (out parent : string)
    (names : list string) : js unit :=
  fun w =>
    let members := tar_members (files w) parent names in
    match write_file "open" out (tar_archive members) (files w) with
    | inr _ => (w, Throw (CommandFailed command))
    | inl fs' =>
        if bool_decide (length members = length names)
        then (with_files w fs', Val tt)
        else (with_files w fs', Throw (CommandFailed command))
    end.

Definition tarFiles (fileList : list string) (outTgzPath : string) : js unit :=
  let* parent := path_dirname_arg (fileList !! 0) in
  let baseNames := join (dq +:+ " " +:+ dq) (map path_basename fileList) in
  execSync_tar
    ("tar -czf " +:+ dq +:+ outTgzPath +:+ dq +:+ " -C " +:+ dq +:+ parent +:+ dq
     +:+ " " +:+ dq +:+ baseNames +:+ dq)
    outTgzPath parent (map path_basename fileList).

(** Approach A: minimal config, single layer holding all ABI files. *)
Definition approachA (abiFiles : list string) : js value :=
  console_log "Approach A: minimal config + single layer with all ABI files." ;;;
  (let* present := existsSync SINGLE_LAYER_TGZ in
   if present then unlinkSync SINGLE_LAYER_TGZ else ret tt) ;;;
  tarFiles abiFiles SINGLE_LAYER_TGZ ;;;
  let* r := computeDigestAndSize SINGLE_LAYER_TGZ in
  let manifest :=
    Obj [ ("schemaVersion", Num 2);
          ("mediaType", Str "application/vnd.oci.image.manifest.v1+json");
          ("artifactType", Str "application/vnd.solidity.abi");
          ("config", EMPTY_DESCRIPTOR);
          ("layers",
           Arr [ Obj [ ("mediaType", Str "application/vnd.solidity.abi.layer.v1+tar+gzip");
                       ("digest", Str (digest r));
                       ("size", Num (size r)) ] ]) ] in
  ret manifest.

(** Approach B: everything in config, no layers. *)
Definition approachB (abiFiles : list string) : js value :=
  console_log "Approach B: everything in config, no layers." ;;;
  (let* present := existsSync SINGLE_CONFIG_TGZ in
   if present then unlinkSync SINGLE_CONFIG_TGZ else ret tt) ;;;
  tarFiles abiFiles SINGLE_CONFIG_TGZ ;;;
  let* r := computeDigestAndSize SINGLE_CONFIG_TGZ in
  let manifest :=
    Obj [ ("schemaVersion", Num 2);
          ("mediaType", Str "application/vnd.oci.image.manifest.v1+json");
          ("artifactType", Str "application/vnd.solidity.abi");
          ("config",
           Obj [ ("mediaType", Str "application/vnd.solidity.abi.config.v1+tar+gzip");
                 ("digest", Str (digest r));
                 ("size", Num (size r)) ]);
          ("layers", Arr []) ] in
  ret manifest.

(** The loop of approach C: [layers] is the array built so far. *)
Fixpoint approachC_layers (abiFiles : list string) (layers : list value)
  : js (list value) :=
  match abiFiles with
  | [] => ret layers
  | filePath :: rest =>
      let* r := computeDigestAndSize filePath in
      approachC_layers rest
        (layers ++
         [ Obj [ ("mediaType", Str "application/vnd.solidity.abi.file");
                 ("digest", Str (digest r));
                 ("size", Num (size r));
                 ("annotations",
                  Obj [ ("org.opencontainers.image.title",
                         Str (path_basename filePath)) ]) ] ])
  end.

(** Approach C: minimal config, each ABI file as a separate layer. *)
Definition approachC (abiFiles : list string) : js value :=
  console_log "Approach C: minimal config, each ABI as a separate layer." ;;;
  let* layers := approachC_layers abiFiles [] in
  let manifest :=
    Obj [ ("schemaVersion", Num 2);
          ("mediaType", Str "application/vnd.oci.image.manifest.v1+json");
          ("artifactType", Str "application/vnd.solidity.abi");
          ("config", EMPTY_DESCRIPTOR);
          ("layers", Arr layers) ] in
  ret manifest.

(** Approach D: approach A, then a [subject] property is added. *)
Definition approachD (abiFiles : list string) : js value :=
  console_log "Approach D: referencing another manifest with 'subject'. Example uses Approach A + 'subject'." ;;;
  let* baseManifest := approachA abiFiles in
  ret (set "subject" SUBJECT_DESCRIPTOR baseManifest).

(** The [switch] of [main]: [manifest] stays undefined when no case
    matches. *)
Definition switch_approach (approach : option string) (abiFiles : list string)
  : js (option value) :=
  if bool_decide (approach = Some "A") then Some <$$> approachA abiFiles
  else if bool_decide (approach = Some "B") then Some <$$> approachB abiFiles
  else if bool_decide (approach = Some "C") then Some <$$> approachC abiFiles
  else if bool_decide (approach = Some "D") then Some <$$> approachD abiFiles
  else ret None.

(** [main]; [approach] is [process.argv[2]], absent when the script is run
    without an argument.  [JSON.stringify(undefined)] is not a string, and
    [writeFileSync] rejects it. *)
Definition main (approach : option string) : js unit :=
  (if negb (bool_decide (approach ∈ [Some "A"; Some "B"; Some "C"; Some "D"])) then
     console_error "Usage: node store-solidity-abis.js [A|B|C|D]" ;;;
     process_exit 1
   else ret tt) ;;;
  ensureOutputDir ;;;
  let* abiFiles := listAbiFiles in
  (if bool_decide (length abiFiles = 0) then
     console_error "No .abi files found in 'contracts' directory." ;;;
     process_exit 1
   else ret tt) ;;;
  console_log ("Found " +:+ pretty (length abiFiles) +:+ " ABI files:"
               +:+ join "," (map (fun f => nl +:+ "  " +:+ f) abiFiles)) ;;;
  let* manifest := switch_approach approach abiFiles in
  match manifest with
  | None =>
      throw (TypeError ("The " +:+ dq +:+ "data" +:+ dq
                        +:+ " argument must be of type string or an instance of Buffer, TypedArray, or DataView. Received undefined"))
  | Some manifest =>
      writeFileSync MANIFEST_JSON (utf8_encode (JSON_stringify manifest)) ;;;
      console_log (nl +:+ "Wrote manifest to: " +:+ MANIFEST_JSON +:+ nl) ;;;
      console_log "Manifest contents:" ;;;
      console_log (JSON_stringify manifest)
  end.

(** *** Vocabulary of the properties *)

(** The paths under which [tar] looks for the files of the list. *)
Definition member_paths (fileList : list string) : list string :=
  match fileList !! 0 with
  | Some first =>
      map (fun f => path_join [path_dirname first; path_basename f]) fileList
  | None => []
  end.

(** The command line of [tarFiles] reaches [tar] as it is written: the
    shell changes nothing between the double quotes, the archive is a
    file given by an absolute path (not the standard output, not a file
    on another host), and [tar] reads every base name as the name of a
    member. *)
Definition read_as_written (fileList : list string) (outTgzPath : string) : Prop :=
  quotable outTgzPath
  /\ startsWith outTgzPath "/" = true
  /\ match fileList !! 0 with
     | Some first => quotable (path_dirname first)
     | None => True
     end
  /\ Forall member_name (map path_basename fileList).

(** The payload files can be archived into [out]: [tar] finds each of
    them as a regular file, the archive is not among them, the directory
    of the archive exists, no directory stands in the archive's place, the
    command line reaches [tar] as it is written, and the directory that
    [tar] is sent to, the one of the first file, is there. *)
Definition archivable (w : world) (abiFiles : list string) (out : string) : Prop :=
  Forall (fun p => is_file (files w) p = true) (member_paths abiFiles)
  /\ (out ∉ member_paths abiFiles)
  /\ is_dir (files w) (path_dirname out) = true
  /\ is_dir (files w) out = false
  /\ read_as_written abiFiles out
  /\ match abiFiles !! 0 with
     | Some first => is_dir (files w) (path_dirname first) = true
     | None => True
     end.

(** The layer that approach C makes of a file holding [data]. *)
Definition file_layer (filePath : string) (data : list byte) : value :=
  Obj [ ("mediaType", Str "application/vnd.solidity.abi.file");
        ("digest", Str ("sha256:" +:+ sha256_hex data));
        ("size", Num (N.of_nat (length data)));
        ("annotations",
         Obj [ ("org.opencontainers.image.title", Str (path_basename filePath)) ]) ].

(** What a builder needs of the world, per approach. *)
Definition ready (approach : string) (w : world) (abiFiles : list string) : Prop :=
  if bool_decide (approach = "B") then archivable w abiFiles SINGLE_CONFIG_TGZ
  else if bool_decide (approach = "C") then
    Forall (fun f => is_file (files w) f = true) abiFiles
  else archivable w abiFiles SINGLE_LAYER_TGZ.

(** The file system once the previous archive, if any, is removed. *)
Definition cleared (out : string) (fs : gmap string node) : gmap string node :=
  match fs !! out with
  | Some (File _) => delete out (remove_entry out fs)
  | _ => fs
  end.

(** The file system once the archive [blob] is in place at [out]. *)
Definition archived (out : string) (blob : list byte) (fs : gmap string node)
  : gmap string node :=
  <[out := File blob]> (add_entry out (cleared out fs)).

(** The members that [tarFiles] hands to [tar]: every file of the list,
    looked up under its base name in the directory of the first. *)
Definition members (w : world) (abiFiles : list string) : list (string * node) :=
  match abiFiles !! 0 with
  | Some first =>
      tar_members (files w) (path_dirname first) (map path_basename abiFiles)
  | None => []
  end.

(** The combined bundle of approaches A and B: the archive of the payload
    files as the world holds them. *)
Definition bundle (w : world) (abiFiles : list string) : list byte :=
  match abiFiles !! 0 with
  | Some first =>
      tar_archive (tar_members (files w) (path_dirname first)
                               (map path_basename abiFiles))
  | None => []
  end.

End Script.
End Abis.

(** * oci-submodules-approach-c.js *)

Module Submodules.

(** An empty descriptor for [config] as recommended in the OCI
    specification (2 bytes, the text of an empty JSON object). *)
Definition EMPTY_DESCRIPTOR : value :=
  Obj [ ("mediaType", Str "application/vnd.oci.empty.v1+json");
        ("digest", Str "sha256:44136fa355b3678a1146ad16f7e8649e94fb4fc21fe77e8310c060f61caaff8a");
        ("size", Num 2) ].

(** The object kept per submodule; [path], [url] and [branch] are
    undefined until a line of the file assigns them. *)
Record submodule : Type := Submodule {
  name : string;
  path : option string;
  url : option string;
  branch : option string
}.

(** *** The regular expressions of [parseGitmodules] *)

Definition not_line_terminator (c : ascii) : bool := negb (is_line_terminator c).

(** The part of [cs] before its last character satisfying [p]. *)
Fixpoint up_to_last (p : ascii -> bool) (cs : list ascii) : option (list ascii) :=
  match cs with
  | [] => None
  | c :: cs' =>
      match up_to_last p cs' with
      | Some pre => Some (c :: pre)
      | None => if p c then Some [] else None
      end
  end.

(** The match of a line against the pattern made of a double quote, a
    greedy group of any characters and a double quote: group 1 of the
    leftmost match.  The group stays on one line. *)
Fixpoint match_quoted (cs : list ascii) : option string :=
  match cs with
  | [] => None
  | c :: rest =>
      if char_is 34 c then
        match up_to_last (char_is 34) (take_while not_line_terminator rest) with
        | Some group => Some (text group)
        | None => match_quoted rest
        end
      else match_quoted rest
  end.

Fixpoint strip_prefix (p cs : list ascii) : option (list ascii) :=
  match p, cs with
  | [], _ => Some cs
  | a :: p', c :: cs' => if bool_decide (a = c) then strip_prefix p' cs' else None
  | _ :: _, [] => None
  end.

(** The match of a line against the pattern made of [key], optional
    white space, an equals sign, optional white space and a greedy group
    of any characters: group 1 of the leftmost match. *)
Fixpoint match_assignment (key : list ascii) (cs : list ascii) : option string :=
  let here :=
    match strip_prefix key cs with
    | Some rest =>
        match drop_while is_white rest with
        | e :: rest' =>
            if char_is 61 e
            then Some (text (take_while not_line_terminator (drop_while is_white rest')))
            else None
        | [] => None
        end
    | None => None
    end in
  match here with
  | Some group => Some group
  | None =>
      match cs with
      | [] => None
      | _ :: cs' => match_assignment key cs'
      end
  end.

(** *** Plain objects used as dictionaries

    Own properties in insertion order.  A property named [__proto__] is
    not an own property: assigning it changes the prototype instead. *)

Fixpoint put {A} (k : string) (v : A) (o : list (string * A)) : list (string * A) :=
  match o with
  | [] => [(k, v)]
  | (k', v') :: rest =>
      if bool_decide (k' = k) then (k, v) :: rest else (k', v') :: put k v rest
  end.

Definition assign {A} (k : string) (v : A) (o : list (string * A)) : list (string * A) :=
  if bool_decide (k = "__proto__") then o else put k v o.

Fixpoint own {A} (k : string) (o : list (string * A)) : option A :=
  match o with
  | [] => None
  | (k', v) :: rest => if bool_decide (k' = k) then Some v else own k rest
  end.

Definition update {A} (k : string) (f : A -> A) (o : list (string * A))
  : list (string * A) :=
  map (fun kv => if bool_decide (fst kv = k) then (fst kv, f (snd kv)) else kv) o.

(** A property name that is an array index: the decimal text of an
    integer below 2^32 - 1. *)
Fixpoint digits_value (acc : N) (cs : list ascii) : option N :=
  match cs with
  | [] => Some acc
  | c :: cs' =>
      if ((48 <=? code c) && (code c <=? 57))%N
      then digits_value (acc * 10 + (code c - 48))%N cs'
      else None
  end.

Definition array_index (k : string) : option N :=
  match chars k with
  | [] => None
  | cs =>
      match digits_value 0 cs with
      | Some n =>
          if (bool_decide (pretty n = k) && (n <? 4294967295)%N)%bool
          then Some n else None
      | None => None
      end
  end.

(** [Object.keys(o)]: array indices in ascending order, then the other
    names in insertion order. *)
Definition Object_keys {A} (o : list (string * A)) : list string :=
  let ks := map fst o in
  map pretty (merge_sort N.le (omap array_index ks))
  ++ List.filter (fun k => bool_decide (array_index k = None)) ks.

Definition computeDigestAndSize (filePath : string) : js (string * N) :=
  let* fileBuffer := readFileSync filePath in
  let size := N.of_nat (length fileBuffer) in
  let digest := "sha256:" +:+ sha256_hex fileBuffer in
  ret (digest, size).

(** [currentSubmodule && ...]: neither [null] nor the empty string. *)
Definition truthy (s : option string) : bool :=
  match s with
  | Some s => negb (bool_decide (s = ""))
  | None => false
  end.

(** One iteration of the loop over the lines of [.gitmodules]. *)
Definition parse_line (st : option string * list (string * submodule))
    (line0 : string) : option string * list (string * submodule) :=
  let line := trim line0 in
  let currentSubmodule := fst st in
  let submodules := snd st in
  let field (key : string) (store : string -> submodule -> submodule) :=
    match match_assignment (chars key) (chars line), currentSubmodule with
    | Some m1, Some cur => (currentSubmodule, update cur (store (trim m1)) submodules)
    | _, _ => st
    end in
  if startsWith line "[submodule" then
    match match_quoted (chars line) with
    | Some m1 => (Some m1, assign m1 (Submodule m1 None None None) submodules)
    | None => st
    end
  else if (truthy currentSubmodule && startsWith line "path")%bool then
    field "path" (fun v s => Submodule (name s) (Some v) (url s) (branch s))
  else if (truthy currentSubmodule && startsWith line "url")%bool then
    field "url" (fun v s => Submodule (name s) (path s) (Some v) (branch s))
  else if (truthy currentSubmodule && startsWith line "branch")%bool then
    field "branch" (fun v s => Submodule (name s) (path s) (url s) (Some v))
  else st.

(** Parse the [.gitmodules] file to find submodule data. *)
Definition parseGitmodules (gitmodulesPath : string)
  : js (list (string * submodule)) :=
  let* present := existsSync gitmodulesPath in
  if negb present then ret []
  else
    let* content := utf8_decode <$$> readFileSync gitmodulesPath in
    let lines := split 10 content in
    ret (snd (fold_left parse_line lines (None, []))).

(** *** Vocabulary of the properties *)

(** A line of [.gitmodules] that opens a submodule section. *)
Definition defines_submodule (line : string) : bool :=
  startsWith (trim line) "[submodule"
  && bool_decide (is_Some (match_quoted (chars (trim line)))).

(** The text defines no submodule. *)
Definition no_submodules (content : string) : Prop :=
  Forall (fun line => defines_submodule line = false) (split 10 content).

(** The manifest of a repository without submodules. *)
Definition bare_manifest : value :=
  Obj [ ("schemaVersion", Num 2);
        ("mediaType", Str "application/vnd.oci.image.manifest.v1+json");
        ("artifactType", Str "application/vnd.example.git-submodules");
        ("config", EMPTY_DESCRIPTOR);
        ("layers", Arr []) ].

Section Script.

(** [process.cwd()] *)
Variable cwd : string.

(** What [git submodule status] prints for the repository in the given
    file system, or [None] when the command fails. *)
Variable git_submodule_status : gmap string node -> option string.

Definition SUBMODULE_LAYER_DIR : string := path_join [cwd; "submodule-layers"].

Definition execSync_git : js string :=
  fun w =>
    match git_submodule_status (files w) with
    | Some out => (w, Val out)
    | None => (w, Throw (CommandFailed "git submodule status"))
    end.

(** Obtain the pinned commit of each submodule path.  On failure the
    error is reported (the model keeps the first line of the report) and
    the empty result is returned. *)
Definition getSubmoduleCommits : js (gmap string string) :=
  try_catch
    (let* stdout := execSync_git in
     let lines :=
       List.filter (fun l => negb (bool_decide (l = ""))) (map trim (split 10 stdout)) in
     ret (fold_left
            (fun (result : gmap string string) line =>
               match split_white line with
               | sha0 :: subPath :: _ =>
                   if bool_decide (subPath = "__proto__") then result
                   else <[subPath := strip_sign sha0]> result
               | _ => result
               end)
            lines ∅))
    (fun error =>
       console_error
         "Error running git submodule status: Error: Command failed: git submodule status" ;;;
       ret ∅).

Definition optional (k : string) (v : option string) : list (string * value) :=
  match v with
  | Some s => [(k, Str s)]
  | None => []
  end.

(** Step 4 of [main]: one JSON file and one layer per submodule name.
    (Names and paths that [Object.prototype] also defines, such as
    [constructor], are outside the model.) *)
Fixpoint submodule_layers (submodules : list (string * submodule))
    (submoduleCommits : gmap string string) (subNames : list string)
    (layers : list value) : js (list value) :=
  match subNames with
  | [] => ret layers
  | subName :: rest =>
      match own subName submodules with
      | None => throw (TypeError "Cannot read properties of undefined (reading 'path')")
      | Some info =>
          let commitSha :=
            match submoduleCommits !! default "undefined" (path info) with
            | Some sha => if bool_decide (sha = "") then "UNKNOWN" else sha
            | None => "UNKNOWN"
            end in
          let submoduleData :=
            Obj ([("name", Str (name info))]
                 ++ optional "path" (path info)
                 ++ optional "url" (url info)
                 ++ [("commit", Str commitSha);
                     ("branch", Str (default "" (branch info)))]) in
          let layerFileName := replace_slashes subName +:+ ".json" in
          let layerFilePath := path_join [SUBMODULE_LAYER_DIR; layerFileName] in
          writeFileSync layerFilePath (utf8_encode (JSON_stringify submoduleData)) ;;;
          let* r := computeDigestAndSize layerFilePath in
          submodule_layers submodules submoduleCommits rest
            (layers ++
             [ Obj [ ("mediaType", Str "application/vnd.example.git-submodule.layer.v1+json");
                     ("digest", Str (fst r));
                     ("size", Num (snd r));
                     ("annotations",
                      Obj [ ("org.opencontainers.image.title", Str subName) ]) ] ])
      end
  end.

Definition field_text (k : string) (o : value) : string :=
  match get k o with
  | Some (Str s) => s
  | Some (Num n) => pretty n
  | _ => "undefined"
  end.

Definition layer_line (l : value) : string :=
  "  - "
  +:+ match get "annotations" l with
      | Some a => field_text "org.opencontainers.image.title" a
      | None => "undefined"
      end
  +:+ " => " +:+ field_text "digest" l
  +:+ " (size: " +:+ field_text "size" l +:+ ")".

Definition main : js unit :=
  let repoRoot := cwd in
  let gitmodulesPath := path_join [repoRoot; ".gitmodules"] in
  let* submodules := parseGitmodules gitmodulesPath in
  let* submoduleCommits := getSubmoduleCommits in
  (let* present := existsSync SUBMODULE_LAYER_DIR in
   if negb present then mkdirSync SUBMODULE_LAYER_DIR else ret tt) ;;;
  let* layers :=
    submodule_layers submodules submoduleCommits (Object_keys submodules) [] in
  let manifest :=
    Obj [ ("schemaVersion", Num 2);
          ("mediaType", Str "application/vnd.oci.image.manifest.v1+json");
          ("artifactType", Str "application/vnd.example.git-submodules");
          ("config", EMPTY_DESCRIPTOR);
          ("layers", Arr layers) ] in
  let manifestPath := path_join [repoRoot; "manifest.json"] in
  writeFileSync manifestPath (utf8_encode (JSON_stringify manifest)) ;;;
  console_log ("Wrote manifest to " +:+ manifestPath +:+ ".") ;;;
  console_log ("Created submodule layer files in " +:+ SUBMODULE_LAYER_DIR +:+ ".") ;;;
  console_log (nl +:+ "Manifest layers:") ;;;
  forEach layers (fun l => console_log (layer_line l)) ;;;
  console_log (nl +:+ "Next steps to push to GitHub’s OCI registry:") ;;;
  console_log "1) Upload each layer blob (the .json files) to the registry, for example using ORAS:" ;;;
  console_log ("   oras push ghcr.io/<OWNER>/<REPO>:<TAG> " +:+ backslash) ;;;
  console_log ("       --artifact-type application/vnd.example.git-submodules " +:+ backslash) ;;;
  console_log ("       --config /dev/null:application/vnd.oci.empty.v1+json " +:+ backslash) ;;;
  console_log ("       ./submodule-layers/deps_foo.json:application/vnd.example.git-submodule.layer.v1+json " +:+ backslash) ;;;
  console_log "       ./submodule-layers/deps_bar.json:application/vnd.example.git-submodule.layer.v1+json ..." ;;;
  console_log "   (ORAS will automatically create a manifest with references to these blobs, although you may need to pass some flags.)" ;;;
  console_log "   Alternatively, you can separately upload blobs and then link them in a custom step if you prefer a more manual approach." ;;;
  console_log (nl +:+ "2) Or manually push using 'manifest.json' if your tooling supports passing a pre-built manifest.") ;;;
  console_log (nl +:+ "Done!").

End Script.
End Submodules.

(** * Vocabulary of the submodules script

    The text of [.gitmodules], the output of [git submodule status] and
    the layers that the script makes of them. *)

Module Gitmodules.
Import Submodules.

(** A value as it stands on a line of a configuration file: not empty, on
    one line, without white space at either end. *)
Definition plain_value (v : string) : Prop :=
  v <> "" /\ trim v = v /\ Forall (fun c => is_line_terminator c = false) (chars v).

(** The line that sets a field of a section, when the field is set. *)
Definition field_line (key : string) (v : option string) : list string :=
  match v with
  | Some v => [tab +:+ key +:+ " = " +:+ v]
  | None => []
  end.

(** The lines of the section that describes a submodule, as
    [git submodule add] writes them. *)
Definition section_lines (s : submodule) : list string :=
  [ "[submodule " +:+ dq +:+ name s +:+ dq +:+ "]" ]
  ++ field_line "path" (path s)
  ++ field_line "url" (url s)
  ++ field_line "branch" (branch s).

(** The text of a [.gitmodules] file with the given sections, every line
    ended by a line feed. *)
Definition gitmodules_text (sections : list submodule) : string :=
  join "" (map (fun line => line +:+ nl) (flat_map section_lines sections)).

(** A submodule that the sections above describe faithfully. *)
Definition describable (s : submodule) : Prop :=
  name s <> "" /\ name s <> "__proto__"
  /\ Forall (fun c => is_line_terminator c = false) (chars (name s))
  /\ (forall v, path s = Some v -> plain_value v)
  /\ (forall v, url s = Some v -> plain_value v)
  /\ (forall v, branch s = Some v -> plain_value v).

End Gitmodules.

Module GitStatus.
Import Submodules.

(** A line of the output of [git submodule status]: a sign (a space for
    a submodule at the recorded commit, a minus for one that is not
    initialized, a plus for one at another commit), the commit, the path
    and, in parentheses, the description of the commit when there is one. *)
Record status : Type := Status {
  status_sign : string;
  status_sha : string;
  status_path : string;
  status_describe : option string
}.

Definition status_line (e : status) : string :=
  status_sign e +:+ status_sha e +:+ " " +:+ status_path e
  +:+ match status_describe e with
      | Some d => " (" +:+ d +:+ ")"
      | None => ""
      end.

Definition status_text (entries : list status) : string :=
  join "" (map (fun e => status_line e +:+ nl) entries).

(** Text without white space, and not empty. *)
Definition word (s : string) : Prop :=
  s <> "" /\ Forall (fun c => is_white c = false) (chars s).

(** A status line as [git] prints it. *)
Definition reported (e : status) : Prop :=
  status_sign e ∈ [" "; "-"; "+"]
  /\ word (status_sha e)
  /\ Forall (fun c => lowercase_hex c = true) (chars (status_sha e))
  /\ word (status_path e)
  /\ status_path e <> "__proto__"
  /\ (forall d, status_describe e = Some d ->
                Forall (fun c => is_line_terminator c = false) (chars d)).

End GitStatus.

Module Layers.
Import Submodules.

(** The names that every object inherits from [Object.prototype]. *)
Definition inherited_names : list string :=
  [ "constructor"; "hasOwnProperty"; "isPrototypeOf"; "propertyIsEnumerable";
    "toLocaleString"; "toString"; "valueOf"; "__proto__";
    "__defineGetter__"; "__defineSetter__"; "__lookupGetter__"; "__lookupSetter__" ].

(** The commit recorded for a submodule, [UNKNOWN] when [git] reported
    none for its path. *)
Definition commit_of (submoduleCommits : gmap string string) (info : submodule)
  : string :=
  match submoduleCommits !! default "undefined" (path info) with
  | Some sha => if bool_decide (sha = "") then "UNKNOWN" else sha
  | None => "UNKNOWN"
  end.

(** The object written to the layer file of a submodule. *)
Definition submodule_data (submoduleCommits : gmap string string) (info : submodule)
  : value :=
  Obj ([("name", Str (name info))]
       ++ optional "path" (path info)
       ++ optional "url" (url info)
       ++ [("commit", Str (commit_of submoduleCommits info));
           ("branch", Str (default "" (branch info)))]).

Definition layer_blob (submoduleCommits : gmap string string) (info : submodule)
  : list byte :=
  utf8_encode (JSON_stringify (submodule_data submoduleCommits info)).

(** The layer descriptor of the submodule [subName] for a file holding
    [blob]. *)
Definition layer_of (subName : string) (blob : list byte) : value :=
  Obj [ ("mediaType", Str "application/vnd.example.git-submodule.layer.v1+json");
        ("digest", Str ("sha256:" +:+ sha256_hex blob));
        ("size", Num (N.of_nat (length blob)));
        ("annotations", Obj [ ("org.opencontainers.image.title", Str subName) ]) ].

(** The manifest with the given layers. *)
Definition manifest_of (layers : list value) : value :=
  Obj [ ("schemaVersion", Num 2);
        ("mediaType", Str "application/vnd.oci.image.manifest.v1+json");
        ("artifactType", Str "application/vnd.example.git-submodules");
        ("config", EMPTY_DESCRIPTOR);
        ("layers", Arr layers) ].

(** The path of the layer file of the submodule [subName]. *)
Definition layer_file (cwd subName : string) : string :=
  path_join [SUBMODULE_LAYER_DIR cwd; replace_slashes subName +:+ ".json"].

End Layers.

(** * Sample worlds *)

Module Demo.

(** A stand-in for [tar]: the members' names and contents, one after the
    other. *)
Definition stored_archive (members : list (string * node)) : list byte :=
  flat_map (fun m => utf8_encode (fst m)
                     ++ match snd m with
                        | File data => x00 :: data
                        | Dir _ => [x01]
                        end) members.

(** The stand-in at a given time: the same archive behind a time stamp,
    as the header of a compressed archive may hold one. *)
Definition stamped_archive (stamp : byte) (members : list (string * node))
  : list byte :=
  stamp :: stored_archive members.

Definition repo : gmap string node :=
  list_to_map
    [ ("/", Dir ["repo"]);
      ("/repo", Dir ["contracts"; "output"]);
      ("/repo/contracts", Dir ["A.abi"; "notes.txt"; "B.abi"]);
      ("/repo/contracts/A.abi", File (utf8_encode "[]"));
      ("/repo/contracts/notes.txt", File (utf8_encode "hello"));
      ("/repo/contracts/B.abi", File (utf8_encode "{}"));
      ("/repo/output", Dir []) ].

Definition abiFiles : list string :=
  ["/repo/contracts/A.abi"; "/repo/contracts/B.abi"].

Definition repo_world : world := World repo [] [].

(** A repository whose [contracts] directory holds no ABI file, and no
    [output] directory yet. *)
Definition bare : gmap string node :=
  list_to_map
    [ ("/", Dir ["repo"]);
      ("/repo", Dir ["contracts"]);
      ("/repo/contracts", Dir ["notes.txt"]);
      ("/repo/contracts/notes.txt", File (utf8_encode "hello")) ].

Definition bare_world : world := World bare [] [].

(** A working directory that holds nothing yet. *)
Definition empty_repo : gmap string node :=
  list_to_map [ ("/", Dir ["repo"]); ("/repo", Dir []) ].

Definition empty_world : world := World empty_repo [] [].

(** A repository with two submodules, as [git submodule add] records
    them, and what [git submodule status] prints for it. *)
Definition sections : list Submodules.submodule :=
  [ Submodules.Submodule "deps/foo" (Some "deps/foo")
      (Some "https://example.com/foo.git") None;
    Submodules.Submodule "deps/bar" (Some "deps/bar")
      (Some "https://example.com/bar.git") (Some "main") ].

Definition with_submodules : gmap string node :=
  list_to_map
    [ ("/", Dir ["repo"]);
      ("/repo", Dir [".gitmodules"]);
      ("/repo/.gitmodules", File (utf8_encode (Gitmodules.gitmodules_text sections))) ].

Definition submodules_world : world := World with_submodules [] [].

Definition status_entries : list GitStatus.status :=
  [ GitStatus.Status " " "0123abc" "deps/foo" (Some "heads/main");
    GitStatus.Status "-" "89def01" "deps/bar" None ].

Definition git_status (fs : gmap string node) : option string :=
  Some (GitStatus.status_text status_entries).

(** A repository with two submodules whose names differ by a slash and
    an underscore. *)
Definition colliding_sections : list Submodules.submodule :=
  [ Submodules.Submodule "a/b" (Some "a/b") None None;
    Submodules.Submodule "a_b" (Some "a_b") None None ].

Definition colliding : gmap string node :=
  list_to_map
    [ ("/", Dir ["repo"]);
      ("/repo", Dir [".gitmodules"]);
      ("/repo/.gitmodules", File (utf8_encode (Gitmodules.gitmodules_text colliding_sections))) ].

Definition colliding_world : world := World colliding [] [].

End Demo.

(** * Properties *)


(** ** The runtime model *)

Lemma with_files_same (w : world) : with_files w (files w) = w.
Proof. by destruct w. Qed.

Lemma is_file_lookup (fs : gmap string node) p :
  is_file fs p = true <-> exists data, fs !! p = Some (File data).
Proof.
  unfold is_file. destruct (fs !! p) as [[d|es]|]; split; try done; eauto.
  - by intros [? ?].
  - by intros [? ?].
Qed.

Lemma is_dir_lookup (fs : gmap string node) p :
  is_dir fs p = true <-> exists es, fs !! p = Some (Dir es).
Proof.
  unfold is_dir. destruct (fs !! p) as [[d|es]|]; split; try done; eauto.
  - by intros [? ?].
  - by intros [? ?].
Qed.

Lemma bind_console_log {B} line (k : unit -> js B) w :
  bind (console_log line) k w
  = k tt (World (files w) (stdout w ++ [line]) (stderr w)).
Proof. reflexivity. Qed.

Lemma bind_ret {A B} (a : A) (k : A -> js B) w : bind (ret a) k w = k a w.
Proof. reflexivity. Qed.

(** Runs the console output at the head of the goal. *)
Ltac run_console :=
  repeat first
    [ rewrite bind_console_log; cbn [files stdout stderr with_files]
    | rewrite bind_ret ].

Lemma bind_Val_inv {A B} (m : js A) (k : A -> js B) w w' b :
  bind m k w = (w', Val b) ->
  exists w1 a, m w = (w1, Val a) /\ k a w1 = (w', Val b).
Proof.
  unfold bind. destruct (m w) as [w1 [a|e|n]]; intros H; try discriminate.
  eauto.
Qed.

Lemma ret_Val_inv {A} (a b : A) w w' : ret a w = (w', Val b) -> w' = w /\ b = a.
Proof. unfold ret. intros [= <- <-]. done. Qed.

(** Decides the comparisons of literals left by a [switch]. *)
Ltac decide_literals :=
  repeat first
    [ rewrite bool_decide_true in * by done
    | rewrite bool_decide_false in * by done ].

Ltac invert_bind H :=
  let w1 := fresh "w" in
  let a := fresh "a" in
  let H1 := fresh "H" in
  apply bind_Val_inv in H as (w1 & a & H1 & H).




(** ** Strings and paths *)

Lemma chars_app a b : chars (a +:+ b) = chars a ++ chars b.
Proof.
  induction a as [|c a IH]; [reflexivity|].
  change (chars (String c a +:+ b)) with (c :: chars (a +:+ b)).
  rewrite IH. reflexivity.
Qed.

Lemma text_chars s : text (chars s) = s.
Proof. apply string_of_list_ascii_of_string. Qed.

Lemma chars_text cs : chars (text cs) = cs.
Proof. apply list_ascii_of_string_of_list_ascii. Qed.

Lemma chars_inj a b : chars a = chars b -> a = b.
Proof. intros H. by rewrite <- (text_chars a), <- (text_chars b), H. Qed.

Lemma join_cons_cons sep x y l :
  join sep (x :: y :: l) = x +:+ sep +:+ join sep (y :: l).
Proof. reflexivity. Qed.

Lemma join_snoc sep l x :
  l <> [] -> join sep (l ++ [x]) = join sep l +:+ sep +:+ x.
Proof.
  induction l as [|y l IH]; [done|]. intros _.
  destruct l as [|z l].
  - reflexivity.
  - change ((y :: z :: l) ++ [x]) with (y :: z :: (l ++ [x])).
    rewrite !join_cons_cons.
    change (z :: l ++ [x]) with ((z :: l) ++ [x]). rewrite IH by done.
    apply chars_inj. rewrite !chars_app. by rewrite <- !app_assoc.
Qed.

Lemma split_chars_nonempty sep cs : split_chars sep cs <> [].
Proof.
  destruct cs as [|c cs]; [done|]. cbn.
  destruct (char_is sep c); [done|]. by destruct (split_chars sep cs).
Qed.

Lemma split_chars_app sep a b :
  split_chars sep (a ++ ascii_of_N sep :: b) = split_chars sep a ++ split_chars sep b
  \/ (sep >= 256)%N.
Proof.
  destruct (decide (sep < 256)%N) as [Hsep|]; [left|right; lia].
  assert (char_is sep (ascii_of_N sep) = true) as Hc.
  { unfold char_is, code. rewrite N_ascii_embedding by done. apply N.eqb_refl. }
  induction a as [|c a IH]; cbn.
  - by rewrite Hc.
  - rewrite IH. destruct (char_is sep c); [done|].
    pose proof (split_chars_nonempty sep a).
    by destruct (split_chars sep a).
Qed.

Lemma split_chars_slash a b :
  split_chars 47 (a ++ chars "/" ++ b) = split_chars 47 a ++ split_chars 47 b.
Proof. destruct (split_chars_app 47 a b) as [H|H]; [exact H|lia]. Qed.

Lemma split_chars_plain cs :
  Forall (fun c => is_slash c = false) cs -> split_chars 47 cs = [cs].
Proof.
  induction 1 as [|c cs Hc _ IH]; [done|]. cbn.
  unfold is_slash in Hc. by rewrite Hc, IH.
Qed.

Lemma simple_name_plain n : simple_name n -> plain n.
Proof. by intros (_ & _ & _ & H). Qed.

Lemma simple_name_chars n :
  simple_name n -> exists c cs, chars n = c :: cs /\ is_slash c = false.
Proof.
  intros (Hne & _ & _ & Hp). destruct n as [|c n]; [done|].
  exists c, (chars n). split; [done|]. by inversion Hp.
Qed.

Lemma split_join segs :
  segs <> [] -> Forall plain segs -> split 47 (join "/" segs) = segs.
Proof.
  unfold split. induction segs as [|x segs IH]; [done|]. intros _ Hp.
  inversion Hp as [|? ? Hx Hrest]; subst.
  destruct segs as [|y segs].
  - cbn [join String.concat]. rewrite split_chars_plain by done. cbn.
    by rewrite text_chars.
  - rewrite join_cons_cons, !chars_app, split_chars_slash.
    rewrite split_chars_plain by done. cbn [app map].
    rewrite text_chars. f_equal. by apply IH.
Qed.

Lemma split_under_root segs :
  Forall plain segs ->
  split 47 (under_root segs) = "" :: (if segs is [] then [""] else segs).
Proof.
  intros Hp. unfold under_root, split.
  rewrite chars_app. change (chars "/" ++ ?x) with ([] ++ chars "/" ++ x).
  rewrite split_chars_slash. cbn [split_chars app map]. f_equal.
  destruct segs as [|x segs]; [done|].
  by apply (split_join (x :: segs)).
Qed.

Lemma normalize_segments_filter b acc segs :
  Forall (fun s => s = "" \/ simple_name s) segs ->
  normalize_segments b acc segs = rev acc ++ filter (fun s => s <> "") segs.
Proof.
  intros H. revert acc. induction H as [|s segs Hs _ IH]; intros acc.
  - cbn. by rewrite app_nil_r.
  - cbn [normalize_segments]. destruct Hs as [->|(Hne & Hd & Hdd & _)].
    + rewrite bool_decide_true by auto. rewrite IH.
      by rewrite filter_cons_False by auto.
    + rewrite bool_decide_false by (intros [?|?]; done).
      rewrite bool_decide_false by done.
      rewrite IH, filter_cons_True by done. cbn. by rewrite <- app_assoc.
Qed.

Lemma filter_simple segs :
  Forall simple_name segs -> filter (fun s => s <> "") segs = segs.
Proof.
  induction 1 as [|s segs (Hne & _) _ IH]; [done|].
  by rewrite filter_cons_True, IH.
Qed.

Lemma under_root_chars segs : chars (under_root segs) = chars "/" ++ chars (join "/" segs).
Proof. unfold under_root. apply chars_app. Qed.

Lemma last_char_plain n rest :
  simple_name n ->
  exists z zs, rev (rest ++ chars n) = z :: zs /\ is_slash z = false.
Proof.
  intros Hn. pose proof (simple_name_plain _ Hn) as Hp. unfold plain in Hp.
  destruct (simple_name_chars _ Hn) as (c & cs & Hc & _).
  rewrite rev_app_distr. rewrite Hc in *.
  destruct (rev (c :: cs)) as [|z zs] eqn:Hrev.
  - apply (f_equal (@length _)) in Hrev. rewrite length_rev in Hrev. done.
  - exists z, (zs ++ rev rest). split; [done|].
    apply Forall_rev in Hp. rewrite Hrev in Hp. by inversion Hp.
Qed.

Lemma join_nonempty sep segs n : n <> "" -> join sep (segs ++ [n]) <> "".
Proof.
  intros Hn. destruct segs as [|x segs]; [done|].
  rewrite join_snoc by done. intros H.
  apply (f_equal chars) in H. rewrite !chars_app in H.
  apply app_eq_nil in H as [_ H]. apply app_eq_nil in H as [_ H].
  by destruct n.
Qed.

(** [path.join] of a normalized absolute path and a simple name. *)
Lemma path_join_under_root segs n :
  Forall simple_name segs -> simple_name n ->
  path_join [under_root segs; n] = under_root (segs ++ [n]).
Proof.
  intros Hs Hn. pose proof Hn as (Hne & _).
  assert (Forall plain segs) as Hp by (eapply Forall_impl; [exact Hs|apply simple_name_plain]).
  unfold path_join.
  rewrite filter_cons_True by done. rewrite filter_cons_True by done.
  rewrite filter_nil. cbn [join String.concat].
  change (under_root segs ++ "/" ++ n)%string with (under_root segs +:+ "/" +:+ n).
  unfold path_normalize.
  assert (chars (under_root segs +:+ "/" +:+ n)
          = chars "/" ++ (chars (join "/" segs) ++ chars "/") ++ chars n) as Hchars.
  { rewrite !chars_app, under_root_chars. by rewrite <- !app_assoc. }
  rewrite Hchars. cbn [chars list_ascii_of_string app].
  change (list_ascii_of_string ?x) with (chars x).
  destruct (last_char_plain n ("/"%char :: chars (join "/" segs) ++ chars "/") Hn)
    as (z & zs & Hrev & Hz).
  change ("/"%char :: (chars (join "/" segs) ++ ["/"%char]) ++ chars n)
    with (("/"%char :: chars (join "/" segs) ++ chars "/") ++ chars n).
  rewrite Hrev, Hz. cbn [is_slash char_is code N_of_ascii negb].
  assert (split 47 (under_root segs +:+ "/" +:+ n)
          = split 47 (under_root segs) ++ [n]) as Hsplit.
  { unfold split. rewrite !chars_app, split_chars_slash, map_app.
    rewrite (split_chars_plain (chars n)) by (by apply simple_name_plain).
    cbn. by rewrite text_chars. }
  rewrite Hsplit, split_under_root by done.
  rewrite normalize_segments_filter; cycle 1.
  { constructor; [by left|]. apply Forall_app. split.
    - destruct segs; [constructor; [by left|constructor]|].
      eapply Forall_impl; [exact Hs|]. by right.
    - constructor; [by right|constructor]. }
  cbn [rev app]. rewrite filter_cons_False by auto. rewrite filter_app.
  rewrite (filter_cons_True _ n) by done. rewrite filter_nil.
  assert (filter (fun s => s <> "") (if segs is [] then [""] else segs) = segs) as ->.
  { destruct segs as [|x segs']; [by rewrite filter_cons_False by auto|].
    by apply filter_simple. }
  rewrite bool_decide_false by (by apply join_nonempty).
  reflexivity.
Qed.

Lemma take_while_app {A} (p : A -> bool) xs ys :
  Forall (fun x => p x = true) xs ->
  match ys with [] => True | y :: _ => p y = false end ->
  take_while p (xs ++ ys) = xs.
Proof.
  intros Hxs Hys. induction Hxs as [|x xs Hx _ IH].
  - destruct ys as [|y ys]; [done|]. cbn. by rewrite Hys.
  - cbn. by rewrite Hx, IH.
Qed.

Lemma dirname_end_plain xs ys i m :
  xs <> [] -> Forall (fun c => is_slash c = false) xs ->
  dirname_end (xs ++ ys) i m = dirname_end ys (i - length xs) false.
Proof.
  intros Hne Hxs. revert i m Hne.
  induction Hxs as [|x xs Hx _ IH]; intros i m Hne; [done|].
  cbn [app dirname_end]. rewrite Hx.
  destruct xs as [|x' xs].
  - reflexivity.
  - rewrite IH by done. f_equal. cbn [length]. lia.
Qed.

Lemma join_simple_nonempty segs :
  segs <> [] -> Forall simple_name segs -> chars (join "/" segs) <> [].
Proof.
  intros Hne Hs. destruct segs as [|x segs]; [done|].
  inversion Hs as [|? ? Hx _]; subst.
  destruct (simple_name_chars _ Hx) as (c & cs & Hc & _).
  destruct segs as [|y segs].
  - cbn [join String.concat]. by rewrite Hc.
  - rewrite join_cons_cons, chars_app, Hc. done.
Qed.

Lemma under_root_snoc_chars segs n :
  chars (under_root (segs ++ [n]))
  = "/"%char :: (if segs is [] then [] else chars (join "/" segs) ++ chars "/")
    ++ chars n.
Proof.
  rewrite under_root_chars. destruct segs as [|x segs]; [reflexivity|].
  rewrite join_snoc by done. rewrite !chars_app. cbn [chars list_ascii_of_string app].
  by rewrite <- app_assoc.
Qed.

(** [path.basename] of a normalized absolute path is its last name. *)
Lemma path_basename_under_root segs n :
  simple_name n -> path_basename (under_root (segs ++ [n])) = n.
Proof.
  intros Hn. unfold path_basename. rewrite under_root_snoc_chars.
  set (pre := "/"%char :: (if segs is [] then [] else chars (join "/" segs) ++ chars "/")).
  change ("/"%char :: ?x ++ chars n) with (pre ++ chars n).
  destruct (last_char_plain n pre Hn) as (z & zs & Hrev & Hz).
  rewrite Hrev. cbn [drop_while]. rewrite Hz. rewrite <- Hrev.
  rewrite rev_app_distr.
  rewrite take_while_app.
  - by rewrite rev_involutive, text_chars.
  - apply Forall_rev. eapply Forall_impl; [apply (simple_name_plain _ Hn)|].
    intros c Hc. cbn beta. by rewrite Hc.
  - unfold pre. destruct segs as [|x segs]; [done|].
    cbn [rev]. rewrite rev_app_distr. done.
Qed.

(** [path.dirname] of a normalized absolute path drops its last name. *)
Lemma path_dirname_under_root segs n :
  Forall simple_name segs -> simple_name n ->
  path_dirname (under_root (segs ++ [n])) = under_root segs.
Proof.
  intros Hs Hn. unfold path_dirname. rewrite under_root_snoc_chars.
  cbn [is_slash char_is code N_of_ascii N.eqb Pos.eqb].
  set (pre := if segs is [] then [] else chars (join "/" segs) ++ chars "/").
  rewrite rev_app_distr.
  destruct (simple_name_chars _ Hn) as (c & cs & Hc & _).
  rewrite dirname_end_plain; cycle 1.
  { rewrite Hc. intros H. apply (f_equal (@length _)) in H.
    rewrite length_rev in H. done. }
  { apply Forall_rev, (simple_name_plain _ Hn). }
  rewrite length_rev, length_app, Nat.add_sub.
  destruct segs as [|x segs]; [done|].
  unfold pre. rewrite rev_app_distr. cbn [chars list_ascii_of_string rev app dirname_end].
  cbn [is_slash char_is code N_of_ascii N.eqb Pos.eqb].
  pose proof (join_simple_nonempty (x :: segs)) as Hlen.
  destruct (chars (join "/" (x :: segs))) as [|j js] eqn:Hj; [by destruct Hlen|].
  change (is_slash "/") with true. cbn match.
  rewrite length_app. cbn [length].
  replace (S (length js) + 1) with (S (S (length js))) by lia.
  cbn [Nat.eqb andb take app]. rewrite <- app_assoc, take_app_length.
  unfold under_root. apply chars_inj. rewrite chars_app, chars_text, Hj. done.
Qed.

Lemma under_root_inj segs1 segs2 :
  Forall simple_name segs1 -> Forall simple_name segs2 ->
  under_root segs1 = under_root segs2 -> segs1 = segs2.
Proof.
  intros H1 H2 Heq. apply (f_equal (split 47)) in Heq.
  rewrite !split_under_root in Heq
    by (eapply Forall_impl; [eassumption|apply simple_name_plain]).
  injection Heq as Heq.
  destruct segs1 as [|x1 l1], segs2 as [|x2 l2]; try done.
  - injection Heq as <- _. inversion H2 as [|? ? (Hx & _) _]. done.
  - injection Heq as -> _. inversion H1 as [|? ? (Hx & _) _]. done.
Qed.

Lemma simple_name_literal n :
  bool_decide (n <> "" /\ n <> "." /\ n <> "..") = true ->
  forallb (fun c => negb (is_slash c)) (chars n) = true ->
  simple_name n.
Proof.
  intros H1 H2. apply bool_decide_eq_true in H1 as (? & ? & ?).
  repeat split; try done.
  apply Forall_forall. intros c Hc.
  rewrite forallb_forall in H2. apply list_elem_of_In in Hc.
  specialize (H2 c Hc). by destruct (is_slash c).
Qed.

Ltac simple_literal := apply simple_name_literal; vm_compute; reflexivity.

Lemma sibling_distinct segs n1 n2 :
  simple_name n1 -> simple_name n2 -> n1 <> n2 ->
  under_root (segs ++ [n1]) <> under_root (segs ++ [n2]).
Proof.
  intros H1 H2 Hne Heq. apply (f_equal path_basename) in Heq.
  by rewrite !path_basename_under_root in Heq.
Qed.

Lemma child_not_parent segs n :
  Forall simple_name segs -> simple_name n ->
  under_root (segs ++ [n]) <> under_root segs.
Proof.
  intros Hs Hn Heq. apply under_root_inj in Heq; [|by apply Forall_app; auto|done].
  apply (f_equal (@length _)) in Heq. rewrite length_app in Heq. cbn in Heq. lia.
Qed.

Lemma add_entry_other p q (fs : gmap string node) :
  q <> path_dirname p -> add_entry p fs !! q = fs !! q.
Proof.
  intros Hne. unfold add_entry.
  destruct (fs !! path_dirname p) as [[d|es]|]; try done.
  by rewrite lookup_insert_ne.
Qed.

Lemma add_entry_parent p (fs : gmap string node) :
  is_dir fs (path_dirname p) = true -> is_dir (add_entry p fs) (path_dirname p) = true.
Proof.
  intros Hd. apply is_dir_lookup in Hd as [es Hd].
  unfold add_entry, is_dir. rewrite Hd. by rewrite lookup_insert_eq.
Qed.

Lemma path_dirname_root : path_dirname "/" = "/".
Proof. reflexivity. Qed.

(** [mkdir -p] touches the directory and its ancestors only. *)
Lemma mkdir_p_frame fuel segs (fs fs' : gmap string node) q :
  Forall simple_name segs ->
  mkdir_p fuel (under_root segs) fs = inl fs' ->
  (forall k, q <> under_root (take k segs)) ->
  fs' !! q = fs !! q.
Proof.
  revert segs fs fs'. induction fuel as [|fuel IH]; intros segs fs fs' Hs Hrun Hq.
  - cbn in Hrun. pose proof (Hq (length segs)) as Hq0. rewrite firstn_all in Hq0.
    destruct (fs !! under_root segs) as [[d|es]|]; simplify_eq; [done|].
    by rewrite lookup_insert_ne.
  - cbn [mkdir_p] in Hrun.
    pose proof (Hq (length segs)) as Hq0. rewrite firstn_all in Hq0.
    destruct (fs !! under_root segs) as [[d|es]|]; simplify_eq; [done|].
    destruct segs as [|x segs' _] using rev_ind.
    + rewrite bool_decide_true in Hrun by done. simplify_eq.
      by rewrite lookup_insert_ne.
    + apply Forall_app in Hs as [Hs Hx]. inversion Hx as [|? ? Hx' _]; subst.
      rewrite path_dirname_under_root in Hrun by done.
      rewrite bool_decide_false in Hrun
        by (intros Heq; symmetry in Heq; by apply child_not_parent in Heq).
      destruct (mkdir_p fuel (under_root segs') fs) as [fs1|e] eqn:Hrec;
        [|destruct e; discriminate].
      simplify_eq. rewrite lookup_insert_ne by done.
      rewrite add_entry_other; cycle 1.
      { rewrite path_dirname_under_root by done.
        specialize (Hq (length segs')). by rewrite take_app_length in Hq. }
      apply (IH segs'); [done|done|].
      intros k. destruct (decide (k <= length segs')) as [Hk|Hk].
      * specialize (Hq k). by rewrite take_app_le in Hq by done.
      * specialize (Hq (length segs')). rewrite take_app_length in Hq.
        by rewrite take_ge by lia.
Qed.

Lemma not_prefix_of_sibling segs n1 n2 k :
  Forall simple_name segs -> simple_name n1 -> simple_name n2 -> n1 <> n2 ->
  under_root (segs ++ [n1]) <> under_root (take k (segs ++ [n2])).
Proof.
  intros Hs H1 H2 Hne Heq.
  apply under_root_inj in Heq;
    [|by apply Forall_app; auto|by apply Forall_take, Forall_app; auto].
  destruct (decide (k <= length segs)) as [Hk|Hk].
  - apply (f_equal (@length _)) in Heq.
    rewrite length_take, !length_app in Heq. cbn in Heq. lia.
  - rewrite take_ge in Heq by (rewrite length_app; cbn; lia).
    apply app_inj_tail in Heq as [_ ?]. done.
Qed.

Lemma not_prefix_of_shorter segs n1 n2 n3 k :
  Forall simple_name segs -> simple_name n1 -> simple_name n2 -> simple_name n3 ->
  under_root ((segs ++ [n1]) ++ [n2]) <> under_root (take k (segs ++ [n3])).
Proof.
  intros Hs H1 H2 H3 Heq.
  apply under_root_inj in Heq;
    [|by repeat (apply Forall_app; split); auto
     |by apply Forall_take, Forall_app; auto].
  apply (f_equal (@length _)) in Heq.
  rewrite length_take, !length_app in Heq. cbn in Heq. lia.
Qed.

(** ** The content addresser *)

Example sha256_hex_empty :
  sha256_hex [] = "e3b0c44298fc1c149afbf4c8996fb92427ae41e4649b934ca495991b7852b855".
Proof. vm_compute. reflexivity. Qed.

Example sha256_hex_abc :
  sha256_hex (utf8_encode "abc")
  = "ba7816bf8f01cfea414140de5dae2223b00361a396177a9cb410ff61f20015ad".
Proof. vm_compute. reflexivity. Qed.

Example sha256_hex_two_blocks :
  sha256_hex (utf8_encode "abcdbcdecdefdefgefghfghighijhijkijkljklmklmnlmnomnopnopq")
  = "248d6a61d20638b8e5c026930c3e6039a33ce45964ff2167f6ecedd419db06c1".
Proof. vm_compute. reflexivity. Qed.

(** The derived constants start and end as the standard lists them. *)
Example sha256_round_constants :
  length SHA256.K = 64
  /\ nth 0 SHA256.K 0%N = 0x428a2f98%N
  /\ nth 63 SHA256.K 0%N = 0xc67178f2%N.
Proof. vm_compute. repeat split; reflexivity. Qed.

Example sha256_initial_hash_value :
  nth 0 SHA256.initial_words 0%N = 0x6a09e667%N
  /\ nth 7 SHA256.initial_words 0%N = 0x5be0cd19%N.
Proof. vm_compute. split; reflexivity. Qed.

(** The digest of the empty descriptor is the digest of the two bytes of
    an empty JSON object, not of the empty byte sequence. *)
Example empty_descriptor_digest :
  get "digest" Abis.EMPTY_DESCRIPTOR = Some (Str ("sha256:" +:+ sha256_hex (utf8_encode "{}")))
  /\ get "size" Abis.EMPTY_DESCRIPTOR = Some (Num (N.of_nat (length (utf8_encode "{}")))).
Proof. vm_compute. split; reflexivity. Qed.

Lemma be_bytes_length n x : length (SHA256.be_bytes n x) = n.
Proof. unfold SHA256.be_bytes. by rewrite length_map, length_rev, length_seq. Qed.

Lemma be_bytes_range n x : Forall (fun b => (b < 256)%N) (SHA256.be_bytes n x).
Proof.
  unfold SHA256.be_bytes. apply Forall_map, Forall_forall. intros i _.
  by apply N.mod_lt.
Qed.

Lemma hash_length data : length (SHA256.hash data) = 32.
Proof.
  unfold SHA256.hash.
  destruct (SHA256.blocks _ _ _) as [[[[[[[a b] c] d] e] f] g] h].
  cbn [SHA256.digest_words flat_map].
  by rewrite !length_app, !be_bytes_length.
Qed.

Lemma hash_range data : Forall (fun b => (b < 256)%N) (SHA256.hash data).
Proof.
  unfold SHA256.hash.
  destruct (SHA256.blocks _ _ _) as [[[[[[[a b] c] d] e] f] g] h].
  cbn [SHA256.digest_words flat_map].
  repeat (apply Forall_app; split); try apply be_bytes_range. constructor.
Qed.

Lemma hex_digit_lowercase n : (n < 16)%N -> lowercase_hex (hex_digit n) = true.
Proof.
  intros Hn. unfold hex_digit.
  assert (N.to_nat n < 16) as Hm by lia.
  generalize dependent (N.to_nat n). intros m Hm.
  do 16 (destruct m as [|m]; [reflexivity|]). lia.
Qed.

Lemma hex_of_bytes_length bs : String.length (hex_of_bytes bs) = 2 * length bs.
Proof. induction bs as [|b bs IH]; [done|]. cbn. rewrite IH. lia. Qed.

Lemma hex_of_bytes_lowercase bs :
  Forall (fun b => (b < 256)%N) bs ->
  Forall (fun c => lowercase_hex c = true) (chars (hex_of_bytes bs)).
Proof.
  induction 1 as [|b bs Hb _ IH]; [constructor|].
  cbn. constructor; [|constructor; [|exact IH]]; apply hex_digit_lowercase.
  - apply N.Div0.div_lt_upper_bound. lia.
  - by apply N.mod_lt.
Qed.

(** C8: the descriptor that the content addresser returns for a file
    holding the bytes [data], empty or not, has the size [length data] and
    the digest made of the prefix sha256, a colon and the SHA-256 hash of
    [data] in lowercase hexadecimal: 64 digits for the 32 bytes of the
    hash.  This holds for the addresser of either script. *)
Theorem content_address_is_sha256_and_length w filePath data :
  files w !! filePath = Some (File data) ->
  Abis.computeDigestAndSize filePath w
  = (w, Val {| Abis.digest := "sha256:" +:+ hex_of_bytes (SHA256.hash data);
               Abis.size := N.of_nat (length data) |})
  /\ Submodules.computeDigestAndSize filePath w
     = (w, Val ("sha256:" +:+ hex_of_bytes (SHA256.hash data), N.of_nat (length data)))
  /\ length (SHA256.hash data) = 32
  /\ String.length (hex_of_bytes (SHA256.hash data)) = 64
  /\ Forall (fun c => lowercase_hex c = true) (chars (hex_of_bytes (SHA256.hash data))).
Proof.
  intros Hf. repeat split.
  - unfold Abis.computeDigestAndSize, bind, readFileSync. by rewrite Hf.
  - unfold Submodules.computeDigestAndSize, bind, readFileSync. by rewrite Hf.
  - apply hash_length.
  - by rewrite hex_of_bytes_length, hash_length.
  - apply hex_of_bytes_lowercase, hash_range.
Qed.

(** ** Command lines *)

Lemma quotable_child segs n :
  quotable (under_root segs) -> quotable n -> quotable (under_root (segs ++ [n])).
Proof.
  unfold quotable. rewrite under_root_snoc_chars, under_root_chars.
  cbn [chars list_ascii_of_string app]. intros Hs Hn.
  apply Forall_cons in Hs as [Hslash Hs].
  constructor; [done|]. apply Forall_app. split; [|done].
  destruct segs as [|x segs]; [constructor|].
  apply Forall_app. split; [exact Hs|]. by repeat constructor.
Qed.

Lemma quotable_literal s :
  forallb shell_literal (chars s) = true -> quotable s.
Proof.
  intros H. apply Forall_forall. intros c Hc.
  rewrite forallb_forall in H. apply H. by apply list_elem_of_In.
Qed.

Lemma under_root_absolute segs : startsWith (under_root segs) "/" = true.
Proof.
  change (under_root segs) with (String "/" (join "/" segs)).
  unfold startsWith. cbn. by destruct (join "/" segs).
Qed.

Section AbisProperties.

Variable cwd : string.
Variable tar_archive : list (string * node) -> list byte.

Local Abbreviation SINGLE_LAYER_TGZ := (Abis.SINGLE_LAYER_TGZ cwd).
Local Abbreviation SINGLE_CONFIG_TGZ := (Abis.SINGLE_CONFIG_TGZ cwd).
Local Abbreviation tarFiles := (Abis.tarFiles tar_archive).
Local Abbreviation approachA := (Abis.approachA cwd tar_archive).
Local Abbreviation approachB := (Abis.approachB cwd tar_archive).
Local Abbreviation approachC := (Abis.approachC).
Local Abbreviation approachD := (Abis.approachD cwd tar_archive).
Local Abbreviation bundle := (Abis.bundle tar_archive).
Local Abbreviation switch_approach := (Abis.switch_approach cwd tar_archive).
Local Abbreviation ready := (Abis.ready cwd).
Local Abbreviation ensureOutputDir := (Abis.ensureOutputDir cwd).
Local Abbreviation listAbiFiles := (Abis.listAbiFiles cwd).
Local Abbreviation ABI_DIR := (Abis.ABI_DIR cwd).
Local Abbreviation main := (Abis.main cwd tar_archive).
Local Abbreviation found :=
  (fun abiFiles : list string =>
     "Found " +:+ pretty (length abiFiles) +:+ " ABI files:"
     +:+ join "," (map (fun f => nl +:+ "  " +:+ f) abiFiles)).

Lemma clear_slot out w :
  is_dir (files w) out = false ->
  (let* present := existsSync out in
   if present then unlinkSync out else ret tt) w
  = (with_files w (Abis.cleared out (files w)), Val tt).
Proof.
  intros Hd. unfold bind, existsSync, unlinkSync, ret, Abis.cleared, is_dir in *.
  destruct (files w !! out) as [[d|es]|] eqn:E; try done.
  - rewrite bool_decide_true by eauto. by rewrite E.
  - rewrite bool_decide_false by (by intros [? ?]). by rewrite with_files_same.
Qed.


Lemma cleared_lookup_other out fs p :
  p <> out -> is_file fs p = true -> is_dir fs (path_dirname out) = true ->
  Abis.cleared out fs !! p = fs !! p.
Proof.
  intros Hne Hf Hd. unfold Abis.cleared.
  destruct (fs !! out) as [[d|es]|] eqn:E; try done.
  rewrite lookup_delete_ne by done.
  unfold remove_entry.
  apply is_dir_lookup in Hd as [es Hes]. rewrite Hes.
  rewrite lookup_insert_ne; [done|].
  intros Heq. apply is_file_lookup in Hf as [? Hf]. congruence.
Qed.

Lemma cleared_slot_free out fs :
  is_dir fs out = false -> Abis.cleared out fs !! out = None.
Proof.
  unfold Abis.cleared, is_dir. intros Hd.
  destruct (fs !! out) as [[d|es]|] eqn:E; try done.
  by rewrite lookup_delete_eq.
Qed.

Lemma cleared_parent out fs :
  is_dir fs (path_dirname out) = true -> is_dir fs out = false ->
  is_dir (Abis.cleared out fs) (path_dirname out) = true.
Proof.
  intros Hd Ho. unfold Abis.cleared.
  destruct (fs !! out) as [[d|es]|] eqn:E; try done.
  assert (path_dirname out <> out) as Hne.
  { intros Heq. apply is_dir_lookup in Hd as [es Hes]. congruence. }
  unfold is_dir. rewrite lookup_delete_ne by done.
  unfold remove_entry.
  apply is_dir_lookup in Hd as [es Hes]. rewrite Hes.
  by rewrite lookup_insert_eq.
Qed.

Lemma tar_members_ext fs fs' parent names :
  (forall name, name ∈ names ->
     fs' !! path_join [parent; name] = fs !! path_join [parent; name]) ->
  Abis.tar_members fs' parent names = Abis.tar_members fs parent names.
Proof.
  unfold Abis.tar_members. induction names as [|n names IH]; intros H; [done|].
  assert (omap (fun name => pair name <$> fs' !! path_join [parent; name]) names
          = omap (fun name => pair name <$> fs !! path_join [parent; name]) names)
    as IH' by (apply IH; intros ? ?; apply H; set_solver).
  cbn. rewrite H by set_solver.
  destruct (fs !! path_join [parent; n]); cbn; [f_equal|]; exact IH'.
Qed.

Lemma tar_members_length fs parent names :
  Forall (fun name => is_file fs (path_join [parent; name]) = true) names ->
  length (Abis.tar_members fs parent names) = length names.
Proof.
  unfold Abis.tar_members. induction 1 as [|n names Hn _ IH]; [done|].
  apply is_file_lookup in Hn as [d Hn]. cbn. rewrite Hn. cbn. f_equal. exact IH.
Qed.

Lemma tar_members_names fs parent names :
  Forall (fun name => is_file fs (path_join [parent; name]) = true) names ->
  map fst (Abis.tar_members fs parent names) = names.
Proof.
  unfold Abis.tar_members. induction 1 as [|n names Hn _ IH]; [done|].
  apply is_file_lookup in Hn as [d Hn]. cbn. rewrite Hn. cbn. f_equal. exact IH.
Qed.

Lemma tar_members_files fs parent names :
  Forall (fun name => is_file fs (path_join [parent; name]) = true) names ->
  Forall2 (fun name member =>
             exists data, fs !! path_join [parent; name] = Some (File data)
                          /\ member = (name, File data))
          names (Abis.tar_members fs parent names).
Proof.
  unfold Abis.tar_members. induction 1 as [|n names Hn _ IH]; [constructor|].
  apply is_file_lookup in Hn as [d Hn]. cbn. rewrite Hn. cbn.
  constructor; [by exists d|exact IH].
Qed.


Lemma member_paths_cons first rest :
  Abis.member_paths (first :: rest)
  = map (fun name => path_join [path_dirname first; name])
        (map path_basename (first :: rest)).
Proof. unfold Abis.member_paths. cbn [lookup list_lookup]. by rewrite map_map. Qed.

(** Clearing the slot, archiving and addressing the archive, as
    approaches A and B do in sequence. *)
Lemma archive_step {B} abiFiles out w (k : Abis.digest_and_size -> js B) :
  abiFiles <> [] ->
  Abis.archivable w abiFiles out ->
  bind (let* present := existsSync out in
        if present then unlinkSync out else ret tt)
       (fun _ => bind (tarFiles abiFiles out)
                      (fun _ => bind (Abis.computeDigestAndSize out) k)) w
  = k {| Abis.digest := "sha256:" +:+ sha256_hex (bundle w abiFiles);
         Abis.size := N.of_nat (length (bundle w abiFiles)) |}
      (with_files w (Abis.archived out (bundle w abiFiles) (files w))).
Proof.
  intros Hne (Hfiles & Hout & Hparent & Hnodir & _).
  destruct abiFiles as [|first rest]; [done|].
  rewrite member_paths_cons in Hfiles, Hout.
  set (names := map path_basename (first :: rest)) in *.
  set (parent := path_dirname first) in *.
  assert (Abis.tar_members (Abis.cleared out (files w)) parent names
          = Abis.tar_members (files w) parent names) as Hsame.
  { apply tar_members_ext. intros name Hin.
    assert (path_join [parent; name] ∈ map (fun n => path_join [parent; n]) names)
      as Hin' by (apply list_elem_of_fmap; eauto).
    apply cleared_lookup_other; [set_solver| |done].
    rewrite Forall_forall in Hfiles. by apply Hfiles. }
  assert (length (Abis.tar_members (files w) parent names) = length names) as Hlen.
  { apply tar_members_length. by rewrite Forall_fmap in Hfiles. }
  unfold bind at 1. rewrite clear_slot by done.
  unfold bind at 1. unfold Abis.tarFiles, bind at 1.
  cbn [lookup list_lookup path_dirname_arg ret].
  unfold Abis.execSync_tar. cbn [files with_files].
  fold names parent. rewrite Hsame.
  unfold write_file. rewrite cleared_slot_free by done.
  pose proof (cleared_parent out (files w) Hparent Hnodir) as Hp.
  apply is_dir_lookup in Hp as [es Hp]. rewrite Hp.
  rewrite bool_decide_true by done.
  unfold bind at 1, Abis.computeDigestAndSize, bind at 1, readFileSync.
  cbn [files with_files]. rewrite lookup_insert_eq.
  unfold ret. unfold Abis.bundle, Abis.archived. cbn [lookup list_lookup].
  fold names parent. by destruct w.
Qed.


Lemma approachA_spec w abiFiles :
  abiFiles <> [] ->
  Abis.archivable w abiFiles SINGLE_LAYER_TGZ ->
  approachA abiFiles w
  = (World (Abis.archived SINGLE_LAYER_TGZ (bundle w abiFiles) (files w))
           (stdout w ++ ["Approach A: minimal config + single layer with all ABI files."])
           (stderr w),
     Val (Obj [ ("schemaVersion", Num 2);
                ("mediaType", Str "application/vnd.oci.image.manifest.v1+json");
                ("artifactType", Str "application/vnd.solidity.abi");
                ("config", Abis.EMPTY_DESCRIPTOR);
                ("layers",
                 Arr [ Obj [ ("mediaType", Str "application/vnd.solidity.abi.layer.v1+tar+gzip");
                             ("digest", Str ("sha256:" +:+ sha256_hex (bundle w abiFiles)));
                             ("size", Num (N.of_nat (length (bundle w abiFiles)))) ] ]) ])).
Proof.
  intros Hne Hready. unfold Abis.approachA.
  unfold bind at 1, console_log at 1.
  rewrite archive_step by done. done.
Qed.

Lemma approachB_spec w abiFiles :
  abiFiles <> [] ->
  Abis.archivable w abiFiles SINGLE_CONFIG_TGZ ->
  approachB abiFiles w
  = (World (Abis.archived SINGLE_CONFIG_TGZ (bundle w abiFiles) (files w))
           (stdout w ++ ["Approach B: everything in config, no layers."])
           (stderr w),
     Val (Obj [ ("schemaVersion", Num 2);
                ("mediaType", Str "application/vnd.oci.image.manifest.v1+json");
                ("artifactType", Str "application/vnd.solidity.abi");
                ("config",
                 Obj [ ("mediaType", Str "application/vnd.solidity.abi.config.v1+tar+gzip");
                       ("digest", Str ("sha256:" +:+ sha256_hex (bundle w abiFiles)));
                       ("size", Num (N.of_nat (length (bundle w abiFiles)))) ]);
                ("layers", Arr []) ])).
Proof.
  intros Hne Hready. unfold Abis.approachB.
  unfold bind at 1, console_log at 1.
  rewrite archive_step by done. done.
Qed.

Lemma approachD_unfold w abiFiles :
  approachD abiFiles w
  = match approachA abiFiles
            (World (files w)
                   (stdout w ++ ["Approach D: referencing another manifest with 'subject'. Example uses Approach A + 'subject'."])
                   (stderr w)) with
    | (w', Val baseManifest) => (w', Val (set "subject" Abis.SUBJECT_DESCRIPTOR baseManifest))
    | (w', Throw e) => (w', Throw e)
    | (w', Exit n) => (w', Exit n)
    end.
Proof. reflexivity. Qed.

(** *** The files that [listAbiFiles] returns *)

Lemma constant_paths segs :
  cwd = under_root segs -> Forall simple_name segs ->
  ABI_DIR = under_root (segs ++ ["contracts"])
  /\ Abis.OUTPUT_DIR cwd = under_root (segs ++ ["output"])
  /\ SINGLE_LAYER_TGZ = under_root ((segs ++ ["output"]) ++ ["abis-single-layer.tgz"])
  /\ SINGLE_CONFIG_TGZ = under_root ((segs ++ ["output"]) ++ ["abis-config.tgz"])
  /\ Abis.MANIFEST_JSON cwd = under_root ((segs ++ ["output"]) ++ ["manifest.json"]).
Proof.
  intros -> Hs.
  assert (simple_name "output") as Ho by simple_literal.
  assert (Forall simple_name (segs ++ ["output"])) as Hso
    by (apply Forall_app; split; [done|by constructor]).
  unfold Abis.ABI_DIR, Abis.MANIFEST_JSON, Abis.SINGLE_LAYER_TGZ,
    Abis.SINGLE_CONFIG_TGZ, Abis.OUTPUT_DIR.
  rewrite !path_join_under_root by (try done; simple_literal).
  done.
Qed.

(** A listed file is found by [tar] under the name it has in the
    [contracts] directory, which is also the title approach C gives it. *)
Lemma listed_file abiName :
  absolute_path cwd -> simple_name abiName ->
  path_basename (path_join [ABI_DIR; abiName]) = abiName
  /\ path_dirname (path_join [ABI_DIR; abiName]) = ABI_DIR
  /\ path_join [ABI_DIR; abiName] <> SINGLE_LAYER_TGZ
  /\ path_join [ABI_DIR; abiName] <> SINGLE_CONFIG_TGZ.
Proof.
  intros (segs & Hs & Hcwd) Hn.
  destruct (constant_paths segs Hcwd Hs) as (-> & _ & -> & -> & _).
  assert (simple_name "contracts") as Hc by simple_literal.
  assert (Forall simple_name (segs ++ ["contracts"])) as Hsc
    by (apply Forall_app; split; [done|by constructor]).
  rewrite path_join_under_root by done.
  rewrite path_basename_under_root, path_dirname_under_root by done.
  repeat split; intros Heq;
    (apply under_root_inj in Heq;
     [|by repeat (apply Forall_app; split; [|by constructor])
      |by repeat (apply Forall_app; split; [|by constructor; [simple_literal|]])]);
    apply app_inj_tail in Heq as [Heq _]; by apply app_inj_tail in Heq as [_ ?].
Qed.

(** The command line that [tarFiles] makes of the files that [main]
    lists reaches [tar] as written, when the working directory and the
    names of the entries do. *)
Lemma listed_files_read_as_written names out :
  absolute_path cwd ->
  quotable cwd ->
  out = SINGLE_LAYER_TGZ \/ out = SINGLE_CONFIG_TGZ ->
  Forall simple_name names ->
  Forall member_name names ->
  Abis.read_as_written (map (fun name => path_join [ABI_DIR; name]) names) out.
Proof.
  intros Hcwd Hq Hout Hnames Hmembers.
  pose proof Hcwd as (segs & Hs & Hcwd').
  destruct (constant_paths segs Hcwd' Hs) as (HC & HO & HA & HB & _).
  rewrite Hcwd' in Hq.
  assert (quotable ABI_DIR) as HqC
    by (rewrite HC; apply quotable_child; [done|by apply quotable_literal]).
  assert (quotable out /\ startsWith out "/" = true) as [HqO Habs].
  { destruct Hout as [->| ->]; [rewrite HA|rewrite HB];
      (split; [|apply under_root_absolute]);
      repeat (apply quotable_child; [|by apply quotable_literal]); done. }
  split; [done|]. split; [done|]. split.
  - destruct names as [|first rest]; [done|].
    cbn [map lookup list_lookup].
    apply Forall_cons in Hnames as [Hfirst _].
    by destruct (listed_file first Hcwd Hfirst) as (_ & -> & _).
  - rewrite map_map.
    assert (map (fun name => path_basename (path_join [ABI_DIR; name])) names = names)
      as ->; [|done].
    rewrite <- (map_id names) at 2. apply map_ext_Forall.
    eapply Forall_impl; [exact Hnames|]. intros name Hname. cbn beta.
    by destruct (listed_file name Hcwd Hname) as (-> & _).
Qed.

(** The files that [main] hands to a builder can be archived: it is enough
    that the entries of [contracts] ending in [.abi] are regular files
    whose names [tar] reads as written, and that the [output] directory
    is there, with no directory in the place of the archive. *)
Lemma listed_files_archivable w names out :
  absolute_path cwd ->
  quotable cwd ->
  out = SINGLE_LAYER_TGZ \/ out = SINGLE_CONFIG_TGZ ->
  Forall simple_name names ->
  Forall member_name names ->
  Forall (fun name => is_file (files w) (path_join [ABI_DIR; name]) = true) names ->
  is_dir (files w) ABI_DIR = true ->
  is_dir (files w) (Abis.OUTPUT_DIR cwd) = true ->
  is_dir (files w) out = false ->
  Abis.archivable w (map (fun name => path_join [ABI_DIR; name]) names) out.
Proof.
  intros Hcwd Hq Hout Hnames Hoperands Hfiles Hcontracts Hdir Hnodir.
  assert (Abis.member_paths (map (fun name => path_join [ABI_DIR; name]) names)
          = map (fun name => path_join [ABI_DIR; name]) names) as Hmembers.
  { unfold Abis.member_paths. destruct names as [|first rest]; [done|].
    set (g := fun name => path_join [ABI_DIR; name]).
    assert (map g (first :: rest) !! 0 = Some (g first)) as -> by reflexivity.
    inversion Hnames as [|? ? Hfirst _]; subst. unfold g at 1.
    destruct (listed_file first Hcwd Hfirst) as (_ & -> & _).
    rewrite map_map. apply map_ext_Forall.
    eapply Forall_impl; [exact Hnames|]. intros name Hname. unfold g.
    by destruct (listed_file name Hcwd Hname) as (-> & _). }
  unfold Abis.archivable. rewrite Hmembers.
  split; [|split; [|split; [|split; [|split]]]].
  - by rewrite Forall_map.
  - intros Hin. apply list_elem_of_fmap in Hin as (name & -> & Hin).
    rewrite Forall_forall in Hnames.
    destruct (listed_file name Hcwd (Hnames _ Hin)) as (_ & _ & HA & HB).
    by destruct Hout as [Heq|Heq]; symmetry in Heq.
  - destruct Hcwd as (segs & Hs & Hcwd).
    destruct (constant_paths segs Hcwd Hs) as (_ & HO & HA & HB & _).
    assert (Forall simple_name (segs ++ ["output"])) as Hso
      by (apply Forall_app; split; [done|by constructor; [simple_literal|]]).
    rewrite HO in Hdir.
    destruct Hout as [->| ->]; [rewrite HA|rewrite HB];
      rewrite path_dirname_under_root by (try done; simple_literal); done.
  - done.
  - by apply listed_files_read_as_written.
  - destruct names as [|first rest]; [done|]. cbn [map lookup list_lookup].
    apply Forall_cons in Hnames as [Hfirst _].
    by destruct (listed_file first Hcwd Hfirst) as (_ & -> & _).
Qed.

(** *** Approach C *)

Lemma approachC_layers_spec w abiFiles datas layers :
  Forall2 (fun f data => files w !! f = Some (File data)) abiFiles datas ->
  Abis.approachC_layers abiFiles layers w
  = (w, Val (layers ++ zip_with Abis.file_layer abiFiles datas)).
Proof.
  intros H. revert layers.
  induction H as [|f data fs ds Hf _ IH]; intros layers.
  - cbn. by rewrite app_nil_r.
  - cbn [Abis.approachC_layers].
    unfold bind at 1, Abis.computeDigestAndSize, bind at 1, readFileSync.
    rewrite Hf. unfold ret at 1. cbn [Abis.digest Abis.size].
    rewrite IH. by rewrite <- app_assoc.
Qed.

Lemma all_files_contents (fs : gmap string node) abiFiles :
  Forall (fun f => is_file fs f = true) abiFiles ->
  exists datas, Forall2 (fun f data => fs !! f = Some (File data)) abiFiles datas.
Proof.
  induction 1 as [|f l Hf _ [datas IH]]; [by exists []|].
  apply is_file_lookup in Hf as [data Hf]. exists (data :: datas). by constructor.
Qed.

Lemma approachC_spec w abiFiles datas :
  Forall2 (fun f data => files w !! f = Some (File data)) abiFiles datas ->
  approachC abiFiles w
  = (World (files w)
           (stdout w ++ ["Approach C: minimal config, each ABI as a separate layer."])
           (stderr w),
     Val (Obj [ ("schemaVersion", Num 2);
                ("mediaType", Str "application/vnd.oci.image.manifest.v1+json");
                ("artifactType", Str "application/vnd.solidity.abi");
                ("config", Abis.EMPTY_DESCRIPTOR);
                ("layers", Arr (zip_with Abis.file_layer abiFiles datas)) ])).
Proof.
  intros H. unfold Abis.approachC.
  unfold bind at 1, console_log at 1. unfold bind at 1.
  rewrite (approachC_layers_spec _ abiFiles datas []) by done. done.
Qed.

(** *** The shape of every manifest a builder returns *)

Lemma approachA_shape w w' abiFiles m :
  approachA abiFiles w = (w', Val m) ->
  exists digest size,
    m = Obj [ ("schemaVersion", Num 2);
              ("mediaType", Str "application/vnd.oci.image.manifest.v1+json");
              ("artifactType", Str "application/vnd.solidity.abi");
              ("config", Abis.EMPTY_DESCRIPTOR);
              ("layers",
               Arr [ Obj [ ("mediaType", Str "application/vnd.solidity.abi.layer.v1+tar+gzip");
                           ("digest", Str digest);
                           ("size", Num size) ] ]) ].
Proof.
  unfold Abis.approachA. intros H.
  do 4 invert_bind H. apply ret_Val_inv in H as [_ ->]. eauto.
Qed.

Lemma approachB_shape w w' abiFiles m :
  approachB abiFiles w = (w', Val m) ->
  exists digest size,
    m = Obj [ ("schemaVersion", Num 2);
              ("mediaType", Str "application/vnd.oci.image.manifest.v1+json");
              ("artifactType", Str "application/vnd.solidity.abi");
              ("config",
               Obj [ ("mediaType", Str "application/vnd.solidity.abi.config.v1+tar+gzip");
                     ("digest", Str digest);
                     ("size", Num size) ]);
              ("layers", Arr []) ].
Proof.
  unfold Abis.approachB. intros H.
  do 4 invert_bind H. apply ret_Val_inv in H as [_ ->]. eauto.
Qed.

Lemma approachC_shape w w' abiFiles m :
  approachC abiFiles w = (w', Val m) ->
  exists layers,
    m = Obj [ ("schemaVersion", Num 2);
              ("mediaType", Str "application/vnd.oci.image.manifest.v1+json");
              ("artifactType", Str "application/vnd.solidity.abi");
              ("config", Abis.EMPTY_DESCRIPTOR);
              ("layers", Arr layers) ].
Proof.
  unfold Abis.approachC. intros H.
  do 2 invert_bind H. apply ret_Val_inv in H as [_ ->]. eauto.
Qed.

Lemma approachD_shape w w' abiFiles m :
  approachD abiFiles w = (w', Val m) ->
  exists digest size,
    m = Obj [ ("schemaVersion", Num 2);
              ("mediaType", Str "application/vnd.oci.image.manifest.v1+json");
              ("artifactType", Str "application/vnd.solidity.abi");
              ("config", Abis.EMPTY_DESCRIPTOR);
              ("layers",
               Arr [ Obj [ ("mediaType", Str "application/vnd.solidity.abi.layer.v1+tar+gzip");
                           ("digest", Str digest);
                           ("size", Num size) ] ]);
              ("subject", Abis.SUBJECT_DESCRIPTOR) ].
Proof.
  unfold Abis.approachD. intros H.
  do 2 invert_bind H. apply ret_Val_inv in H as [_ ->].
  apply approachA_shape in H1 as (d & n & ->). eauto.
Qed.


(** *** Approach D *)

(** C2, as the script has it: approach D takes no subject option and has
    no missing-subject failure.  Every manifest it returns has the fixed
    subject descriptor of the script as its subject; and it does return
    one for every non-empty list of payload files that can be archived
    (regular files, whose names and paths reach [tar] as written). *)
Theorem approachD_attaches_the_fixed_subject w abiFiles :
  (forall w' m,
     approachD abiFiles w = (w', Val m) ->
     get "subject" m = Some Abis.SUBJECT_DESCRIPTOR)
  /\ (abiFiles <> [] ->
      Abis.archivable w abiFiles SINGLE_LAYER_TGZ ->
      exists w' m,
        approachD abiFiles w = (w', Val m)
        /\ get "subject" m = Some Abis.SUBJECT_DESCRIPTOR)
  /\ Abis.SUBJECT_DESCRIPTOR
     = Obj [ ("mediaType", Str "application/vnd.oci.image.manifest.v1+json");
             ("digest", Str "sha256:1111111111111111111111111111111111111111111111111111111111111111");
             ("size", Num 9999) ].
Proof.
  split; [|split; [|done]].
  - intros w' m H. by apply approachD_shape in H as (d & n & ->).
  - intros Hne Hready. rewrite approachD_unfold.
    rewrite approachA_spec by done. eauto.
Qed.

(** C3, as the script has it: the subject is not an input of approach D.
    Every manifest that approach D returns is the manifest that its call
    of approach A returned, with one property appended, the subject, set
    to the fixed subject descriptor, and every other field unchanged.  For
    every non-empty list of payload files that can be archived (regular
    files, whose names and paths reach [tar] as written) both approaches
    return a manifest, and the manifest of approach D is the manifest of
    approach A on the same files and the same world, [tar] giving the
    same archive to both, with that property appended. *)
Theorem approachD_is_approachA_plus_subject w abiFiles :
  (forall wD mD,
     approachD abiFiles w = (wD, Val mD) ->
     exists propsA,
       approachA abiFiles
         (World (files w)
                (stdout w ++ ["Approach D: referencing another manifest with 'subject'. Example uses Approach A + 'subject'."])
                (stderr w))
       = (wD, Val (Obj propsA))
       /\ mD = Obj (propsA ++ [("subject", Abis.SUBJECT_DESCRIPTOR)])
       /\ (forall k, k <> "subject" -> get k mD = get k (Obj propsA))
       /\ get "subject" (Obj propsA) = None)
  /\ (abiFiles <> [] ->
      Abis.archivable w abiFiles SINGLE_LAYER_TGZ ->
      exists wA wD propsA,
        approachA abiFiles w = (wA, Val (Obj propsA))
        /\ approachD abiFiles w
           = (wD, Val (Obj (propsA ++ [("subject", Abis.SUBJECT_DESCRIPTOR)])))
        /\ (forall k, k <> "subject" ->
              get k (Obj (propsA ++ [("subject", Abis.SUBJECT_DESCRIPTOR)]))
              = get k (Obj propsA))
        /\ get "subject" (Obj propsA) = None).
Proof.
  split.
  - intros wD mD H. rewrite approachD_unfold in H.
    destruct (approachA abiFiles _) as [w' [mA|e|n]] eqn:HA; try discriminate.
    injection H as <- <-.
    apply approachA_shape in HA as (d & n & ->).
    eexists. split; [reflexivity|]. split; [reflexivity|]. split; [|reflexivity].
    intros k Hk. cbn [set assign_prop]. decide_literals. cbn.
    repeat case_bool_decide; congruence.
  - intros Hne Hready. rewrite approachD_unfold.
    rewrite !approachA_spec by done.
    do 3 eexists. repeat split; try reflexivity.
    intros k Hk. cbn. repeat case_bool_decide; congruence.
Qed.

(** *** Invariants of the manifests *)

(** C5: every manifest that approach A or approach C returns has a
    config field equal to the fixed empty descriptor, whatever the files
    hold.  Approach A returns a manifest for every non-empty list of
    payload files that can be archived (regular files, whose names and
    paths reach [tar] as written), approach C for every list of regular
    files. *)
Theorem config_is_the_empty_descriptor w abiFiles :
  (forall wA mA,
     approachA abiFiles w = (wA, Val mA) ->
     get "config" mA = Some Abis.EMPTY_DESCRIPTOR)
  /\ (forall wC mC,
        approachC abiFiles w = (wC, Val mC) ->
        get "config" mC = Some Abis.EMPTY_DESCRIPTOR)
  /\ (abiFiles <> [] ->
      Abis.archivable w abiFiles SINGLE_LAYER_TGZ ->
      exists wA mA, approachA abiFiles w = (wA, Val mA)
                    /\ get "config" mA = Some Abis.EMPTY_DESCRIPTOR)
  /\ (Forall (fun f => is_file (files w) f = true) abiFiles ->
      exists wC mC, approachC abiFiles w = (wC, Val mC)
                    /\ get "config" mC = Some Abis.EMPTY_DESCRIPTOR)
  /\ Abis.EMPTY_DESCRIPTOR
     = Obj [ ("mediaType", Str "application/vnd.oci.empty.v1+json");
             ("digest", Str "sha256:44136fa355b3678a1146ad16f7e8649e94fb4fc21fe77e8310c060f61caaff8a");
             ("size", Num 2) ].
Proof.
  split; [|split; [|split; [|split; [|done]]]].
  - intros wA mA H. by apply approachA_shape in H as (d & n & ->).
  - intros wC mC H. by apply approachC_shape in H as (layers & ->).
  - intros Hne HA. rewrite approachA_spec by done. eauto.
  - intros HC. destruct (all_files_contents _ _ HC) as [datas Hd].
    rewrite (approachC_spec _ _ datas) by done. eauto.
Qed.

(** C6: the layers of approach C are one descriptor per payload file, in
    the order of the list; the title annotation of the i-th layer is the
    name of the i-th file and its size is the length of that file. *)
Theorem approachC_layers_follow_the_payloads w abiFiles :
  Forall (fun f => is_file (files w) f = true) abiFiles ->
  exists w' m layers,
    approachC abiFiles w = (w', Val m)
    /\ get "layers" m = Some (Arr layers)
    /\ length layers = length abiFiles
    /\ forall i filePath data,
         abiFiles !! i = Some filePath ->
         files w !! filePath = Some (File data) ->
         exists layer annotations,
           layers !! i = Some layer
           /\ get "annotations" layer = Some annotations
           /\ get "org.opencontainers.image.title" annotations
              = Some (Str (path_basename filePath))
           /\ get "size" layer = Some (Num (N.of_nat (length data)))
           /\ get "digest" layer = Some (Str ("sha256:" +:+ sha256_hex data)).
Proof.
  intros Hfiles. destruct (all_files_contents _ _ Hfiles) as [datas Hd].
  rewrite (approachC_spec _ _ datas) by done.
  do 3 eexists. split; [reflexivity|]. split; [reflexivity|]. split.
  - rewrite length_zip_with. apply Forall2_length in Hd. lia.
  - intros i f data Hi Hf.
    destruct (Forall2_lookup_l _ _ _ _ _ Hd Hi) as (data' & Hi' & Hf').
    assert (data' = data) as -> by congruence.
    exists (Abis.file_layer f data), (Obj [("org.opencontainers.image.title", Str (path_basename f))]).
    split; [|done].
    rewrite lookup_zip_with. rewrite Hi. cbn. by rewrite Hi'.
Qed.

Lemma filter_absent (k : string) (l : list string) :
  Forall (fun x => x <> k) l -> List.filter (fun x => bool_decide (x = k)) l = [].
Proof.
  induction 1 as [|x l Hx _ IH]; [done|]. cbn.
  by rewrite bool_decide_false.
Qed.

Lemma required_fields_of_shape artifactType config layers extra :
  is_descriptor config ->
  Forall (fun k => k <> "config") (map fst extra) ->
  has_required_fields
    (Obj ([ ("schemaVersion", Num 2);
            ("mediaType", Str "application/vnd.oci.image.manifest.v1+json");
            ("artifactType", Str artifactType);
            ("config", config);
            ("layers", layers) ] ++ extra)).
Proof.
  intros Hc Hextra. repeat split; try reflexivity.
  - exists config. done.
  - unfold keys. rewrite map_app, List.filter_app, length_app.
    rewrite (filter_absent "config" (map fst extra)) by done. reflexivity.
Qed.

Lemma empty_descriptor_is_descriptor : is_descriptor Abis.EMPTY_DESCRIPTOR.
Proof. do 3 eexists. repeat split; reflexivity. Qed.

Lemma switch_approach_Some_inv approach abiFiles w w' m :
  switch_approach (Some approach) abiFiles w = (w', Val (Some m)) ->
  approachA abiFiles w = (w', Val m) \/ approachB abiFiles w = (w', Val m)
  \/ approachC abiFiles w = (w', Val m) \/ approachD abiFiles w = (w', Val m).
Proof.
  unfold Abis.switch_approach, fmap_js. intros H.
  repeat case_bool_decide.
  all: try (invert_bind H; apply ret_Val_inv in H; destruct H as [Hw Hm];
            injection Hm as Hm; subst; by eauto).
  apply ret_Val_inv in H. by destruct H.
Qed.

Lemma built_manifest_has_required_fields approach w abiFiles w' m :
  switch_approach (Some approach) abiFiles w = (w', Val (Some m)) ->
  has_required_fields m.
Proof.
  intros H.
  apply switch_approach_Some_inv in H as [H|[H|[H|H]]].
  - apply approachA_shape in H as (d & n & ->).
    apply (required_fields_of_shape _ _ _ []);
      [apply empty_descriptor_is_descriptor|by repeat constructor].
  - apply approachB_shape in H as (d & n & ->).
    apply (required_fields_of_shape _ _ _ []); [|by repeat constructor].
    do 3 eexists. repeat split; reflexivity.
  - apply approachC_shape in H as (layers & ->).
    apply (required_fields_of_shape _ _ _ []);
      [apply empty_descriptor_is_descriptor|by repeat constructor].
  - apply approachD_shape in H as (d & n & ->).
    apply (required_fields_of_shape _ _ _ [("subject", Abis.SUBJECT_DESCRIPTOR)]);
      [apply empty_descriptor_is_descriptor|by repeat constructor].
Qed.

(** C7: every manifest that a builder returns, whichever the approach,
    has the required fields: the schema version 2, the image manifest
    media type and one config descriptor; and each builder does return a
    manifest on a non-empty list of payload files that are ready for it:
    regular files, and for the approaches that archive them (A, B and
    D), names and paths that reach [tar] as written. *)
Theorem every_manifest_has_the_required_fields approach w abiFiles :
  (forall w' m,
     switch_approach (Some approach) abiFiles w = (w', Val (Some m)) ->
     has_required_fields m)
  /\ (approach ∈ ["A"; "B"; "C"; "D"] ->
      abiFiles <> [] ->
      ready approach w abiFiles ->
      exists w' m,
        switch_approach (Some approach) abiFiles w = (w', Val (Some m))
        /\ has_required_fields m).
Proof.
  split; [intros w' m; apply built_manifest_has_required_fields|].
  intros Hin Hne Hready.
  assert (exists w' m, switch_approach (Some approach) abiFiles w = (w', Val (Some m)))
    as (w' & m & Hrun); [|by eauto using built_manifest_has_required_fields].
  unfold Abis.switch_approach, Abis.ready, fmap_js in *.
  repeat (apply elem_of_cons in Hin as [->|Hin]); [| | | |by apply elem_of_nil in Hin];
    decide_literals; unfold bind.
  - rewrite approachA_spec by done. eauto.
  - rewrite approachB_spec by done. eauto.
  - destruct (all_files_contents _ _ Hready) as [datas Hd].
    rewrite (approachC_spec _ _ datas) by done. eauto.
  - rewrite approachD_unfold, approachA_spec by done. eauto.
Qed.

(** *** The empty list of payload files *)

Lemma tarFiles_nil out w : tarFiles [] out w = (w, Throw undefined_path).
Proof. reflexivity. Qed.

Lemma ensureOutputDir_console w w1 r :
  ensureOutputDir w = (w1, r) -> stdout w1 = stdout w /\ stderr w1 = stderr w.
Proof.
  unfold Abis.ensureOutputDir, bind, existsSync, mkdirSync_recursive, ret.
  destruct (negb _); [destruct (mkdir_p _ _ _)|]; intros [= <- <-]; done.
Qed.

Lemma listAbiFiles_empty w entries :
  files w !! ABI_DIR = Some (Dir entries) ->
  List.filter (fun f => endsWith f ".abi") entries = [] ->
  listAbiFiles w = (w, Val []).
Proof.
  intros Hdir Hnone.
  unfold Abis.listAbiFiles, bind, existsSync, readdirSync, ret.
  rewrite bool_decide_true by (rewrite Hdir; eauto). cbn [negb].
  by rewrite Hdir, Hnone.
Qed.

Lemma main_empty_listing approach w w1 entries :
  approach ∈ ["A"; "B"; "C"; "D"] ->
  ensureOutputDir w = (w1, Val tt) ->
  files w1 !! ABI_DIR = Some (Dir entries) ->
  List.filter (fun f => endsWith f ".abi") entries = [] ->
  main (Some approach) w
  = (World (files w1) (stdout w)
           (stderr w ++ ["No .abi files found in 'contracts' directory."]),
     Exit 1).
Proof.
  intros Hin Hout Hdir Hnone.
  destruct (ensureOutputDir_console _ _ _ Hout) as [Hso Hse].
  unfold Abis.main.
  rewrite bool_decide_true
    by (change (Some approach ∈ Some <$> ["A"; "B"; "C"; "D"]);
        by apply list_elem_of_fmap_2).
  cbn [negb].
  unfold bind at 1, ret at 1. unfold bind at 1. rewrite Hout.
  unfold bind at 1. rewrite (listAbiFiles_empty _ entries) by done.
  cbn [length]. rewrite bool_decide_true by done.
  unfold bind, console_error, process_exit. by rewrite Hso, Hse.
Qed.

Lemma ensureOutputDir_frame segs w w1 q :
  cwd = under_root segs -> Forall simple_name segs ->
  ensureOutputDir w = (w1, Val tt) ->
  (forall k, q <> under_root (take k (segs ++ ["output"]))) ->
  files w1 !! q = files w !! q.
Proof.
  intros Hcwd Hs Hrun Hq. assert (simple_name "output") as Hn by simple_literal.
  unfold Abis.ensureOutputDir, Abis.OUTPUT_DIR in Hrun. rewrite Hcwd in Hrun.
  rewrite path_join_under_root in Hrun by done.
  unfold bind, existsSync, mkdirSync_recursive, ret in Hrun.
  destruct (negb _).
  - destruct (mkdir_p _ _ _) as [fs'|e] eqn:Hmk; [|discriminate].
    injection Hrun as <-. cbn [files with_files].
    assert (Forall simple_name (segs ++ ["output"])) as Hs'
      by (apply Forall_app; split; [done|by constructor]).
    apply (mkdir_p_frame _ _ _ _ _ Hs' Hmk Hq).
  - by injection Hrun as <-.
Qed.

(** C4: whatever the approach, when the listing of the payload files is
    empty the run ends with the error message for empty input and the exit
    status 1; nothing is printed on the standard output, and the file
    system is as [ensureOutputDir] left it: no archive and no manifest is
    written. *)
Theorem empty_input_fails_without_manifest approach w w1 entries :
  absolute_path cwd ->
  approach ∈ ["A"; "B"; "C"; "D"] ->
  ensureOutputDir w = (w1, Val tt) ->
  files w !! ABI_DIR = Some (Dir entries) ->
  List.filter (fun f => endsWith f ".abi") entries = [] ->
  exists w',
    main (Some approach) w = (w', Exit 1)
    /\ stdout w' = stdout w
    /\ stderr w' = stderr w ++ ["No .abi files found in 'contracts' directory."]
    /\ files w' = files w1
    /\ files w' !! Abis.MANIFEST_JSON cwd = files w !! Abis.MANIFEST_JSON cwd
    /\ files w' !! SINGLE_LAYER_TGZ = files w !! SINGLE_LAYER_TGZ
    /\ files w' !! SINGLE_CONFIG_TGZ = files w !! SINGLE_CONFIG_TGZ.
Proof.
  intros (segs & Hs & Hcwd) Hin Hout Hdir Hnone.
  assert (simple_name "output") as Hn by simple_literal.
  assert (forall q, (forall k, q <> under_root (take k (segs ++ ["output"]))) ->
                    files w1 !! q = files w !! q) as Hframe
    by (intros q; by apply ensureOutputDir_frame).
  erewrite main_empty_listing; [| done | done | | done].
  - eexists. split; [reflexivity|]. cbn [files stdout stderr].
    repeat split; apply Hframe; intros k;
      unfold Abis.MANIFEST_JSON, Abis.SINGLE_LAYER_TGZ, Abis.SINGLE_CONFIG_TGZ,
        Abis.OUTPUT_DIR; rewrite Hcwd;
      rewrite !path_join_under_root
        by (try (apply Forall_app; split; [done|by constructor]); try done; simple_literal);
      apply not_prefix_of_shorter; try done; simple_literal.
  - rewrite <- Hdir. apply Hframe. intros k.
    unfold Abis.ABI_DIR. rewrite Hcwd.
    rewrite path_join_under_root by (try done; simple_literal).
    apply not_prefix_of_sibling; try done; simple_literal.
Qed.

(** C9: the builders of approaches A and B do not check for an empty
    list: [tarFiles] applied to it reads the missing first element and
    throws a type error, so both builders end in an exception and not in
    the empty-input report (the builder of approach C returns a manifest
    without layers); that report is made by [main] alone, which exits
    before any builder has run. *)
Theorem builders_do_not_guard_empty_input w :
  (forall out, tarFiles [] out w = (w, Throw undefined_path))
  /\ (exists w' m, approachC [] w = (w', Val m) /\ get "layers" m = Some (Arr []))
  /\ (exists w' e, approachA [] w = (w', Throw e)
                   /\ stderr w' = stderr w
                   /\ (is_dir (files w) SINGLE_LAYER_TGZ = false -> e = undefined_path))
  /\ (exists w' e, approachB [] w = (w', Throw e)
                   /\ stderr w' = stderr w
                   /\ (is_dir (files w) SINGLE_CONFIG_TGZ = false -> e = undefined_path))
  /\ (forall approach w1 entries,
        approach ∈ ["A"; "B"; "C"; "D"] ->
        ensureOutputDir w = (w1, Val tt) ->
        files w1 !! ABI_DIR = Some (Dir entries) ->
        List.filter (fun f => endsWith f ".abi") entries = [] ->
        exists w', main (Some approach) w = (w', Exit 1)
                   /\ stdout w' = stdout w
                   /\ stderr w' = stderr w ++ ["No .abi files found in 'contracts' directory."]).
Proof.
  split; [intros; apply tarFiles_nil|].
  split; [rewrite (approachC_spec w [] []) by constructor; eauto|].
  split; [|split].
  - unfold Abis.approachA. unfold bind at 1, console_log at 1.
    unfold bind at 1.
    destruct (is_dir (files w) SINGLE_LAYER_TGZ) eqn:Hd.
    + unfold bind at 1, existsSync, unlinkSync. cbn [files].
      apply is_dir_lookup in Hd as [es Hd].
      rewrite bool_decide_true by (rewrite Hd; eauto).
      cbv beta. cbn [files]. rewrite Hd.
      do 2 eexists. split; [reflexivity|]. split; [done|]. done.
    + rewrite clear_slot by done.
      unfold bind at 1. rewrite tarFiles_nil.
      do 2 eexists. split; [reflexivity|]. split; done.
  - unfold Abis.approachB. unfold bind at 1, console_log at 1.
    unfold bind at 1.
    destruct (is_dir (files w) SINGLE_CONFIG_TGZ) eqn:Hd.
    + unfold bind at 1, existsSync, unlinkSync. cbn [files].
      apply is_dir_lookup in Hd as [es Hd].
      rewrite bool_decide_true by (rewrite Hd; eauto).
      cbv beta. cbn [files]. rewrite Hd.
      do 2 eexists. split; [reflexivity|]. split; [done|]. done.
    + rewrite clear_slot by done.
      unfold bind at 1. rewrite tarFiles_nil.
      do 2 eexists. split; [reflexivity|]. split; done.
  - intros. erewrite main_empty_listing by done. eauto.
Qed.


(** *** A complete run *)

Lemma cleared_lookup_frame out (fs : gmap string node) p :
  p <> out -> p <> path_dirname out -> Abis.cleared out fs !! p = fs !! p.
Proof.
  intros Hne Hnp. unfold Abis.cleared.
  destruct (fs !! out) as [[d|es]|]; try done.
  rewrite lookup_delete_ne by done. unfold remove_entry.
  destruct (fs !! path_dirname out) as [[d'|es]|]; try done.
  by rewrite lookup_insert_ne.
Qed.

Lemma archived_lookup_frame out blob (fs : gmap string node) p :
  p <> out -> p <> path_dirname out -> Abis.archived out blob fs !! p = fs !! p.
Proof.
  intros Hne Hnp. unfold Abis.archived.
  rewrite lookup_insert_ne by done. rewrite add_entry_other by done.
  by apply cleared_lookup_frame.
Qed.

Lemma archived_parent out blob (fs : gmap string node) :
  is_dir fs (path_dirname out) = true -> is_dir fs out = false ->
  is_dir (Abis.archived out blob fs) (path_dirname out) = true.
Proof.
  intros Hd Hnd. unfold Abis.archived, is_dir.
  rewrite lookup_insert_ne.
  - apply add_entry_parent. by apply cleared_parent.
  - intros Heq. rewrite <- Heq in Hd. congruence.
Qed.

Lemma archived_keeps_directories out blob (fs : gmap string node) p :
  is_dir fs (path_dirname out) = true -> is_dir fs out = false ->
  is_dir fs p = true -> is_dir (Abis.archived out blob fs) p = true.
Proof.
  intros Hd Hnd Hp.
  destruct (decide (p = path_dirname out)) as [->|Hne]; [by apply archived_parent|].
  unfold is_dir. rewrite archived_lookup_frame; [done| |done].
  intros ->. congruence.
Qed.

Lemma listAbiFiles_spec w entries :
  files w !! ABI_DIR = Some (Dir entries) ->
  listAbiFiles w
  = (w, Val (map (fun f => path_join [ABI_DIR; f])
                 (List.filter (fun f => endsWith f ".abi") entries))).
Proof.
  intros Hdir.
  unfold Abis.listAbiFiles, bind, existsSync, readdirSync, ret.
  rewrite bool_decide_true by (rewrite Hdir; eauto). cbn [negb].
  by rewrite Hdir.
Qed.

(** The run of [main] once a builder has returned a manifest. *)
Lemma main_after_builder approach w entries w2 m :
  approach ∈ ["A"; "B"; "C"; "D"] ->
  is_dir (files w) (Abis.OUTPUT_DIR cwd) = true ->
  files w !! ABI_DIR = Some (Dir entries) ->
  List.filter (fun f => endsWith f ".abi") entries <> [] ->
  switch_approach (Some approach)
    (map (fun f => path_join [ABI_DIR; f])
         (List.filter (fun f => endsWith f ".abi") entries))
    (World (files w)
           (stdout w ++ [found (map (fun f => path_join [ABI_DIR; f])
                                    (List.filter (fun f => endsWith f ".abi") entries))])
           (stderr w))
  = (w2, Val (Some m)) ->
  is_dir (files w2) (Abis.MANIFEST_JSON cwd) = false ->
  is_dir (files w2) (path_dirname (Abis.MANIFEST_JSON cwd)) = true ->
  exists w3,
    main (Some approach) w = (w3, Val tt)
    /\ files w3 !! Abis.MANIFEST_JSON cwd
       = Some (File (utf8_encode (JSON_stringify m)))
    /\ (forall p, p <> Abis.MANIFEST_JSON cwd ->
                  p <> path_dirname (Abis.MANIFEST_JSON cwd) ->
                  files w3 !! p = files w2 !! p)
    /\ stdout w3
       = stdout w2 ++ [ nl +:+ "Wrote manifest to: " +:+ Abis.MANIFEST_JSON cwd +:+ nl;
                        "Manifest contents:";
                        JSON_stringify m ]
    /\ stderr w3 = stderr w2.
Proof.
  intros Hin Hout Hdir Hsome Hbuild Hnodir Hparent.
  unfold Abis.main.
  rewrite bool_decide_true
    by (change (Some approach ∈ Some <$> ["A"; "B"; "C"; "D"]);
        by apply list_elem_of_fmap_2).
  cbn [negb]. rewrite bind_ret.
  unfold bind at 1, Abis.ensureOutputDir, bind at 1, existsSync.
  apply is_dir_lookup in Hout as [es Hout].
  rewrite bool_decide_true by (rewrite Hout; eauto). cbn [negb]. unfold ret at 1.
  unfold bind at 1. rewrite (listAbiFiles_spec _ entries) by done.
  rewrite bool_decide_false
    by (rewrite length_map; destruct (List.filter _ entries); done).
  rewrite bind_ret. rewrite bind_console_log.
  unfold bind at 1. rewrite Hbuild.
  unfold bind at 1, writeFileSync, write_file.
  unfold is_dir in Hnodir.
  apply is_dir_lookup in Hparent as [es' Hparent].
  destruct (files w2 !! Abis.MANIFEST_JSON cwd) as [[d|?]|] eqn:HM; [|done|].
  - run_console. unfold console_log. cbn [files stdout stderr with_files].
    eexists. split; [reflexivity|]. cbn [files stdout stderr].
    split; [by rewrite lookup_insert_eq|].
    split; [|by rewrite <- !app_assoc].
    intros p Hp1 Hp2. by rewrite lookup_insert_ne.
  - rewrite Hparent.
    run_console. unfold console_log. cbn [files stdout stderr with_files].
    eexists. split; [reflexivity|]. cbn [files stdout stderr].
    split; [by rewrite lookup_insert_eq|].
    split; [|by rewrite <- !app_assoc].
    intros p Hp1 Hp2. rewrite lookup_insert_ne by done.
    by rewrite add_entry_other.
Qed.


Lemma builder_file_system approach w abiFiles :
  approach ∈ ["A"; "B"; "C"; "D"] ->
  abiFiles <> [] ->
  ready approach w abiFiles ->
  exists w2 m,
    switch_approach (Some approach) abiFiles w = (w2, Val (Some m))
    /\ (files w2 = files w
        \/ (exists blob, files w2 = Abis.archived SINGLE_LAYER_TGZ blob (files w)
                          /\ Abis.archivable w abiFiles SINGLE_LAYER_TGZ)
        \/ (exists blob, files w2 = Abis.archived SINGLE_CONFIG_TGZ blob (files w)
                          /\ Abis.archivable w abiFiles SINGLE_CONFIG_TGZ)).
Proof.
  intros Hin Hne Hready.
  unfold Abis.switch_approach, Abis.ready, fmap_js in *.
  repeat (apply elem_of_cons in Hin as [->|Hin]); [| | | |by apply elem_of_nil in Hin];
    decide_literals; unfold bind.
  - rewrite approachA_spec by done. do 2 eexists. split; [reflexivity|].
    right. left. eexists. split; [reflexivity|done].
  - rewrite approachB_spec by done. do 2 eexists. split; [reflexivity|].
    right. right. eexists. split; [reflexivity|done].
  - destruct (all_files_contents _ _ Hready) as [datas Hd].
    rewrite (approachC_spec _ _ datas) by done. do 2 eexists.
    split; [reflexivity|]. by left.
  - rewrite approachD_unfold, approachA_spec by done. do 2 eexists.
    split; [reflexivity|]. right. left. eexists. split; [reflexivity|done].
Qed.

(** X5: on a repository whose [contracts] directory lists at least one
    [.abi] entry, all of them regular files, and whose [output] directory
    is there, with no directory in the place of the two archives or of
    [manifest.json], the script completes for each of the four approaches
    and leaves in [manifest.json] the text of a manifest that has the
    required fields; the same text is the last thing it prints.  For the
    approaches that run [tar], which are all but C, the working directory
    and the names of the [.abi] entries are such that the command line
    reaches [tar] as written: none holds a double quote, a dollar sign, a
    backslash or a backquote, and no name begins with a dash or an at
    sign. *)
Theorem main_writes_a_manifest approach w entries :
  absolute_path cwd ->
  approach ∈ ["A"; "B"; "C"; "D"] ->
  is_dir (files w) (Abis.OUTPUT_DIR cwd) = true ->
  files w !! ABI_DIR = Some (Dir entries) ->
  Forall simple_name entries ->
  List.filter (fun f => endsWith f ".abi") entries <> [] ->
  (approach <> "C" ->
   quotable cwd
   /\ Forall member_name (List.filter (fun f => endsWith f ".abi") entries)) ->
  Forall (fun name => is_file (files w) (path_join [ABI_DIR; name]) = true)
         (List.filter (fun f => endsWith f ".abi") entries) ->
  is_dir (files w) SINGLE_LAYER_TGZ = false ->
  is_dir (files w) SINGLE_CONFIG_TGZ = false ->
  is_dir (files w) (Abis.MANIFEST_JSON cwd) = false ->
  exists w' m,
    main (Some approach) w = (w', Val tt)
    /\ files w' !! Abis.MANIFEST_JSON cwd
       = Some (File (utf8_encode (JSON_stringify m)))
    /\ last (stdout w') = Some (JSON_stringify m)
    /\ has_required_fields m.
Proof.
  intros Hcwd Hin Hout Hdir Hsimple Hsome Hcommand Hfiles HnA HnB HnM.
  set (names := List.filter (fun f => endsWith f ".abi") entries) in *.
  set (abiFiles := map (fun f => path_join [ABI_DIR; f]) names).
  assert (Forall simple_name names) as Hnames.
  { apply Forall_forall. intros n Hn. rewrite Forall_forall in Hsimple.
    apply Hsimple. apply list_elem_of_In in Hn. apply filter_In in Hn as [Hn _].
    by apply list_elem_of_In. }
  assert (abiFiles <> []) as Hne by (unfold abiFiles; by destruct names).
  set (w1 := World (files w) (stdout w ++ [found abiFiles]) (stderr w)).
  assert (is_dir (files w) ABI_DIR = true) as Hcontracts
    by (unfold is_dir; by rewrite Hdir).
  assert (ready approach w1 abiFiles) as Hready.
  { unfold Abis.ready. repeat case_bool_decide.
    - destruct Hcommand as [Hq Hmembers]; [congruence|].
      apply listed_files_archivable; auto.
    - unfold abiFiles. by rewrite Forall_map.
    - destruct Hcommand as [Hq Hmembers]; [done|].
      apply listed_files_archivable; auto. }
  destruct (builder_file_system approach w1 abiFiles Hin Hne Hready)
    as (w2 & m & Hbuild & Hfs).
  destruct Hcwd as (segs & Hs & Hcwd).
  destruct (constant_paths segs Hcwd Hs) as (_ & HO & HA & HB & HM).
  assert (simple_name "output") as Ho by simple_literal.
  assert (Forall simple_name (segs ++ ["output"])) as Hso
    by (apply Forall_app; split; [done|by constructor]).
  assert (path_dirname (Abis.MANIFEST_JSON cwd) = Abis.OUTPUT_DIR cwd) as HdM
    by (rewrite HM, HO; apply path_dirname_under_root; [done|simple_literal]).
  assert (path_dirname SINGLE_LAYER_TGZ = Abis.OUTPUT_DIR cwd) as HdA
    by (rewrite HA, HO; apply path_dirname_under_root; [done|simple_literal]).
  assert (path_dirname SINGLE_CONFIG_TGZ = Abis.OUTPUT_DIR cwd) as HdB
    by (rewrite HB, HO; apply path_dirname_under_root; [done|simple_literal]).
  assert (Abis.MANIFEST_JSON cwd <> Abis.OUTPUT_DIR cwd) as HMO
    by (rewrite HM, HO; apply child_not_parent; [done|simple_literal]).
  assert (Abis.MANIFEST_JSON cwd <> SINGLE_LAYER_TGZ) as HMA
    by (rewrite HM, HA; apply sibling_distinct; [simple_literal|simple_literal|done]).
  assert (Abis.MANIFEST_JSON cwd <> SINGLE_CONFIG_TGZ) as HMB
    by (rewrite HM, HB; apply sibling_distinct; [simple_literal|simple_literal|done]).
  assert (is_dir (files w2) (Abis.MANIFEST_JSON cwd) = false
          /\ is_dir (files w2) (path_dirname (Abis.MANIFEST_JSON cwd)) = true)
    as [Hm1 Hm2].
  { rewrite HdM.
    destruct Hfs as [->|[(blob & -> & Harch)|(blob & -> & Harch)]]; cbn [files w1].
    - done.
    - unfold is_dir at 1. rewrite archived_lookup_frame by (by rewrite ?HdA).
      split; [exact HnM|]. rewrite <- HdA. apply archived_parent; by rewrite ?HdA.
    - unfold is_dir at 1. rewrite archived_lookup_frame by (by rewrite ?HdB).
      split; [exact HnM|]. rewrite <- HdB. apply archived_parent; by rewrite ?HdB. }
  destruct (main_after_builder approach w entries w2 m Hin Hout Hdir Hsome Hbuild Hm1 Hm2)
    as (w3 & Hrun & Hwritten & _ & Hprinted & _).
  exists w3, m. split; [exact Hrun|]. split; [exact Hwritten|].
  split; [|by eapply built_manifest_has_required_fields].
  rewrite Hprinted.
  by rewrite last_app.
Qed.

End AbisProperties.

(** *** Approaches A and B on the same files *)

Lemma bundle_of_members tar_archive w abiFiles :
  abiFiles <> [] ->
  Abis.bundle tar_archive w abiFiles = tar_archive (Abis.members w abiFiles).
Proof. by destruct abiFiles. Qed.

(** What [tar] is handed when the files can be archived: one member per
    file of the list, in the order of the list, under the base name of
    the file, each a regular file. *)
Lemma members_of_archivable w abiFiles out :
  Abis.archivable w abiFiles out ->
  map fst (Abis.members w abiFiles) = map path_basename abiFiles
  /\ Forall2 (fun p member =>
                exists data, files w !! p = Some (File data) /\ snd member = File data)
             (Abis.member_paths abiFiles) (Abis.members w abiFiles).
Proof.
  intros (Hfiles & _). destruct abiFiles as [|first rest]; [by split; constructor|].
  rewrite member_paths_cons in *. unfold Abis.members. cbn [lookup list_lookup].
  set (names := map path_basename (first :: rest)) in *.
  rewrite Forall_fmap in Hfiles.
  split; [by apply tar_members_names|].
  apply Forall2_fmap_l.
  eapply Forall2_impl; [by apply tar_members_files|].
  intros name member (data & Hdata & ->). by exists data.
Qed.

Section TwoArchives.

Variable cwd : string.

(** [tar] as approach A runs it and as approach B runs it: two runs of
    the program, whose output may hold the time of the run. *)
Variable tar_A tar_B : list (string * node) -> list byte.

(** C1, as the script has it: for every non-empty list of payload files
    that can be archived, approaches A and B hand the same members to
    [tar], each in a run of its own, and each addresses the archive it has
    written: the single layer descriptor of A carries the digest and the
    size of A's archive, the config descriptor of B those of B's archive.
    The two agree whenever the two runs of [tar] give the same bytes.  The
    descriptors are never the same: A's has the layer media type, B's the
    config media type.  Apart from the config and layers slots the two
    manifests have the same fields. *)
Theorem approachA_approachB_archive_the_same_members w abiFiles :
  abiFiles <> [] ->
  Abis.archivable w abiFiles (Abis.SINGLE_LAYER_TGZ cwd) ->
  Abis.archivable w abiFiles (Abis.SINGLE_CONFIG_TGZ cwd) ->
  exists wA wB mA mB layer config,
    Abis.approachA cwd tar_A abiFiles w = (wA, Val mA)
    /\ Abis.approachB cwd tar_B abiFiles w = (wB, Val mB)
    /\ map fst (Abis.members w abiFiles) = map path_basename abiFiles
    /\ Forall2 (fun p member =>
                  exists data, files w !! p = Some (File data) /\ snd member = File data)
               (Abis.member_paths abiFiles) (Abis.members w abiFiles)
    /\ files wA !! Abis.SINGLE_LAYER_TGZ cwd
       = Some (File (tar_A (Abis.members w abiFiles)))
    /\ files wB !! Abis.SINGLE_CONFIG_TGZ cwd
       = Some (File (tar_B (Abis.members w abiFiles)))
    /\ get "layers" mA = Some (Arr [layer])
    /\ get "config" mB = Some config
    /\ layer
       = Obj [ ("mediaType", Str "application/vnd.solidity.abi.layer.v1+tar+gzip");
               ("digest", Str ("sha256:" +:+ sha256_hex (tar_A (Abis.members w abiFiles))));
               ("size", Num (N.of_nat (length (tar_A (Abis.members w abiFiles))))) ]
    /\ config
       = Obj [ ("mediaType", Str "application/vnd.solidity.abi.config.v1+tar+gzip");
               ("digest", Str ("sha256:" +:+ sha256_hex (tar_B (Abis.members w abiFiles))));
               ("size", Num (N.of_nat (length (tar_B (Abis.members w abiFiles))))) ]
    /\ (tar_A (Abis.members w abiFiles) = tar_B (Abis.members w abiFiles) ->
        get "digest" config = get "digest" layer
        /\ get "size" config = get "size" layer)
    /\ get "mediaType" config <> get "mediaType" layer
    /\ get "config" mA = Some Abis.EMPTY_DESCRIPTOR
    /\ get "layers" mB = Some (Arr [])
    /\ (forall k, k <> "config" -> k <> "layers" -> get k mA = get k mB).
Proof.
  intros Hne HA HB.
  destruct (members_of_archivable w abiFiles _ HA) as [Hnames Hmembers].
  rewrite (approachA_spec cwd tar_A w abiFiles Hne HA),
    (approachB_spec cwd tar_B w abiFiles Hne HB).
  rewrite !bundle_of_members by done.
  do 6 eexists. split; [reflexivity|]. split; [reflexivity|].
  split; [exact Hnames|]. split; [exact Hmembers|].
  cbn [files]. unfold Abis.archived.
  split; [by rewrite lookup_insert_eq|]. split; [by rewrite lookup_insert_eq|].
  split; [reflexivity|]. split; [reflexivity|].
  split; [reflexivity|]. split; [reflexivity|].
  split; [intros Heq; cbn; decide_literals; by rewrite Heq|].
  split; [cbn; decide_literals; discriminate|].
  split; [reflexivity|]. split; [reflexivity|].
  intros k Hc Hl. cbn. repeat case_bool_decide; congruence.
Qed.

End TwoArchives.

(** ** The submodules script *)

Lemma parse_lines_none lines :
  Forall (fun line => Submodules.defines_submodule line = false) lines ->
  fold_left Submodules.parse_line lines (None, []) = (None, []).
Proof.
  induction 1 as [|line lines Hl _ IH]; [done|].
  cbn [fold_left].
  assert (Submodules.parse_line (None, []) line = (None, [])) as ->; [|done].
  unfold Submodules.parse_line, Submodules.defines_submodule in *.
  cbn [fst snd Submodules.truthy andb].
  destruct (startsWith (trim line) "[submodule"); [|done].
  cbn [andb] in Hl. apply bool_decide_eq_false in Hl.
  destruct (Submodules.match_quoted _); [|done].
  destruct Hl. eauto.
Qed.

Lemma parseGitmodules_none gitmodulesPath w :
  files w !! gitmodulesPath = None
  \/ (exists data, files w !! gitmodulesPath = Some (File data)
                   /\ Submodules.no_submodules (utf8_decode data)) ->
  Submodules.parseGitmodules gitmodulesPath w = (w, Val []).
Proof.
  unfold Submodules.parseGitmodules, bind, existsSync, fmap_js, bind, readFileSync, ret.
  intros [Hnone|(data & Hfile & Hno)].
  - rewrite Hnone. by rewrite bool_decide_false by (by intros [? ?]).
  - rewrite bool_decide_true by eauto. cbn [negb]. rewrite Hfile.
    by rewrite parse_lines_none.
Qed.

(** Making the layer directory unless something is there already. *)
Lemma layer_dir_step layerDir parent w :
  path_dirname layerDir = parent ->
  is_dir (files w) parent = true ->
  layerDir <> parent ->
  exists fs1,
    (let* present := existsSync layerDir in
     if negb present then mkdirSync layerDir else ret tt) w
    = (with_files w fs1, Val tt)
    /\ is_dir fs1 parent = true
    /\ (forall p, p <> parent -> p <> layerDir -> fs1 !! p = files w !! p).
Proof.
  intros Hparent Hdir Hne.
  unfold bind, existsSync, mkdirSync, ret.
  destruct (files w !! layerDir) as [nd|] eqn:HL.
  - rewrite bool_decide_true by eauto. cbn [negb].
    exists (files w). rewrite with_files_same. done.
  - rewrite bool_decide_false by (by intros [? ?]). cbn [negb].
    rewrite HL, Hparent.
    pose proof Hdir as Hdir'. apply is_dir_lookup in Hdir' as [es Hes]. rewrite Hes.
    eexists. split; [reflexivity|]. split.
    + unfold is_dir. rewrite lookup_insert_ne by done.
      rewrite <- Hparent. apply add_entry_parent. by rewrite Hparent.
    + intros p Hp1 Hp2. rewrite lookup_insert_ne by done.
      by rewrite add_entry_other by (by rewrite Hparent).
Qed.

Section SubmodulesProperties.

Variable git_submodule_status : gmap string node -> option string.

Local Abbreviation main := (fun cwd => Submodules.main cwd git_submodule_status).
Local Abbreviation getSubmoduleCommits := (Submodules.getSubmoduleCommits git_submodule_status).

Lemma getSubmoduleCommits_spec w :
  exists commits report,
    getSubmoduleCommits w = (World (files w) (stdout w) (stderr w ++ report), Val commits).
Proof.
  unfold Submodules.getSubmoduleCommits, try_catch, bind, Submodules.execSync_git.
  destruct (git_submodule_status (files w)) as [out|].
  - eexists _, []. rewrite app_nil_r. unfold ret. by destruct w.
  - eexists _, [_]. reflexivity.
Qed.

(** C10: the submodules script has no guard for an empty set of
    payloads.  When the [.gitmodules] file is absent, or present without
    a line that opens a submodule section, [parseGitmodules] returns the
    empty object, no layer file is written, and the run completes after
    writing a manifest whose layers array is empty. *)
Theorem no_submodules_still_writes_a_manifest cwd w :
  absolute_path cwd ->
  (files w !! path_join [cwd; ".gitmodules"] = None
   \/ exists data, files w !! path_join [cwd; ".gitmodules"] = Some (File data)
                   /\ Submodules.no_submodules (utf8_decode data)) ->
  is_dir (files w) cwd = true ->
  is_dir (files w) (path_join [cwd; "manifest.json"]) = false ->
  Submodules.parseGitmodules (path_join [cwd; ".gitmodules"]) w = (w, Val [])
  /\ exists w',
       main cwd w = (w', Val tt)
       /\ files w' !! path_join [cwd; "manifest.json"]
          = Some (File (utf8_encode (JSON_stringify Submodules.bare_manifest)))
       /\ get "layers" Submodules.bare_manifest = Some (Arr [])
       /\ (forall p, p <> cwd ->
                     p <> path_join [cwd; "manifest.json"] ->
                     p <> Submodules.SUBMODULE_LAYER_DIR cwd ->
                     files w' !! p = files w !! p).
Proof.
  intros (segs & Hsegs & ->) Hgit Hcwd Hman.
  split; [by apply parseGitmodules_none|].
  assert (simple_name "manifest.json") as Hn1 by simple_literal.
  assert (simple_name "submodule-layers") as Hn2 by simple_literal.
  unfold Submodules.main, Submodules.SUBMODULE_LAYER_DIR.
  set (G := path_join [under_root segs; ".gitmodules"]) in *.
  rewrite !path_join_under_root in * by done.
  set (M := under_root (segs ++ ["manifest.json"])) in *.
  set (L := under_root (segs ++ ["submodule-layers"])) in *.
  assert (path_dirname M = under_root segs) as HdM by (by apply path_dirname_under_root).
  assert (path_dirname L = under_root segs) as HdL by (by apply path_dirname_under_root).
  assert (M <> L) as HML by (by apply sibling_distinct).
  assert (M <> under_root segs) as HMc by (by apply child_not_parent).
  unfold bind at 1. rewrite parseGitmodules_none by done.
  unfold bind at 1.
  destruct (getSubmoduleCommits_spec w) as (commits & report & ->).
  destruct (layer_dir_step L (under_root segs)
              (World (files w) (stdout w) (stderr w ++ report)))
    as (fs1 & Hstep & Hfscwd & Hframe1); [done|done|by apply child_not_parent|].
  cbn [files] in Hframe1.
  assert (fs1 !! M = files w !! M) as HfsM by (by apply Hframe1).
  unfold bind at 1. rewrite Hstep.
  unfold bind at 1. change (Submodules.Object_keys []) with (@nil string).
  cbn [Submodules.submodule_layers]. unfold ret at 1.
  fold Submodules.bare_manifest.
  unfold bind at 1, writeFileSync, write_file. cbn [files with_files].
  rewrite HfsM, HdM.
  unfold is_dir in Hman.
  destruct (files w !! M) as [[d|es]|] eqn:HM; [|done|].
  - cbn [forEach]. run_console. unfold console_log.
    cbn [files stdout stderr with_files].
    eexists. split; [reflexivity|]. cbn [files].
    split; [by rewrite lookup_insert_eq|]. split; [done|].
    intros p Hp1 Hp2 Hp3. rewrite lookup_insert_ne by done. by apply Hframe1.
  - apply is_dir_lookup in Hfscwd as [es Hes]. rewrite Hes.
    cbn [forEach]. run_console. unfold console_log.
    cbn [files stdout stderr with_files].
    eexists. split; [reflexivity|]. cbn [files].
    split; [by rewrite lookup_insert_eq|]. split; [done|].
    intros p Hp1 Hp2 Hp3. rewrite lookup_insert_ne by done.
    rewrite add_entry_other by (by rewrite HdM). by apply Hframe1.
Qed.

End SubmodulesProperties.

(** ** More of store-solidity-abis.js *)

(** [mkdir -p] neither makes nor removes nor changes a regular file. *)
Lemma mkdir_p_keeps_files fuel p (fs fs' : gmap string node) q data :
  mkdir_p fuel p fs = inl fs' ->
  fs' !! q = Some (File data) <-> fs !! q = Some (File data).
Proof.
  revert p fs fs'. induction fuel as [|fuel IH]; intros p fs fs'; cbn [mkdir_p].
  - destruct (fs !! p) as [[d|es]|] eqn:E; try done.
    + by intros [= ->].
    + intros [= <-]. destruct (decide (q = p)) as [->|Hne].
      * rewrite lookup_insert_eq, E. split; intros ?; discriminate.
      * by rewrite lookup_insert_ne.
  - destruct (fs !! p) as [[d|es]|] eqn:E; try done.
    + by intros [= ->].
    + case_bool_decide as Hroot.
      * intros [= <-]. destruct (decide (q = p)) as [->|Hne].
        -- rewrite lookup_insert_eq, E. split; intros ?; discriminate.
        -- by rewrite lookup_insert_ne.
      * destruct (mkdir_p fuel (path_dirname p) fs) as [fs1|e] eqn:Hrec.
        -- intros [= <-]. specialize (IH _ _ _ Hrec).
           destruct (decide (q = p)) as [->|Hne].
           ++ rewrite lookup_insert_eq, E. split; intros ?; discriminate.
           ++ rewrite lookup_insert_ne by done. rewrite <- IH.
              unfold add_entry.
              destruct (fs1 !! path_dirname p) as [[d|es]|] eqn:Ed; try done.
              destruct (decide (q = path_dirname p)) as [->|Hnd].
              ** rewrite lookup_insert_eq, Ed. split; intros ?; discriminate.
              ** by rewrite lookup_insert_ne.
        -- by destruct e.
Qed.

Lemma mkdir_p_makes_the_directory fuel p (fs fs' : gmap string node) :
  mkdir_p fuel p fs = inl fs' -> is_dir fs' p = true.
Proof.
  unfold is_dir. destruct fuel as [|fuel]; cbn [mkdir_p].
  - destruct (fs !! p) as [[d|es]|] eqn:E; try done.
    + intros [= <-]. by rewrite E.
    + intros [= <-]. by rewrite lookup_insert_eq.
  - destruct (fs !! p) as [[d|es]|] eqn:E; try done.
    + intros [= <-]. by rewrite E.
    + case_bool_decide.
      * intros [= <-]. by rewrite lookup_insert_eq.
      * destruct (mkdir_p fuel (path_dirname p) fs) as [fs1|e].
        -- intros [= <-]. by rewrite lookup_insert_eq.
        -- by destruct e.
Qed.

Section AbisBehaviour.

Variable cwd : string.
Variable tar_archive : list (string * node) -> list byte.

Local Abbreviation SINGLE_LAYER_TGZ := (Abis.SINGLE_LAYER_TGZ cwd).
Local Abbreviation SINGLE_CONFIG_TGZ := (Abis.SINGLE_CONFIG_TGZ cwd).
Local Abbreviation MANIFEST_JSON := (Abis.MANIFEST_JSON cwd).
Local Abbreviation OUTPUT_DIR := (Abis.OUTPUT_DIR cwd).
Local Abbreviation ABI_DIR := (Abis.ABI_DIR cwd).
Local Abbreviation tarFiles := (Abis.tarFiles tar_archive).
Local Abbreviation approachA := (Abis.approachA cwd tar_archive).
Local Abbreviation approachB := (Abis.approachB cwd tar_archive).
Local Abbreviation approachC := (Abis.approachC).
Local Abbreviation approachD := (Abis.approachD cwd tar_archive).
Local Abbreviation bundle := (Abis.bundle tar_archive).
Local Abbreviation ensureOutputDir := (Abis.ensureOutputDir cwd).
Local Abbreviation listAbiFiles := (Abis.listAbiFiles cwd).
Local Abbreviation main := (Abis.main cwd tar_archive).

(** X1: a selector other than A, B, C or D (in capitals), or no selector
    at all, ends the run at once: the usage line goes to the standard
    error, the exit status is 1, and the file system is untouched, the
    [output] directory is not even made. *)
Theorem main_rejects_an_unknown_approach approach w :
  approach ∉ [Some "A"; Some "B"; Some "C"; Some "D"] ->
  main approach w
  = (World (files w) (stdout w)
           (stderr w ++ ["Usage: node store-solidity-abis.js [A|B|C|D]"]),
     Exit 1).
Proof.
  intros Hnot. unfold Abis.main.
  rewrite bool_decide_false by done. reflexivity.
Qed.

(** X2: [ensureOutputDir] never makes, removes or changes a regular
    file, whatever its outcome; when it completes, the [output] path
    holds a directory or whatever was there before the call, and a second
    call changes nothing. *)
Theorem ensureOutputDir_keeps_files_and_is_idempotent w w1 r :
  ensureOutputDir w = (w1, r) ->
  (forall q data, files w1 !! q = Some (File data) <-> files w !! q = Some (File data))
  /\ (r = Val tt ->
      is_Some (files w1 !! OUTPUT_DIR)
      /\ (files w !! OUTPUT_DIR = None -> is_dir (files w1) OUTPUT_DIR = true)
      /\ (is_Some (files w !! OUTPUT_DIR) -> w1 = w)
      /\ ensureOutputDir w1 = (w1, Val tt)).
Proof.
  unfold Abis.ensureOutputDir, bind, existsSync, mkdirSync_recursive, ret.
  case_bool_decide as Hthere; cbn [negb].
  - intros [= <- <-]. split; [done|]. intros _.
    rewrite bool_decide_true by done. repeat split; try done.
    intros Hnone. rewrite Hnone in Hthere. by destruct Hthere.
  - destruct (mkdir_p _ _ _) as [fs'|e] eqn:Hmk; intros [= <- <-].
    + split; [intros q data; by eapply mkdir_p_keeps_files|]. intros _.
      pose proof (mkdir_p_makes_the_directory _ _ _ _ Hmk) as Hd.
      cbn [files with_files].
      assert (is_Some (fs' !! Abis.OUTPUT_DIR cwd)) as Hsome.
      { apply is_dir_lookup in Hd as [es ->]. eauto. }
      split; [done|]. split; [done|]. split; [done|].
      by rewrite bool_decide_true.
    + split; [done|]. discriminate.
Qed.

(** The [output] directory is made when the working directory is there
    and holds nothing under that name. *)
Lemma ensureOutputDir_creates w :
  absolute_path cwd ->
  is_dir (files w) cwd = true ->
  files w !! OUTPUT_DIR = None ->
  ensureOutputDir w
  = (with_files w (<[OUTPUT_DIR := Dir []]> (add_entry OUTPUT_DIR (files w))), Val tt).
Proof.
  intros (segs & Hs & Hcwd) Hdir Hnone.
  destruct (constant_paths cwd segs Hcwd Hs) as (_ & HO & _).
  assert (simple_name "output") as Ho by simple_literal.
  assert (path_dirname (Abis.OUTPUT_DIR cwd) = cwd) as Hparent
    by (rewrite HO, Hcwd; by apply path_dirname_under_root).
  assert (cwd <> Abis.OUTPUT_DIR cwd) as Hne
    by (rewrite HO, Hcwd; intros Heq; symmetry in Heq; revert Heq;
        by apply child_not_parent).
  unfold Abis.ensureOutputDir, bind, existsSync, mkdirSync_recursive.
  rewrite bool_decide_false by (rewrite Hnone; by intros [? ?]). cbn [negb].
  destruct (String.length (Abis.OUTPUT_DIR cwd)) as [|fuel] eqn:Hlen.
  { rewrite HO in Hlen. discriminate. }
  cbn [mkdir_p]. rewrite Hnone, Hparent.
  rewrite bool_decide_false by done.
  apply is_dir_lookup in Hdir as [es Hes].
  destruct fuel; cbn [mkdir_p]; rewrite Hes; reflexivity.
Qed.

(** X3: when the working directory holds neither an [output] nor a
    [contracts] entry, the run of any approach makes the [output]
    directory first and then stops: the message naming the missing
    directory goes to the standard error, the exit status is 1, and apart
    from the new directory and its entry in the working directory the file
    system is as before. *)
Theorem main_reports_a_missing_contracts_directory approach w :
  absolute_path cwd ->
  approach ∈ ["A"; "B"; "C"; "D"] ->
  is_dir (files w) cwd = true ->
  files w !! OUTPUT_DIR = None ->
  files w !! ABI_DIR = None ->
  exists w',
    main (Some approach) w = (w', Exit 1)
    /\ stdout w' = stdout w
    /\ stderr w' = stderr w ++ ["No 'contracts' directory found at: " +:+ ABI_DIR]
    /\ files w' !! OUTPUT_DIR = Some (Dir [])
    /\ (forall p, p <> OUTPUT_DIR -> p <> cwd -> files w' !! p = files w !! p).
Proof.
  intros Hcwd Hin Hdir Hout Habi.
  pose proof (ensureOutputDir_creates w Hcwd Hdir Hout) as Hmk.
  destruct Hcwd as (segs & Hs & Hcwd).
  destruct (constant_paths cwd segs Hcwd Hs) as (HA & HO & _).
  assert (simple_name "output") as Ho by simple_literal.
  assert (simple_name "contracts") as Hc by simple_literal.
  assert (path_dirname (Abis.OUTPUT_DIR cwd) = cwd) as Hparent
    by (rewrite HO, Hcwd; by apply path_dirname_under_root).
  assert (Abis.ABI_DIR cwd <> Abis.OUTPUT_DIR cwd) as Hne
    by (rewrite HA, HO; by apply sibling_distinct).
  assert (Abis.ABI_DIR cwd <> cwd) as Hnc
    by (rewrite HA, Hcwd; by apply child_not_parent).
  unfold Abis.main.
  rewrite bool_decide_true
    by (change (Some approach ∈ Some <$> ["A"; "B"; "C"; "D"]);
        by apply list_elem_of_fmap_2).
  cbn [negb]. rewrite bind_ret.
  unfold bind at 1. rewrite Hmk.
  unfold bind at 1, Abis.listAbiFiles, bind at 1, existsSync.
  cbn [files with_files].
  rewrite lookup_insert_ne by done.
  rewrite add_entry_other by (by rewrite Hparent).
  rewrite bool_decide_false by (rewrite Habi; by intros [? ?]). cbn [negb].
  unfold bind, console_error, process_exit. cbn [files stdout stderr with_files].
  eexists. split; [reflexivity|]. cbn [files stdout stderr].
  repeat split.
  - by rewrite lookup_insert_eq.
  - intros p Hp1 Hp2. rewrite lookup_insert_ne by done.
    by rewrite add_entry_other by (by rewrite Hparent).
Qed.

(** X4: [listAbiFiles] returns, in the order of the directory listing,
    one path per entry of [contracts] whose name ends in [.abi], and
    nothing else: the base name of each path is the entry and its
    directory is [contracts].  Whether an entry is a regular file is not
    looked at, and the world is left as it was. *)
Theorem listAbiFiles_lists_the_abi_entries w entries :
  absolute_path cwd ->
  files w !! ABI_DIR = Some (Dir entries) ->
  Forall simple_name entries ->
  exists abiFiles,
    listAbiFiles w = (w, Val abiFiles)
    /\ map path_basename abiFiles = List.filter (fun f => endsWith f ".abi") entries
    /\ Forall (fun f => path_dirname f = ABI_DIR) abiFiles
    /\ (forall name, name ∈ entries ->
          path_join [ABI_DIR; name] ∈ abiFiles <-> endsWith name ".abi" = true).
Proof.
  intros Hcwd Hdir Hsimple.
  rewrite (listAbiFiles_spec cwd w entries Hdir).
  eexists. split; [reflexivity|].
  set (names := List.filter (fun f => endsWith f ".abi") entries).
  assert (forall n, n ∈ names <-> n ∈ entries /\ endsWith n ".abi" = true) as Hnames.
  { intros n. unfold names. rewrite !list_elem_of_In, filter_In. done. }
  assert (Forall simple_name names) as Hsn.
  { apply Forall_forall. intros n Hn. rewrite Forall_forall in Hsimple.
    apply Hsimple. by apply Hnames. }
  split; [|split].
  - rewrite map_map. rewrite <- (map_id names) at 2. apply map_ext_Forall.
    eapply Forall_impl; [exact Hsn|]. intros n Hn. cbn beta.
    by destruct (listed_file cwd n Hcwd Hn) as (-> & _).
  - apply Forall_map. eapply Forall_impl; [exact Hsn|]. intros n Hn. cbn beta.
    by destruct (listed_file cwd n Hcwd Hn) as (_ & -> & _).
  - intros name Hin. split.
    + intros Hmem. apply list_elem_of_fmap in Hmem as (n & Heq & Hn).
      assert (n = name) as ->; [|by apply Hnames].
      rewrite Forall_forall in Hsimple, Hsn.
      destruct (listed_file cwd n Hcwd (Hsn _ Hn)) as (Hb & _).
      destruct (listed_file cwd name Hcwd (Hsimple _ Hin)) as (Hb' & _).
      rewrite <- Hb, <- Hb'. by rewrite Heq.
    + intros Hends. apply list_elem_of_fmap. exists name. split; [done|].
      by apply Hnames.
Qed.

(** *** [tarFiles] *)




(** *** Approach C *)

Lemma approachC_layers_world abiFiles layers w :
  exists r, Abis.approachC_layers abiFiles layers w = (w, r)
            /\ forall n, r <> Exit n.
Proof.
  revert layers. induction abiFiles as [|f rest IH]; intros layers.
  - by eexists.
  - cbn [Abis.approachC_layers].
    unfold bind at 1, Abis.computeDigestAndSize, bind at 1, readFileSync.
    destruct (files w !! f) as [[d|es]|]; [|by eexists..].
    unfold ret at 1. apply IH.
Qed.

(** X7: approach C only reads.  Whatever the list of files and whatever
    its outcome, the file system and the standard error are as before,
    the one line printed is its banner, and it never ends the process. *)
Theorem approachC_only_reads w abiFiles :
  files (fst (approachC abiFiles w)) = files w
  /\ stderr (fst (approachC abiFiles w)) = stderr w
  /\ stdout (fst (approachC abiFiles w))
     = stdout w ++ ["Approach C: minimal config, each ABI as a separate layer."]
  /\ forall n, snd (approachC abiFiles w) <> Exit n.
Proof.
  unfold Abis.approachC. rewrite bind_console_log.
  set (w1 := World _ _ _).
  destruct (approachC_layers_world abiFiles [] w1) as (r & Hrun & Hexit).
  unfold bind. rewrite Hrun.
  destruct r as [layers|e|n]; try done.
  by destruct (Hexit n).
Qed.

Lemma approachC_layers_unreadable w pre f post layers :
  Forall (fun p => is_file (files w) p = true) pre ->
  is_file (files w) f = false ->
  Abis.approachC_layers (pre ++ f :: post) layers w
  = (w, Throw (if is_dir (files w) f then SystemError "EISDIR" "read" None
               else SystemError "ENOENT" "open" (Some f))).
Proof.
  intros Hpre Hf. revert layers.
  induction Hpre as [|p pre Hp _ IH]; intros layers.
  - cbn [app Abis.approachC_layers].
    unfold bind at 1, Abis.computeDigestAndSize, bind at 1, readFileSync.
    unfold is_file, is_dir in *. by destruct (files w !! f) as [[d|es]|].
  - cbn [app Abis.approachC_layers].
    unfold bind at 1, Abis.computeDigestAndSize, bind at 1, readFileSync.
    apply is_file_lookup in Hp as [d ->]. unfold ret at 1. apply IH.
Qed.

(** X8: approach C stops at the first file of the list that is not a
    regular file: it throws the error of reading that file (no such file,
    or is a directory) and returns no manifest, however many files before
    and after it can be read. *)
Theorem approachC_stops_at_the_first_unreadable_file w pre f post :
  Forall (fun p => is_file (files w) p = true) pre ->
  is_file (files w) f = false ->
  approachC (pre ++ f :: post) w
  = (World (files w)
           (stdout w ++ ["Approach C: minimal config, each ABI as a separate layer."])
           (stderr w),
     Throw (if is_dir (files w) f then SystemError "EISDIR" "read" None
            else SystemError "ENOENT" "open" (Some f))).
Proof.
  intros Hpre Hf. unfold Abis.approachC. rewrite bind_console_log.
  unfold bind. by rewrite approachC_layers_unreadable.
Qed.

Lemma archivable_once_archived w abiFiles out blob :
  Abis.archivable w abiFiles out ->
  Abis.archivable (with_files w (Abis.archived out blob (files w))) abiFiles out
  /\ bundle (with_files w (Abis.archived out blob (files w))) abiFiles
     = bundle w abiFiles.
Proof.
  intros (Hfiles & Hout & Hparent & Hnodir & Hcommand & Hthere).
  assert (forall p, p ∈ Abis.member_paths abiFiles ->
            Abis.archived out blob (files w) !! p = files w !! p) as Hsame.
  { intros p Hp. apply archived_lookup_frame.
    - intros ->. done.
    - intros ->. rewrite Forall_forall in Hfiles. specialize (Hfiles _ Hp).
      apply is_file_lookup in Hfiles as [d Hd].
      apply is_dir_lookup in Hparent as [es Hes]. congruence. }
  split.
  - split; [|split; [|split; [|split; [|split]]]]; cbn [files with_files].
    + apply Forall_forall. intros p Hp. unfold is_file. rewrite Hsame by done.
      rewrite Forall_forall in Hfiles. by apply Hfiles.
    + done.
    + by apply archived_parent.
    + unfold is_dir, Abis.archived. by rewrite lookup_insert_eq.
    + done.
    + destruct (abiFiles !! 0); [|done]. by apply archived_keeps_directories.
  - unfold Abis.bundle. cbn [files with_files].
    destruct abiFiles as [|first rest]; [done|].
    cbn [lookup list_lookup]. f_equal. apply tar_members_ext.
    intros name Hname. apply Hsame. rewrite member_paths_cons.
    apply list_elem_of_fmap. by exists name.
Qed.

(** *** Complete runs *)

Local Abbreviation found :=
  (fun abiFiles : list string =>
     "Found " +:+ pretty (length abiFiles) +:+ " ABI files:"
     +:+ join "," (map (fun f => nl +:+ "  " +:+ f) abiFiles)).

(** The bundle of the files that [listAbiFiles] returns is the archive of
    the listed names, looked up in [contracts]. *)
Lemma bundle_of_listed_files w names :
  absolute_path cwd ->
  Forall simple_name names ->
  bundle w (map (fun name => path_join [ABI_DIR; name]) names)
  = match names with
    | [] => []
    | _ => tar_archive (Abis.tar_members (files w) ABI_DIR names)
    end.
Proof.
  intros Hcwd Hnames. unfold Abis.bundle.
  destruct names as [|first rest]; [done|].
  cbn [map lookup list_lookup].
  inversion Hnames as [|? ? Hfirst Hrest]; subst.
  destruct (listed_file cwd first Hcwd Hfirst) as (Hb & Hd & _).
  rewrite Hb, Hd. do 3 f_equal.
  rewrite map_map. rewrite <- (map_id rest) at 2. apply map_ext_Forall.
  eapply Forall_impl; [exact Hrest|]. intros n Hn. cbn beta.
  by destruct (listed_file cwd n Hcwd Hn) as (-> & _).
Qed.

Lemma contracts_entry_apart segs name :
  cwd = under_root segs -> Forall simple_name segs -> simple_name name ->
  path_join [ABI_DIR; name] <> OUTPUT_DIR
  /\ path_join [ABI_DIR; name] <> MANIFEST_JSON
  /\ ABI_DIR <> OUTPUT_DIR
  /\ ABI_DIR <> MANIFEST_JSON
  /\ ABI_DIR <> SINGLE_LAYER_TGZ
  /\ ABI_DIR <> SINGLE_CONFIG_TGZ.
Proof.
  intros Hcwd Hs Hn.
  destruct (constant_paths cwd segs Hcwd Hs) as (-> & -> & -> & -> & ->).
  assert (simple_name "contracts") as Hc by simple_literal.
  assert (simple_name "output") as Ho by simple_literal.
  assert (Forall simple_name (segs ++ ["contracts"])) as Hsc
    by (apply Forall_app; split; [done|by constructor]).
  assert (Forall simple_name (segs ++ ["output"])) as Hso
    by (apply Forall_app; split; [done|by constructor]).
  rewrite path_join_under_root by done.
  repeat split; intros Heq;
    (apply under_root_inj in Heq;
     [|by repeat (apply Forall_app; split; [|by constructor])
      |by repeat (apply Forall_app; split; [|by constructor; [simple_literal|]])]).
  - apply (f_equal length) in Heq. rewrite !length_app in Heq. cbn in Heq. lia.
  - apply app_inj_tail in Heq as [Heq _]. by apply app_inj_tail in Heq as [_ ?].
  - by apply app_inj_tail in Heq as [_ ?].
  - apply (f_equal length) in Heq. rewrite !length_app in Heq. cbn in Heq. lia.
  - apply (f_equal length) in Heq. rewrite !length_app in Heq. cbn in Heq. lia.
  - apply (f_equal length) in Heq. rewrite !length_app in Heq. cbn in Heq. lia.
Qed.

(** The run of [main] around a builder that has archived [blob] at
    [out] and returned [m]. *)
Lemma main_around_an_archive approach w entries out blob so se m :
  absolute_path cwd ->
  approach ∈ ["A"; "B"; "C"; "D"] ->
  out = SINGLE_LAYER_TGZ \/ out = SINGLE_CONFIG_TGZ ->
  is_dir (files w) OUTPUT_DIR = true ->
  files w !! ABI_DIR = Some (Dir entries) ->
  Forall simple_name entries ->
  List.filter (fun f => endsWith f ".abi") entries <> [] ->
  is_dir (files w) out = false ->
  is_dir (files w) MANIFEST_JSON = false ->
  Abis.switch_approach cwd tar_archive (Some approach)
    (map (fun f => path_join [ABI_DIR; f])
         (List.filter (fun f => endsWith f ".abi") entries))
    (World (files w)
           (stdout w ++ [found (map (fun f => path_join [ABI_DIR; f])
                                    (List.filter (fun f => endsWith f ".abi") entries))])
           (stderr w))
  = (World (Abis.archived out blob (files w)) so se, Val (Some m)) ->
  exists w',
    main (Some approach) w = (w', Val tt)
    /\ files w' !! MANIFEST_JSON = Some (File (utf8_encode (JSON_stringify m)))
    /\ files w' !! out = Some (File blob)
    /\ files w' !! ABI_DIR = files w !! ABI_DIR
    /\ (forall name, name ∈ entries ->
          files w' !! path_join [ABI_DIR; name] = files w !! path_join [ABI_DIR; name]).
Proof.
  intros Hcwd Hin Hout Hdir Habi Hsimple Hsome Hnodir HnM Hbuild.
  pose proof Hcwd as (segs & Hs & Hcwd').
  destruct (constant_paths cwd segs Hcwd' Hs) as (_ & HO & HA & HB & HM).
  assert (simple_name "output") as Ho by simple_literal.
  assert (Forall simple_name (segs ++ ["output"])) as Hso
    by (apply Forall_app; split; [done|by constructor]).
  assert (path_dirname (Abis.MANIFEST_JSON cwd) = Abis.OUTPUT_DIR cwd) as HdM
    by (rewrite HM, HO; apply path_dirname_under_root; [done|simple_literal]).
  assert (path_dirname out = Abis.OUTPUT_DIR cwd) as Hdo
    by (destruct Hout as [->| ->]; [rewrite HA|rewrite HB]; rewrite HO;
        apply path_dirname_under_root; (done || simple_literal)).
  assert (Abis.MANIFEST_JSON cwd <> Abis.OUTPUT_DIR cwd) as HMO
    by (rewrite HM, HO; apply child_not_parent; [done|simple_literal]).
  assert (out <> Abis.OUTPUT_DIR cwd) as HoO
    by (destruct Hout as [->| ->]; [rewrite HA|rewrite HB]; rewrite HO;
        apply child_not_parent; (done || simple_literal)).
  assert (Abis.MANIFEST_JSON cwd <> out) as HMo
    by (destruct Hout as [->| ->]; [rewrite HA|rewrite HB]; rewrite HM;
        apply sibling_distinct; (done || simple_literal)).
  destruct (main_after_builder cwd tar_archive approach w entries _ m Hin Hdir Habi Hsome Hbuild)
    as (w3 & Hrun & Hwritten & Hframe & _).
  { cbn [files]. unfold is_dir. rewrite archived_lookup_frame by (by rewrite ?Hdo). exact HnM. }
  { cbn [files]. rewrite HdM, <- Hdo. apply archived_parent; by rewrite ?Hdo. }
  cbn [files] in Hframe. rewrite HdM in Hframe.
  exists w3. split; [exact Hrun|]. split; [exact Hwritten|]. split; [|split].
  - rewrite Hframe by done. unfold Abis.archived. by rewrite lookup_insert_eq.
  - destruct (contracts_entry_apart segs "x" Hcwd' Hs) as (_ & _ & H1 & H2 & H3 & H4);
      [simple_literal|].
    rewrite Hframe by done. apply archived_lookup_frame; rewrite ?Hdo; [|done].
    by destruct Hout as [->| ->].
  - intros name Hname. rewrite Forall_forall in Hsimple.
    destruct (contracts_entry_apart segs name Hcwd' Hs (Hsimple _ Hname)) as (H1 & H2 & _).
    destruct (listed_file cwd name Hcwd (Hsimple _ Hname)) as (_ & _ & H3 & H4).
    rewrite Hframe by done. apply archived_lookup_frame; rewrite ?Hdo; [|done].
    by destruct Hout as [->| ->].
Qed.

(** X10: a complete run of approach A, B or D leaves on disk the blob
    that its manifest references.  The archive in [output] is the [tar]
    archive of the [.abi] entries of [contracts], each found under its
    name, in the order of the listing; the descriptor written to
    [manifest.json] (the single layer for A and D, the config for B)
    carries the SHA-256 digest and the length of that archive; and the
    [contracts] directory and its entries are as before.  The working
    directory and the names of the [.abi] entries are such that the
    command line reaches [tar] as written: none holds a double quote, a
    dollar sign, a backslash or a backquote, and no name begins with a
    dash or an at sign. *)
Theorem main_manifest_addresses_the_archive approach w entries :
  absolute_path cwd ->
  quotable cwd ->
  approach ∈ ["A"; "B"; "D"] ->
  is_dir (files w) OUTPUT_DIR = true ->
  files w !! ABI_DIR = Some (Dir entries) ->
  Forall simple_name entries ->
  List.filter (fun f => endsWith f ".abi") entries <> [] ->
  Forall member_name (List.filter (fun f => endsWith f ".abi") entries) ->
  Forall (fun name => is_file (files w) (path_join [ABI_DIR; name]) = true)
         (List.filter (fun f => endsWith f ".abi") entries) ->
  is_dir (files w) (if bool_decide (approach = "B") then SINGLE_CONFIG_TGZ
                    else SINGLE_LAYER_TGZ) = false ->
  is_dir (files w) MANIFEST_JSON = false ->
  exists w' m descriptor,
    main (Some approach) w = (w', Val tt)
    /\ files w' !! MANIFEST_JSON = Some (File (utf8_encode (JSON_stringify m)))
    /\ (if bool_decide (approach = "B") then get "config" m = Some descriptor
        else get "layers" m = Some (Arr [descriptor]))
    /\ get "digest" descriptor
       = Some (Str ("sha256:" +:+ sha256_hex
                      (tar_archive (Abis.tar_members (files w) ABI_DIR
                                      (List.filter (fun f => endsWith f ".abi") entries)))))
    /\ get "size" descriptor
       = Some (Num (N.of_nat (length
                      (tar_archive (Abis.tar_members (files w) ABI_DIR
                                      (List.filter (fun f => endsWith f ".abi") entries))))))
    /\ files w' !! (if bool_decide (approach = "B") then SINGLE_CONFIG_TGZ
                    else SINGLE_LAYER_TGZ)
       = Some (File (tar_archive (Abis.tar_members (files w) ABI_DIR
                                    (List.filter (fun f => endsWith f ".abi") entries))))
    /\ map fst (Abis.tar_members (files w) ABI_DIR
                  (List.filter (fun f => endsWith f ".abi") entries))
       = List.filter (fun f => endsWith f ".abi") entries
    /\ files w' !! ABI_DIR = files w !! ABI_DIR
    /\ (forall name, name ∈ entries ->
          files w' !! path_join [ABI_DIR; name] = files w !! path_join [ABI_DIR; name]).
Proof.
  intros Hcwd Hq Hin Hdir Habi Hsimple Hsome Hmembers Hfiles Hnodir HnM.
  set (names := List.filter (fun f => endsWith f ".abi") entries) in *.
  set (abiFiles := map (fun f => path_join [ABI_DIR; f]) names).
  set (blob := tar_archive (Abis.tar_members (files w) ABI_DIR names)).
  assert (Forall simple_name names) as Hnames.
  { apply Forall_forall. intros n Hn. rewrite Forall_forall in Hsimple.
    apply Hsimple. apply list_elem_of_In in Hn. apply filter_In in Hn as [Hn _].
    by apply list_elem_of_In. }
  assert (abiFiles <> []) as Hne by (unfold abiFiles; by destruct names).
  set (w1 := World (files w) (stdout w ++ [found abiFiles]) (stderr w)).
  assert (bundle w1 abiFiles = blob) as Hbundle.
  { unfold abiFiles. rewrite bundle_of_listed_files by done. by destruct names. }
  assert (is_dir (files w) ABI_DIR = true) as Hcontracts
    by (unfold is_dir; by rewrite Habi).
  assert (forall out, out = SINGLE_LAYER_TGZ \/ out = SINGLE_CONFIG_TGZ ->
            is_dir (files w) out = false -> Abis.archivable w1 abiFiles out) as Harch.
  { intros out Hout Hno. by apply listed_files_archivable. }
  assert (forall so se, bundle (World (files w) so se) abiFiles = blob) as Hbundle'
    by (intros so se; exact Hbundle).
  assert (approach ∈ ["A"; "B"; "C"; "D"]) as Hin'.
  { repeat (apply elem_of_cons in Hin as [->|Hin]); [| | |by apply elem_of_nil in Hin];
      apply (bool_decide_unpack _); vm_compute; exact I. }
  repeat (apply elem_of_cons in Hin as [->|Hin]); [| | |by apply elem_of_nil in Hin];
    decide_literals.
  - edestruct (main_around_an_archive "A" w entries (Abis.SINGLE_LAYER_TGZ cwd) blob)
      as (w' & Hrun & Hman & Hblob & Hc1 & Hc2); try done; [by left| |].
    { fold names abiFiles w1. unfold Abis.switch_approach, fmap_js. decide_literals.
      unfold bind. rewrite approachA_spec by auto. rewrite Hbundle. reflexivity. }
    do 3 eexists. split; [exact Hrun|]. split; [exact Hman|].
    split; [reflexivity|]. split; [reflexivity|]. split; [reflexivity|].
    split; [exact Hblob|]. split; [by apply tar_members_names|]. done.
  - edestruct (main_around_an_archive "B" w entries (Abis.SINGLE_CONFIG_TGZ cwd) blob)
      as (w' & Hrun & Hman & Hblob & Hc1 & Hc2); try done; [by right| |].
    { fold names abiFiles w1. unfold Abis.switch_approach, fmap_js. decide_literals.
      unfold bind. rewrite approachB_spec by auto. rewrite Hbundle. reflexivity. }
    do 3 eexists. split; [exact Hrun|]. split; [exact Hman|].
    split; [reflexivity|]. split; [reflexivity|]. split; [reflexivity|].
    split; [exact Hblob|]. split; [by apply tar_members_names|]. done.
  - edestruct (main_around_an_archive "D" w entries (Abis.SINGLE_LAYER_TGZ cwd) blob)
      as (w' & Hrun & Hman & Hblob & Hc1 & Hc2); try done; [by left| |].
    { fold names abiFiles w1. unfold Abis.switch_approach, fmap_js. decide_literals.
      unfold bind. rewrite approachD_unfold.
      rewrite approachA_spec; [|done|apply (Harch _ (or_introl eq_refl) Hnodir)].
      cbn [files stdout stderr]. rewrite Hbundle'. reflexivity. }
    do 3 eexists. split; [exact Hrun|]. split; [exact Hman|].
    split; [reflexivity|]. split; [reflexivity|]. split; [reflexivity|].
    split; [exact Hblob|]. split; [by apply tar_members_names|]. done.
Qed.

Lemma listed_layers (fs : gmap string node) names datas :
  absolute_path cwd ->
  Forall simple_name names ->
  Forall2 (fun f data => fs !! f = Some (File data))
          (map (fun f => path_join [ABI_DIR; f]) names) datas ->
  Forall2 (fun name layer =>
             exists data annotations,
               fs !! path_join [ABI_DIR; name] = Some (File data)
               /\ get "annotations" layer = Some annotations
               /\ get "org.opencontainers.image.title" annotations = Some (Str name)
               /\ get "digest" layer = Some (Str ("sha256:" +:+ sha256_hex data))
               /\ get "size" layer = Some (Num (N.of_nat (length data))))
          names
          (zip_with Abis.file_layer (map (fun f => path_join [ABI_DIR; f]) names) datas).
Proof.
  intros Hcwd Hnames. revert datas.
  induction Hnames as [|n names' Hn _ IH]; intros datas Hdatas.
  - inversion Hdatas; subst. constructor.
  - inversion Hdatas as [|? data ? datas' Hd Hrest]; subst.
    cbn [zip_with map]. constructor; [|by apply IH].
    exists data. eexists. split; [exact Hd|]. split; [reflexivity|].
    cbn. decide_literals.
    by destruct (listed_file cwd n Hcwd Hn) as (-> & _).
Qed.

(** X11: a complete run of approach C writes a manifest with one layer
    per [.abi] entry of [contracts], in the order of the listing: the
    title of a layer is the name of the entry, its digest and size are
    those of the bytes of that file.  Nothing but [manifest.json] and its
    entry in [output] is written: approach C makes no archive. *)
Theorem main_C_describes_every_abi_entry w entries :
  absolute_path cwd ->
  is_dir (files w) OUTPUT_DIR = true ->
  files w !! ABI_DIR = Some (Dir entries) ->
  Forall simple_name entries ->
  List.filter (fun f => endsWith f ".abi") entries <> [] ->
  Forall (fun name => is_file (files w) (path_join [ABI_DIR; name]) = true)
         (List.filter (fun f => endsWith f ".abi") entries) ->
  is_dir (files w) MANIFEST_JSON = false ->
  exists w' m layers,
    main (Some "C") w = (w', Val tt)
    /\ files w' !! MANIFEST_JSON = Some (File (utf8_encode (JSON_stringify m)))
    /\ get "layers" m = Some (Arr layers)
    /\ Forall2 (fun name layer =>
                  exists data annotations,
                    files w !! path_join [ABI_DIR; name] = Some (File data)
                    /\ get "annotations" layer = Some annotations
                    /\ get "org.opencontainers.image.title" annotations = Some (Str name)
                    /\ get "digest" layer = Some (Str ("sha256:" +:+ sha256_hex data))
                    /\ get "size" layer = Some (Num (N.of_nat (length data))))
               (List.filter (fun f => endsWith f ".abi") entries) layers
    /\ (forall p, p <> MANIFEST_JSON -> p <> OUTPUT_DIR -> files w' !! p = files w !! p).
Proof.
  intros Hcwd Hdir Habi Hsimple Hsome Hfiles HnM.
  set (names := List.filter (fun f => endsWith f ".abi") entries) in *.
  set (abiFiles := map (fun f => path_join [ABI_DIR; f]) names).
  assert (Forall simple_name names) as Hnames.
  { apply Forall_forall. intros n Hn. rewrite Forall_forall in Hsimple.
    apply Hsimple. apply list_elem_of_In in Hn. apply filter_In in Hn as [Hn _].
    by apply list_elem_of_In. }
  set (w1 := World (files w) (stdout w ++ [found abiFiles]) (stderr w)).
  destruct (all_files_contents (files w) abiFiles) as [datas Hdatas];
    [unfold abiFiles; by rewrite Forall_map|].
  pose proof Hcwd as (segs & Hs & Hcwd').
  destruct (constant_paths cwd segs Hcwd' Hs) as (_ & HO & _ & _ & HM).
  assert (Forall simple_name (segs ++ ["output"])) as Hso
    by (apply Forall_app; split; [done|by constructor; [simple_literal|]]).
  assert (path_dirname (Abis.MANIFEST_JSON cwd) = Abis.OUTPUT_DIR cwd) as HdM
    by (rewrite HM, HO; apply path_dirname_under_root; [done|simple_literal]).
  destruct (main_after_builder cwd tar_archive "C" w entries
              (World (files w)
                 (stdout w1 ++ ["Approach C: minimal config, each ABI as a separate layer."])
                 (stderr w))
              (Obj [ ("schemaVersion", Num 2);
                     ("mediaType", Str "application/vnd.oci.image.manifest.v1+json");
                     ("artifactType", Str "application/vnd.solidity.abi");
                     ("config", Abis.EMPTY_DESCRIPTOR);
                     ("layers", Arr (zip_with Abis.file_layer abiFiles datas)) ]))
    as (w3 & Hrun & Hwritten & Hframe & _); try done.
  { apply (bool_decide_unpack _). vm_compute. exact I. }
  { fold names abiFiles w1. unfold Abis.switch_approach, fmap_js. decide_literals.
    unfold bind. by rewrite (approachC_spec w1 abiFiles datas). }
  { cbn [files]. by rewrite HdM. }
  cbn [files] in Hframe. rewrite HdM in Hframe.
  do 3 eexists. split; [exact Hrun|]. split; [exact Hwritten|].
  split; [reflexivity|]. split; [|exact Hframe].
  by apply listed_layers.
Qed.

End AbisBehaviour.

(** *** Running a builder again *)

Section Rerun.

Variable cwd : string.

(** [tar] at the time of the first run and at the time of the second. *)
Variable tar_before tar_after : list (string * node) -> list byte.

(** X9: a second run of approach A or B on the same files, when they
    can be archived (regular files, whose names and paths reach [tar] as
    written), finds the same members, the archive of the first run not
    among them, and leaves its own archive in the place of the old one:
    the descriptor it returns addresses what [tar] makes of these members
    at that time, so the two manifests are equal whenever [tar] gives the
    same bytes for them both times. *)
Theorem rerun_archives_the_same_members w abiFiles :
  abiFiles <> [] ->
  (Abis.archivable w abiFiles (Abis.SINGLE_LAYER_TGZ cwd) ->
   exists w1 m1 w2 m2 layer,
     Abis.approachA cwd tar_before abiFiles w = (w1, Val m1)
     /\ Abis.approachA cwd tar_after abiFiles w1 = (w2, Val m2)
     /\ Abis.bundle tar_after w1 abiFiles = Abis.bundle tar_after w abiFiles
     /\ files w2 !! Abis.SINGLE_LAYER_TGZ cwd
        = Some (File (Abis.bundle tar_after w abiFiles))
     /\ get "layers" m2 = Some (Arr [layer])
     /\ get "digest" layer
        = Some (Str ("sha256:" +:+ sha256_hex (Abis.bundle tar_after w abiFiles)))
     /\ (Abis.bundle tar_after w abiFiles = Abis.bundle tar_before w abiFiles -> m2 = m1))
  /\ (Abis.archivable w abiFiles (Abis.SINGLE_CONFIG_TGZ cwd) ->
      exists w1 m1 w2 m2 config,
        Abis.approachB cwd tar_before abiFiles w = (w1, Val m1)
        /\ Abis.approachB cwd tar_after abiFiles w1 = (w2, Val m2)
        /\ Abis.bundle tar_after w1 abiFiles = Abis.bundle tar_after w abiFiles
        /\ files w2 !! Abis.SINGLE_CONFIG_TGZ cwd
           = Some (File (Abis.bundle tar_after w abiFiles))
        /\ get "config" m2 = Some config
        /\ get "digest" config
           = Some (Str ("sha256:" +:+ sha256_hex (Abis.bundle tar_after w abiFiles)))
        /\ (Abis.bundle tar_after w abiFiles = Abis.bundle tar_before w abiFiles -> m2 = m1)).
Proof.
  intros Hne. split; intros Hready.
  - destruct (archivable_once_archived tar_after w abiFiles (Abis.SINGLE_LAYER_TGZ cwd)
                (Abis.bundle tar_before w abiFiles) Hready) as [Hagain Hsame].
    set (w1 := World (Abis.archived (Abis.SINGLE_LAYER_TGZ cwd)
                        (Abis.bundle tar_before w abiFiles) (files w))
                     (stdout w ++ ["Approach A: minimal config + single layer with all ABI files."])
                     (stderr w)).
    assert (Abis.archivable w1 abiFiles (Abis.SINGLE_LAYER_TGZ cwd)) as Hagain' by exact Hagain.
    assert (Abis.bundle tar_after w1 abiFiles = Abis.bundle tar_after w abiFiles) as Hsame'
      by exact Hsame.
    exists w1. do 4 eexists.
    split; [by apply approachA_spec|].
    split; [rewrite approachA_spec by done; rewrite Hsame'; reflexivity|].
    split; [done|]. split.
    { cbn [files]. unfold Abis.archived. by rewrite lookup_insert_eq. }
    split; [reflexivity|]. split; [reflexivity|]. by intros ->.
  - destruct (archivable_once_archived tar_after w abiFiles (Abis.SINGLE_CONFIG_TGZ cwd)
                (Abis.bundle tar_before w abiFiles) Hready) as [Hagain Hsame].
    set (w1 := World (Abis.archived (Abis.SINGLE_CONFIG_TGZ cwd)
                        (Abis.bundle tar_before w abiFiles) (files w))
                     (stdout w ++ ["Approach B: everything in config, no layers."])
                     (stderr w)).
    assert (Abis.archivable w1 abiFiles (Abis.SINGLE_CONFIG_TGZ cwd)) as Hagain' by exact Hagain.
    assert (Abis.bundle tar_after w1 abiFiles = Abis.bundle tar_after w abiFiles) as Hsame'
      by exact Hsame.
    exists w1. do 4 eexists.
    split; [by apply approachB_spec|].
    split; [rewrite approachB_spec by done; rewrite Hsame'; reflexivity|].
    split; [done|]. split.
    { cbn [files]. unfold Abis.archived. by rewrite lookup_insert_eq. }
    split; [reflexivity|]. split; [reflexivity|]. by intros ->.
Qed.

End Rerun.

Import Gitmodules GitStatus Layers.

(** ** More of oci-submodules-approach-c.js *)

(** *** Dictionaries *)

Lemma put_keys {A} k (v : A) o x :
  x ∈ map fst (Submodules.put k v o) <-> x = k \/ x ∈ map fst o.
Proof.
  induction o as [|[k' v'] o IH]; cbn.
  - rewrite list_elem_of_singleton. rewrite elem_of_nil. tauto.
  - case_bool_decide as Hk; cbn; rewrite !elem_of_cons; [subst; tauto|].
    rewrite IH. tauto.
Qed.

Lemma put_NoDup {A} k (v : A) o :
  NoDup (map fst o) -> NoDup (map fst (Submodules.put k v o)).
Proof.
  induction o as [|[k' v'] o IH]; cbn; intros Hnd.
  - apply NoDup_singleton.
  - apply NoDup_cons in Hnd as [Hnot Hnd].
    case_bool_decide as Hk; cbn; apply NoDup_cons; [subst; done|].
    split; [|by apply IH]. rewrite put_keys. intros [->|?]; done.
Qed.

Lemma put_Forall {A} (P : string * A -> Prop) k v o :
  Forall P o -> P (k, v) -> Forall P (Submodules.put k v o).
Proof.
  intros Ho Hkv. induction Ho as [|[k' v'] o Hx Ho IH]; cbn.
  - by constructor.
  - case_bool_decide; by constructor.
Qed.

Lemma put_fresh {A} k (v : A) o :
  k ∉ map fst o -> Submodules.put k v o = o ++ [(k, v)].
Proof.
  induction o as [|[k' v'] o IH]; cbn; intros Hnot; [done|].
  rewrite not_elem_of_cons in Hnot. destruct Hnot as [Hne Hnot].
  rewrite bool_decide_false by done. by rewrite IH.
Qed.

Lemma update_keys {A} k (f : A -> A) o :
  map fst (Submodules.update k f o) = map fst o.
Proof.
  unfold Submodules.update. rewrite map_map. apply map_ext.
  intros [k' v']. cbn. by case_bool_decide.
Qed.

Lemma update_Forall {A} (P : string * A -> Prop) k f o :
  Forall P o -> (forall v, P (k, v) -> P (k, f v)) ->
  Forall P (Submodules.update k f o).
Proof.
  intros Ho Hf. unfold Submodules.update. apply Forall_map.
  eapply Forall_impl; [exact Ho|]. intros [k' v'] Hkv. cbn.
  case_bool_decide; [subst; by apply Hf|done].
Qed.

Lemma update_last {A} k (f : A -> A) o v :
  k ∉ map fst o ->
  Submodules.update k f (o ++ [(k, v)]) = o ++ [(k, f v)].
Proof.
  intros Hnot. unfold Submodules.update. rewrite map_app. cbn.
  rewrite bool_decide_true by done. f_equal.
  rewrite <- (map_id o) at 2. apply map_ext_Forall.
  apply Forall_forall. intros [k' v'] Hin. cbn.
  rewrite bool_decide_false; [done|]. intros ->. apply Hnot.
  apply list_elem_of_fmap. by exists (k, v').
Qed.

Lemma own_is_Some {A} k (o : list (string * A)) :
  is_Some (Submodules.own k o) <-> k ∈ map fst o.
Proof.
  induction o as [|[k' v'] o IH]; cbn.
  - rewrite elem_of_nil. split; [by intros [? ?]|done].
  - rewrite elem_of_cons. case_bool_decide; [subst; split; eauto|].
    rewrite IH. split; [tauto|]. intros [->|?]; done.
Qed.

Lemma own_elem {A} k (o : list (string * A)) v :
  Submodules.own k o = Some v -> (k, v) ∈ o.
Proof.
  induction o as [|[k' v'] o IH]; cbn; [done|].
  case_bool_decide; [intros [= ->]; subst; left|intros ?; right; by apply IH].
Qed.

(** *** The invariant of the parsing loop *)

Lemma parse_line_invariant st line :
  NoDup (map fst (snd st)) ->
  "__proto__" ∉ map fst (snd st) ->
  Forall (fun kv => Submodules.name (snd kv) = fst kv) (snd st) ->
  NoDup (map fst (snd (Submodules.parse_line st line)))
  /\ ("__proto__" ∉ map fst (snd (Submodules.parse_line st line)))
  /\ Forall (fun kv => Submodules.name (snd kv) = fst kv)
            (snd (Submodules.parse_line st line)).
Proof.
  destruct st as [cur subs]. cbn [snd]. intros Hnd Hproto Hname.
  unfold Submodules.parse_line. cbn [fst snd].
  assert (forall key store,
    (forall v s, Submodules.name (store v s) = Submodules.name s) ->
    let r := match Submodules.match_assignment (chars key) (chars (trim line)), cur with
             | Some m1, Some c => (cur, Submodules.update c (store (trim m1)) subs)
             | _, _ => (cur, subs)
             end in
    NoDup (map fst (snd r)) /\ ("__proto__" ∉ map fst (snd r))
    /\ Forall (fun kv => Submodules.name (snd kv) = fst kv) (snd r)) as Hfield.
  { intros key store Hstore.
    destruct (Submodules.match_assignment _ _) as [m1|]; [|done].
    destruct cur as [c|]; [|done]. cbn [snd]. rewrite update_keys.
    split; [done|]. split; [done|].
    apply update_Forall; [done|]. intros v. cbn. by rewrite Hstore. }
  destruct (startsWith (trim line) "[submodule").
  - destruct (Submodules.match_quoted _) as [m1|]; [|done]. cbn [snd].
    unfold Submodules.assign. case_bool_decide as Hp; [done|].
    split; [by apply put_NoDup|]. split.
    + rewrite put_keys. intros [?|?]; done.
    + by apply put_Forall.
  - destruct (Submodules.truthy cur && startsWith (trim line) "path").
    { by apply (Hfield "path" (fun v s => Submodules.Submodule
                  (Submodules.name s) (Some v) (Submodules.url s) (Submodules.branch s))). }
    destruct (Submodules.truthy cur && startsWith (trim line) "url").
    { by apply (Hfield "url" (fun v s => Submodules.Submodule
                  (Submodules.name s) (Submodules.path s) (Some v) (Submodules.branch s))). }
    destruct (Submodules.truthy cur && startsWith (trim line) "branch").
    { by apply (Hfield "branch" (fun v s => Submodules.Submodule
                  (Submodules.name s) (Submodules.path s) (Submodules.url s) (Some v))). }
    done.
Qed.

Lemma parse_lines_invariant lines st :
  NoDup (map fst (snd st)) ->
  "__proto__" ∉ map fst (snd st) ->
  Forall (fun kv => Submodules.name (snd kv) = fst kv) (snd st) ->
  NoDup (map fst (snd (fold_left Submodules.parse_line lines st)))
  /\ ("__proto__" ∉ map fst (snd (fold_left Submodules.parse_line lines st)))
  /\ Forall (fun kv => Submodules.name (snd kv) = fst kv)
            (snd (fold_left Submodules.parse_line lines st)).
Proof.
  revert st. induction lines as [|line lines IH]; intros st Hnd Hp Hn; [done|].
  cbn [fold_left].
  destruct (parse_line_invariant st line Hnd Hp Hn) as (H1 & H2 & H3).
  by apply IH.
Qed.

Lemma parseGitmodules_invariant gitmodulesPath w w' submodules :
  Submodules.parseGitmodules gitmodulesPath w = (w', Val submodules) ->
  w' = w
  /\ NoDup (map fst submodules)
  /\ ("__proto__" ∉ map fst submodules)
  /\ (forall k info, Submodules.own k submodules = Some info -> Submodules.name info = k).
Proof.
  unfold Submodules.parseGitmodules, bind, existsSync, fmap_js, bind, readFileSync, ret.
  destruct (negb _).
  - intros [= <- <-]. split; [done|]. split; [constructor|].
    split; [apply not_elem_of_nil|]. done.
  - destruct (files w !! gitmodulesPath) as [[data|es]|]; try done.
    intros [= <- <-].
    destruct (parse_lines_invariant (split 10 (utf8_decode data)) (None, []))
      as (H1 & H2 & H3); [constructor|apply not_elem_of_nil|constructor|].
    split; [done|]. split; [done|]. split; [done|].
    intros k info Hown. apply own_elem in Hown.
    rewrite Forall_forall in H3. apply (H3 (k, info) Hown).
Qed.

(** X12: whatever the [.gitmodules] file holds, the object that
    [parseGitmodules] returns has one record per name, none under the name
    [__proto__], and the [name] field of each record is the name it is
    stored under; the world is left as it was. *)
Theorem parseGitmodules_keeps_one_record_per_name gitmodulesPath w w' submodules :
  Submodules.parseGitmodules gitmodulesPath w = (w', Val submodules) ->
  w' = w
  /\ NoDup (map fst submodules)
  /\ ("__proto__" ∉ map fst submodules)
  /\ (forall k info, Submodules.own k submodules = Some info -> Submodules.name info = k).
Proof.
  unfold Submodules.parseGitmodules, bind, existsSync, fmap_js, bind, readFileSync, ret.
  destruct (negb _).
  - intros [= <- <-]. split; [done|]. split; [constructor|].
    split; [apply not_elem_of_nil|]. done.
  - destruct (files w !! gitmodulesPath) as [[data|es]|]; try done.
    intros [= <- <-].
    destruct (parse_lines_invariant (split 10 (utf8_decode data)) (None, []))
      as (H1 & H2 & H3); [constructor|apply not_elem_of_nil|constructor|].
    split; [done|]. split; [done|]. split; [done|].
    intros k info Hown. apply own_elem in Hown.
    rewrite Forall_forall in H3. apply (H3 (k, info) Hown).
Qed.

(** *** The lines of a section *)

Lemma drop_while_length {A} (p : A -> bool) l : length (drop_while p l) <= length l.
Proof. induction l as [|x l IH]; cbn; [done|]. destruct (p x); cbn; lia. Qed.

Lemma drop_while_fixed {A} (p : A -> bool) l :
  length (drop_while p l) = length l ->
  match l with [] => True | x :: _ => p x = false end.
Proof.
  destruct l as [|x l]; [done|]. cbn. destruct (p x) eqn:E; [|done].
  pose proof (drop_while_length p l). lia.
Qed.

Lemma trimmed_ends v :
  v <> "" -> trim v = v ->
  (exists c cs, chars v = c :: cs /\ is_white c = false)
  /\ (exists d ds, rev (chars v) = d :: ds /\ is_white d = false).
Proof.
  intros Hne Htrim. apply (f_equal chars) in Htrim.
  unfold trim in Htrim. rewrite chars_text in Htrim.
  assert (chars v <> []) as Hcs.
  { intros Heq. apply Hne. apply chars_inj. by rewrite Heq. }
  set (cs := chars v) in *. unfold trim_chars in Htrim.
  pose proof (drop_while_length is_white cs) as H1.
  pose proof (drop_while_length is_white (rev (drop_while is_white cs))) as H2.
  apply (f_equal (@length ascii)) in Htrim as Hlen.
  rewrite !length_rev in *.
  assert (length (drop_while is_white cs) = length cs) as Hl1 by lia.
  pose proof (drop_while_fixed _ _ Hl1) as Hhead.
  destruct cs as [|c cs'] eqn:Ecs; [done|].
  assert (drop_while is_white (c :: cs') = c :: cs') as Hsame by (cbn; by rewrite Hhead).
  rewrite Hsame in *. split; [eauto|].
  assert (length (drop_while is_white (rev (c :: cs'))) = length (rev (c :: cs'))) as Hl2
    by (rewrite length_rev; lia).
  pose proof (drop_while_fixed _ _ Hl2) as Hlast.
  destruct (rev (c :: cs')) as [|d ds] eqn:Erev; [|eauto].
  apply (f_equal (@length ascii)) in Erev. rewrite length_rev in Erev. done.
Qed.

Lemma trim_chars_kept cs c cs' d ds :
  cs = c :: cs' -> is_white c = false ->
  rev cs = d :: ds -> is_white d = false ->
  trim_chars cs = cs.
Proof.
  intros -> Hc Hrev Hd. unfold trim_chars. cbn [drop_while]. rewrite Hc.
  rewrite Hrev. cbn [drop_while]. rewrite Hd. rewrite <- Hrev. apply rev_involutive.
Qed.

Lemma up_to_last_app p xs y zs :
  p y = true -> Submodules.up_to_last p zs = None ->
  Submodules.up_to_last p (xs ++ y :: zs) = Some xs.
Proof.
  intros Hy Hzs. induction xs as [|x xs IH]; cbn.
  - by rewrite Hzs, Hy.
  - by rewrite IH.
Qed.

Lemma take_while_all {A} (p : A -> bool) l :
  Forall (fun x => p x = true) l -> take_while p l = l.
Proof. induction 1 as [|x l Hx _ IH]; cbn; [done|]. by rewrite Hx, IH. Qed.

Lemma match_quoted_skip pre rest :
  forallb (fun c => negb (char_is 34 c)) pre = true ->
  Submodules.match_quoted (pre ++ rest) = Submodules.match_quoted rest.
Proof.
  induction pre as [|c pre IH]; cbn [forallb app]; [done|].
  intros [Hc Hpre]%andb_true_iff. cbn [Submodules.match_quoted].
  apply negb_true_iff in Hc. rewrite Hc. by apply IH.
Qed.

Lemma match_quoted_here q n q' tail :
  char_is 34 q = true -> char_is 34 q' = true ->
  Forall (fun c => is_line_terminator c = false) (n ++ q' :: tail) ->
  Submodules.up_to_last (char_is 34) tail = None ->
  Submodules.match_quoted (q :: n ++ q' :: tail) = Some (text n).
Proof.
  intros Hq Hq' Hline Htail. cbn [Submodules.match_quoted]. rewrite Hq.
  rewrite take_while_all.
  - by rewrite up_to_last_app.
  - eapply Forall_impl; [exact Hline|]. intros c Hc.
    unfold Submodules.not_line_terminator. by rewrite Hc.
Qed.

Lemma section_header_parses n cur subs :
  Forall (fun c => is_line_terminator c = false) (chars n) ->
  Submodules.parse_line (cur, subs) ("[submodule " +:+ dq +:+ n +:+ dq +:+ "]")
  = (Some n, Submodules.assign n (Submodules.Submodule n None None None) subs).
Proof.
  intros Hn. unfold Submodules.parse_line. cbn [fst snd].
  set (line := "[submodule " +:+ dq +:+ n +:+ dq +:+ "]").
  assert (trim line = line) as ->.
  { unfold trim. rewrite <- (text_chars line) at 2. f_equal.
    unfold line. rewrite !chars_app.
    eapply (trim_chars_kept _ "["%char _ "]"%char); [reflexivity|reflexivity| |reflexivity].
    rewrite !rev_app_distr. reflexivity. }
  assert (startsWith line "[submodule" = true) as -> by reflexivity.
  assert (Submodules.match_quoted (chars line) = Some n) as ->; [|done].
  unfold line. rewrite !chars_app.
  rewrite match_quoted_skip by reflexivity.
  change (chars dq ++ chars n ++ chars dq ++ chars "]")
    with (ascii_of_N 34 :: chars n ++ ascii_of_N 34 :: chars "]").
  rewrite match_quoted_here; try reflexivity.
  - by rewrite text_chars.
  - apply Forall_app. split; [done|]. by repeat constructor.
Qed.

Lemma own_put {A} k (v : A) o : Submodules.own k (Submodules.put k v o) = Some v.
Proof.
  induction o as [|[k' v'] o IH]; cbn.
  - by rewrite bool_decide_true.
  - case_bool_decide as Hk; cbn; [by rewrite bool_decide_true|].
    by rewrite bool_decide_false.
Qed.

Lemma own_put_other {A} k k' (v : A) o :
  k' <> k -> Submodules.own k' (Submodules.put k v o) = Submodules.own k' o.
Proof.
  intros Hne. induction o as [|[k0 v0] o IH]; cbn.
  - by rewrite bool_decide_false.
  - case_bool_decide as Hk; cbn.
    + subst. by rewrite !bool_decide_false by done.
    + case_bool_decide; [done|exact IH].
Qed.

Lemma put_known {A} k (v : A) o :
  k ∈ map fst o -> map fst (Submodules.put k v o) = map fst o.
Proof.
  induction o as [|[k0 v0] o IH]; cbn; intros Hin.
  - by apply elem_of_nil in Hin.
  - case_bool_decide as Hk; cbn; [by subst|].
    apply elem_of_cons in Hin as [->|Hin]; [done|]. by rewrite IH.
Qed.

(** X18: a section header always starts a fresh record.  When the file
    opens a section for a name that has a record already, the fields read
    for it so far (path, url, branch) are forgotten, where [git] itself
    would merge the two sections; the other records and the order of the
    names are unchanged. *)
Theorem reopened_section_forgets_its_fields n cur subs :
  n <> "__proto__" ->
  Forall (fun c => is_line_terminator c = false) (chars n) ->
  exists subs',
    Submodules.parse_line (cur, subs) ("[submodule " +:+ dq +:+ n +:+ dq +:+ "]")
    = (Some n, subs')
    /\ Submodules.own n subs' = Some (Submodules.Submodule n None None None)
    /\ (forall k, k <> n -> Submodules.own k subs' = Submodules.own k subs)
    /\ (n ∈ map fst subs -> map fst subs' = map fst subs).
Proof.
  intros Hproto Hline. rewrite section_header_parses by done.
  unfold Submodules.assign. rewrite bool_decide_false by done.
  eexists. split; [reflexivity|]. split; [apply own_put|].
  split; [intros k Hk; by apply own_put_other|apply put_known].
Qed.

Lemma strip_prefix_app p rest : Submodules.strip_prefix p (p ++ rest) = Some rest.
Proof.
  induction p as [|a p IH]; cbn; [by destruct rest|].
  by rewrite bool_decide_true.
Qed.

Lemma match_assignment_unfold key cs :
  Submodules.match_assignment key cs
  = match
      match Submodules.strip_prefix key cs with
      | Some rest =>
          match drop_while is_white rest with
          | e :: rest' =>
              if char_is 61 e
              then Some (text (take_while Submodules.not_line_terminator
                                 (drop_while is_white rest')))
              else None
          | [] => None
          end
      | None => None
      end
    with
    | Some group => Some group
    | None => match cs with [] => None | _ :: cs' => Submodules.match_assignment key cs' end
    end.
Proof. by destruct cs. Qed.

Lemma assignment_matches key v :
  plain_value v ->
  Submodules.match_assignment (chars key) (chars (key +:+ " = " +:+ v)) = Some v.
Proof.
  intros (Hne & Htrim & Hline).
  destruct (trimmed_ends v Hne Htrim) as [(c & cs & Hv & Hc) _].
  rewrite match_assignment_unfold. rewrite !chars_app, strip_prefix_app.
  assert (is_white " " = true) as Hsp by reflexivity.
  assert (is_white "=" = false) as Heq by reflexivity.
  assert (char_is 61 "=" = true) as He by reflexivity.
  change (chars " = ") with [" "%char; "="%char; " "%char]. cbn [app drop_while].
  rewrite Hsp, Heq, He. cbn [drop_while]. rewrite Hsp.
  rewrite Hv. cbn [drop_while]. rewrite Hc. rewrite <- Hv.
  rewrite take_while_all.
  - by rewrite text_chars.
  - eapply Forall_impl; [exact Hline|]. intros x Hx.
    unfold Submodules.not_line_terminator. by rewrite Hx.
Qed.

Lemma field_line_trimmed key k ks v :
  chars key = k :: ks -> is_white k = false ->
  plain_value v ->
  trim (tab +:+ key +:+ " = " +:+ v) = key +:+ " = " +:+ v.
Proof.
  intros Hkey Hk (Hne & Htrim & _).
  destruct (trimmed_ends v Hne Htrim) as [_ (d & ds & Hrev & Hd)].
  unfold trim. apply chars_inj. rewrite chars_text.
  rewrite (chars_app tab). change (chars tab) with [ascii_of_N 9].
  assert (is_white (ascii_of_N 9) = true) as Htab by reflexivity.
  unfold trim_chars. cbn [app drop_while]. rewrite Htab.
  change (rev (drop_while is_white (rev (drop_while is_white (chars (key +:+ " = " +:+ v))))))
    with (trim_chars (chars (key +:+ " = " +:+ v))).
  rewrite !chars_app, Hkey.
  eapply (trim_chars_kept _ k _ d); [reflexivity|done| |done].
  rewrite <- Hkey. rewrite !rev_app_distr, Hrev. reflexivity.
Qed.

Lemma blank_line_is_skipped st : Submodules.parse_line st "" = st.
Proof.
  destruct st as [cur subs]. unfold Submodules.parse_line. cbn [fst snd].
  change (trim "") with "".
  change (startsWith "" "[submodule") with false.
  change (startsWith "" "path") with false.
  change (startsWith "" "url") with false.
  change (startsWith "" "branch") with false.
  by rewrite !andb_false_r.
Qed.

Lemma path_line_parses cur subs v :
  cur <> "" -> plain_value v ->
  Submodules.parse_line (Some cur, subs) (tab +:+ "path" +:+ " = " +:+ v)
  = (Some cur,
     Submodules.update cur
       (fun s => Submodules.Submodule (Submodules.name s) (Some v)
                   (Submodules.url s) (Submodules.branch s)) subs).
Proof.
  intros Hcur Hv. unfold Submodules.parse_line. cbn [fst snd].
  rewrite (field_line_trimmed "path" "p" (chars "ath")) by done.
  assert (startsWith ("path" +:+ " = " +:+ v) "[submodule" = false) as -> by reflexivity.
  assert (startsWith ("path" +:+ " = " +:+ v) "path" = true) as -> by reflexivity.
  unfold Submodules.truthy. rewrite bool_decide_false by done. cbn [negb andb].
  rewrite assignment_matches by done.
  destruct Hv as (_ & -> & _). done.
Qed.

Lemma url_line_parses cur subs v :
  cur <> "" -> plain_value v ->
  Submodules.parse_line (Some cur, subs) (tab +:+ "url" +:+ " = " +:+ v)
  = (Some cur,
     Submodules.update cur
       (fun s => Submodules.Submodule (Submodules.name s) (Submodules.path s)
                   (Some v) (Submodules.branch s)) subs).
Proof.
  intros Hcur Hv. unfold Submodules.parse_line. cbn [fst snd].
  rewrite (field_line_trimmed "url" "u" (chars "rl")) by done.
  assert (startsWith ("url" +:+ " = " +:+ v) "[submodule" = false) as -> by reflexivity.
  assert (startsWith ("url" +:+ " = " +:+ v) "path" = false) as -> by reflexivity.
  assert (startsWith ("url" +:+ " = " +:+ v) "url" = true) as -> by reflexivity.
  unfold Submodules.truthy. rewrite bool_decide_false by done. cbn [negb andb].
  rewrite assignment_matches by done.
  destruct Hv as (_ & -> & _). done.
Qed.

Lemma branch_line_parses cur subs v :
  cur <> "" -> plain_value v ->
  Submodules.parse_line (Some cur, subs) (tab +:+ "branch" +:+ " = " +:+ v)
  = (Some cur,
     Submodules.update cur
       (fun s => Submodules.Submodule (Submodules.name s) (Submodules.path s)
                   (Submodules.url s) (Some v)) subs).
Proof.
  intros Hcur Hv. unfold Submodules.parse_line. cbn [fst snd].
  rewrite (field_line_trimmed "branch" "b" (chars "ranch")) by done.
  assert (startsWith ("branch" +:+ " = " +:+ v) "[submodule" = false) as -> by reflexivity.
  assert (startsWith ("branch" +:+ " = " +:+ v) "path" = false) as -> by reflexivity.
  assert (startsWith ("branch" +:+ " = " +:+ v) "url" = false) as -> by reflexivity.
  assert (startsWith ("branch" +:+ " = " +:+ v) "branch" = true) as -> by reflexivity.
  unfold Submodules.truthy. rewrite bool_decide_false by done. cbn [negb andb].
  rewrite assignment_matches by done.
  destruct Hv as (_ & -> & _). done.
Qed.

(** The lines of one section add the record of the section. *)
Lemma section_parses s cur subs :
  describable s ->
  Submodules.name s ∉ map fst subs ->
  fold_left Submodules.parse_line (section_lines s) (cur, subs)
  = (Some (Submodules.name s), subs ++ [(Submodules.name s, s)]).
Proof.
  intros (Hne & Hproto & Hline & Hp & Hu & Hb) Hfresh.
  destruct s as [n p u b]. cbn [Submodules.name Submodules.path Submodules.url
                                 Submodules.branch] in *.
  unfold section_lines. cbn [Submodules.name Submodules.path Submodules.url
                              Submodules.branch app fold_left].
  rewrite section_header_parses by done.
  unfold Submodules.assign. rewrite bool_decide_false by done.
  rewrite put_fresh by done.
  destruct p as [p|]; cbn [field_line app fold_left].
  - rewrite path_line_parses by auto. rewrite update_last by done.
    cbn [Submodules.name Submodules.path Submodules.url Submodules.branch].
    destruct u as [u|]; cbn [field_line app fold_left].
    + rewrite url_line_parses by auto. rewrite update_last by done.
      cbn [Submodules.name Submodules.path Submodules.url Submodules.branch].
      destruct b as [b|]; cbn [field_line app fold_left]; [|done].
      rewrite branch_line_parses by auto. by rewrite update_last by done.
    + destruct b as [b|]; cbn [field_line app fold_left]; [|done].
      rewrite branch_line_parses by auto. by rewrite update_last by done.
  - destruct u as [u|]; cbn [field_line app fold_left].
    + rewrite url_line_parses by auto. rewrite update_last by done.
      cbn [Submodules.name Submodules.path Submodules.url Submodules.branch].
      destruct b as [b|]; cbn [field_line app fold_left]; [|done].
      rewrite branch_line_parses by auto. by rewrite update_last by done.
    + destruct b as [b|]; cbn [field_line app fold_left]; [|done].
      rewrite branch_line_parses by auto. by rewrite update_last by done.
Qed.

Lemma sections_parse sections cur subs :
  Forall describable sections ->
  NoDup (map fst subs ++ map Submodules.name sections) ->
  snd (fold_left Submodules.parse_line (flat_map section_lines sections) (cur, subs))
  = subs ++ map (fun s => (Submodules.name s, s)) sections.
Proof.
  intros Hall. revert cur subs.
  induction Hall as [|s sections Hs _ IH]; intros cur subs Hnd.
  - cbn. by rewrite app_nil_r.
  - cbn [flat_map map]. rewrite fold_left_app.
    apply NoDup_app in Hnd as (Hnd1 & Hdisj & Hnd2).
    apply NoDup_cons in Hnd2 as [Hs1 Hnd2].
    rewrite section_parses; [|done|].
    + rewrite IH.
      * by rewrite <- app_assoc.
      * rewrite map_app. cbn [map fst]. rewrite <- app_assoc. cbn [app].
        apply NoDup_app. split; [done|]. split; [|by apply NoDup_cons].
        intros x Hx. by apply Hdisj.
    + intros Hin. apply (Hdisj _ Hin). left.
Qed.

(** *** Splitting a text into its lines *)

Lemma split_chars_line sep l c rest :
  Forall (fun x => char_is sep x = false) l -> char_is sep c = true ->
  split_chars sep (l ++ c :: rest) = l :: split_chars sep rest.
Proof.
  intros Hl Hc. induction Hl as [|x l Hx _ IH]; cbn [app split_chars].
  - by rewrite Hc.
  - by rewrite Hx, IH.
Qed.

Lemma join_empty_cons x l : join "" (x :: l) = x +:+ join "" l.
Proof.
  unfold join. destruct l as [|y l]; cbn [String.concat]; [|done].
  apply chars_inj. rewrite chars_app. by rewrite app_nil_r.
Qed.

Lemma split_lines lines :
  Forall (fun line => Forall (fun c => is_line_terminator c = false) (chars line)) lines ->
  split 10 (join "" (map (fun line => line +:+ nl) lines)) = lines ++ [""].
Proof.
  unfold split. intros Hlines.
  induction Hlines as [|line lines Hline _ IH]; [done|].
  cbn [map]. rewrite join_empty_cons.
  rewrite !chars_app. change (chars nl) with [ascii_of_N 10].
  rewrite <- app_assoc. cbn [app].
  rewrite split_chars_line; [| |reflexivity].
  - cbn [map app]. by rewrite text_chars, IH.
  - eapply Forall_impl; [exact Hline|]. intros c Hc.
    unfold is_line_terminator, char_is in *.
    by apply orb_false_iff in Hc as [-> _].
Qed.

Lemma section_lines_on_one_line s :
  describable s ->
  Forall (fun line => Forall (fun c => is_line_terminator c = false) (chars line))
         (section_lines s).
Proof.
  intros (_ & _ & Hline & Hp & Hu & Hb).
  assert (forall key v,
            Forall (fun c => is_line_terminator c = false) (chars key) ->
            (forall x, v = Some x -> plain_value x) ->
            Forall (fun line => Forall (fun c => is_line_terminator c = false) (chars line))
                   (field_line key v)) as Hfield.
  { intros key [x|] Hkey Hx; [|constructor]. constructor; [|constructor].
    destruct (Hx x eq_refl) as (_ & _ & Hxl).
    rewrite !chars_app. repeat (apply Forall_app; split); try done; by repeat constructor. }
  unfold section_lines. repeat (apply Forall_app; split).
  - constructor; [|constructor]. rewrite !chars_app.
    repeat (apply Forall_app; split); try done; by repeat constructor.
  - apply Hfield; [by repeat constructor|done].
  - apply Hfield; [by repeat constructor|done].
  - apply Hfield; [by repeat constructor|done].
Qed.

(** X13: [parseGitmodules] reads back what [git] writes.  For a file made
    of the sections of submodules with distinct names (each a header line
    with the quoted name, then the path, url and branch lines that are
    set, indented by a tab), the object returned holds the record of each
    submodule under its name, in the order of the file. *)
Theorem parseGitmodules_reads_back_the_sections gitmodulesPath w sections :
  Forall describable sections ->
  NoDup (map Submodules.name sections) ->
  files w !! gitmodulesPath = Some (File (utf8_encode (gitmodules_text sections))) ->
  Submodules.parseGitmodules gitmodulesPath w
  = (w, Val (map (fun s => (Submodules.name s, s)) sections)).
Proof.
  intros Hall Hnd Hfile.
  unfold Submodules.parseGitmodules, bind, existsSync, fmap_js, bind, readFileSync, ret.
  rewrite bool_decide_true by eauto. cbn [negb]. rewrite Hfile.
  unfold utf8_decode, utf8_encode. rewrite string_of_list_byte_of_string.
  unfold gitmodules_text. rewrite split_lines.
  - rewrite fold_left_app. cbn [fold_left]. rewrite blank_line_is_skipped.
    by rewrite sections_parse.
  - apply Forall_flat_map. eapply Forall_impl; [exact Hall|].
    intros s Hs. by apply section_lines_on_one_line.
Qed.

(** *** The output of [git submodule status] *)

Lemma words_go_run w cur rest :
  Forall (fun c => is_white c = false) w ->
  words_go cur false (w ++ rest) = words_go (rev w ++ cur) false rest.
Proof.
  intros Hw. revert cur. induction Hw as [|c w Hc _ IH]; intros cur; [done|].
  cbn [app words_go]. rewrite Hc. rewrite IH. cbn [rev]. by rewrite <- app_assoc.
Qed.

Lemma words_of_a_status_line S p P suffix :
  Forall (fun c => is_white c = false) S ->
  Forall (fun c => is_white c = false) (p :: P) ->
  suffix = [] \/ (exists r, suffix = " "%char :: r) ->
  exists tail,
    words_go [] false (S ++ " "%char :: (p :: P) ++ suffix) = S :: (p :: P) :: tail.
Proof.
  intros HS HP Hsuffix.
  assert (is_white " " = true) as Hsp by reflexivity.
  rewrite words_go_run by done. rewrite app_nil_r.
  cbn [words_go]. rewrite Hsp. rewrite rev_involutive.
  inversion HP as [|? ? Hp HP']; subst.
  cbn [app words_go]. rewrite Hp.
  rewrite words_go_run by done.
  destruct Hsuffix as [->|[r ->]]; cbn [words_go].
  - exists []. do 2 f_equal. rewrite rev_app_distr, rev_involutive. done.
  - rewrite Hsp. eexists. do 2 f_equal. rewrite rev_app_distr, rev_involutive. done.
Qed.

Lemma word_chars s :
  word s ->
  (exists c cs, chars s = c :: cs /\ is_white c = false)
  /\ (exists d ds, rev (chars s) = d :: ds /\ is_white d = false)
  /\ Forall (fun c => is_white c = false) (chars s).
Proof.
  intros [Hne Hall].
  assert (chars s <> []) as Hcs.
  { intros Heq. apply Hne. apply chars_inj. by rewrite Heq. }
  split; [|split; [|done]].
  - destruct (chars s) as [|c cs]; [done|]. inversion Hall; subst. eauto.
  - destruct (rev (chars s)) as [|d ds] eqn:E.
    + apply (f_equal (@length ascii)) in E. rewrite length_rev in E.
      destruct (chars s); done.
    + exists d, ds. split; [done|]. rewrite Forall_forall in Hall. apply Hall.
      apply list_elem_of_In, in_rev. rewrite E. by left.
Qed.

Lemma lowercase_hex_no_sign s :
  Forall (fun c => lowercase_hex c = true) (chars s) -> strip_sign s = s.
Proof.
  destruct s as [|c s]; [done|]. cbn [chars list_ascii_of_string].
  intros Hall. inversion Hall as [|? ? Hc _]; subst.
  cbn [strip_sign].
  assert ((char_is 45 c || char_is 43 c)%bool = false) as ->; [|done].
  unfold lowercase_hex, char_is in *. destruct (code c) as [|n]; [done|].
  apply orb_false_iff. split; apply N.eqb_neq; intros Heq; rewrite Heq in Hc; done.
Qed.

(** What the loop of [getSubmoduleCommits] makes of the line of an
    entry. *)
Lemma status_line_read e :
  reported e ->
  exists sha0 tail,
    trim (status_line e) <> ""
    /\ split_white (trim (status_line e)) = sha0 :: status_path e :: tail
    /\ strip_sign sha0 = status_sha e.
Proof.
  intros (Hsign & Hsha & Hhex & Hpath & _ & Hd).
  destruct (word_chars _ Hsha) as ((c & cs & Hc & Hcw) & _ & Hshaw).
  destruct (word_chars _ Hpath) as ((p & P & Hp & Hpw) & (z & zs & Hz & Hzw) & Hpathw).
  set (suffix := match status_describe e with
                 | Some d => " (" +:+ d +:+ ")"
                 | None => ""
                 end).
  assert (chars suffix = [] \/ exists r, chars suffix = " "%char :: r) as Hsuffix.
  { unfold suffix. destruct (status_describe e); [right|by left].
    rewrite chars_app. eexists. reflexivity. }
  assert (exists y ys, rev (chars (status_path e) ++ chars suffix) = y :: ys
                       /\ is_white y = false) as (y & ys & Hy & Hyw).
  { unfold suffix. destruct (status_describe e).
    - rewrite !chars_app, !rev_app_distr. exists ")"%char. eexists.
      split; reflexivity.
    - rewrite app_nil_r. eauto. }
  set (body := status_sha e +:+ " " +:+ status_path e +:+ suffix).
  assert (chars body = chars (status_sha e) ++ " "%char :: chars (status_path e) ++ chars suffix)
    as Hbody by (unfold body; by rewrite !chars_app).
  assert (trim_chars (chars body) = chars body) as Htrim.
  { rewrite Hbody, Hc. set (X := chars (status_path e) ++ chars suffix) in *.
    eapply (trim_chars_kept _ c _ y); [reflexivity|done| |done].
    change ((c :: cs) ++ " "%char :: X) with ((c :: cs) ++ [" "%char] ++ X).
    rewrite !rev_app_distr, Hy. reflexivity. }
  assert (forall s0, Forall (fun c => is_white c = false) (chars s0) ->
            exists tail, split_white (s0 +:+ " " +:+ status_path e +:+ suffix)
                         = s0 :: status_path e :: tail) as Hwords.
  { intros s0 Hs0. unfold split_white. rewrite !chars_app.
    change (chars " " ++ chars (status_path e) ++ chars suffix)
      with (" "%char :: chars (status_path e) ++ chars suffix).
    rewrite Hp in *.
    destruct (words_of_a_status_line (chars s0) p P (chars suffix) Hs0 Hpathw Hsuffix)
      as [tail ->].
    exists (map text tail). cbn [map]. rewrite <- Hp. by rewrite !text_chars. }
  unfold status_line. fold suffix. fold body.
  assert (is_white " " = true) as Hsp by reflexivity.
  repeat (apply elem_of_cons in Hsign as [Hs|Hsign]); [| | |by apply elem_of_nil in Hsign];
    rewrite Hs.
  - (* a space: trimmed away *)
    assert (trim (" " +:+ body) = body) as ->.
    { unfold trim. apply chars_inj. rewrite chars_text.
      change (chars (" " +:+ body)) with (" "%char :: chars body).
      unfold trim_chars at 1. cbn [drop_while]. rewrite Hsp. exact Htrim. }
    destruct (Hwords (status_sha e) Hshaw) as [tail Htail].
    exists (status_sha e), tail. split; [|split].
    + intros Heq. apply (f_equal chars) in Heq. rewrite Hbody, Hc in Heq. done.
    + exact Htail.
    + by apply lowercase_hex_no_sign.
  - assert (trim ("-" +:+ body) = "-" +:+ body) as ->.
    { unfold trim. apply chars_inj. rewrite chars_text.
      change (chars ("-" +:+ body)) with ("-"%char :: chars body).
      eapply (trim_chars_kept _ "-"%char _ y); [reflexivity|reflexivity| |done].
      rewrite Hbody. set (X := chars (status_path e) ++ chars suffix) in *.
      change ("-"%char :: chars (status_sha e) ++ " "%char :: X)
        with (("-"%char :: chars (status_sha e)) ++ [" "%char] ++ X).
      rewrite !rev_app_distr, Hy. reflexivity. }
    destruct (Hwords ("-" +:+ status_sha e)) as [tail Htail].
    { change (chars ("-" +:+ status_sha e)) with ("-"%char :: chars (status_sha e)).
      by constructor. }
    exists ("-" +:+ status_sha e), tail. split; [done|]. split; [|done].
    rewrite <- Htail. reflexivity.
  - assert (trim ("+" +:+ body) = "+" +:+ body) as ->.
    { unfold trim. apply chars_inj. rewrite chars_text.
      change (chars ("+" +:+ body)) with ("+"%char :: chars body).
      eapply (trim_chars_kept _ "+"%char _ y); [reflexivity|reflexivity| |done].
      rewrite Hbody. set (X := chars (status_path e) ++ chars suffix) in *.
      change ("+"%char :: chars (status_sha e) ++ " "%char :: X)
        with (("+"%char :: chars (status_sha e)) ++ [" "%char] ++ X).
      rewrite !rev_app_distr, Hy. reflexivity. }
    destruct (Hwords ("+" +:+ status_sha e)) as [tail Htail].
    { change (chars ("+" +:+ status_sha e)) with ("+"%char :: chars (status_sha e)).
      by constructor. }
    exists ("+" +:+ status_sha e), tail. split; [done|]. split; [|done].
    rewrite <- Htail. reflexivity.
Qed.

Lemma status_line_on_one_line e :
  reported e ->
  Forall (fun c => is_line_terminator c = false) (chars (status_line e)).
Proof.
  intros (Hsign & Hsha & _ & Hpath & _ & Hd).
  assert (forall c, is_white c = false -> is_line_terminator c = false) as Hw.
  { intros c. unfold is_white, is_line_terminator.
    destruct (code c =? 10)%N eqn:E1; [apply N.eqb_eq in E1; by rewrite E1|].
    destruct (code c =? 13)%N eqn:E2; [apply N.eqb_eq in E2; by rewrite E2|]. done. }
  destruct Hsha as [_ Hsha]. destruct Hpath as [_ Hpath].
  unfold status_line. rewrite !chars_app.
  repeat (apply Forall_app; split).
  - repeat (apply elem_of_cons in Hsign as [->|Hsign]); [| | |by apply elem_of_nil in Hsign];
      by repeat constructor.
  - eapply Forall_impl; [exact Hsha|]. done.
  - by repeat constructor.
  - eapply Forall_impl; [exact Hpath|]. done.
  - destruct (status_describe e) as [d|]; [|constructor].
    rewrite !chars_app. repeat (apply Forall_app; split); try by repeat constructor.
    by apply Hd.
Qed.

Section GitStatusProperties.

Variable git_submodule_status : gmap string node -> option string.

Local Abbreviation getSubmoduleCommits := (Submodules.getSubmoduleCommits git_submodule_status).

Local Abbreviation record_line :=
  (fun (result : gmap string string) (line : string) =>
     match split_white line with
     | sha0 :: subPath :: _ =>
         if bool_decide (subPath = "__proto__") then result
         else <[subPath := strip_sign sha0]> result
     | _ => result
     end).

Lemma status_lines_recorded entries (result : gmap string string) :
  Forall reported entries ->
  fold_left record_line
    (List.filter (fun l => negb (bool_decide (l = "")))
       (map trim (map status_line entries ++ [""]))) result
  = fold_left (fun m e => <[status_path e := status_sha e]> m) entries result.
Proof.
  intros Hall. revert result.
  induction Hall as [|e entries He _ IH]; intros result.
  - cbn. reflexivity.
  - cbn [map app List.filter fold_left].
    destruct (status_line_read e He) as (sha0 & tail & Hne & Hsplit & Hstrip).
    rewrite bool_decide_false by done. cbn [negb fold_left].
    rewrite Hsplit. destruct He as (_ & _ & _ & _ & Hproto & _).
    rewrite bool_decide_false by done. rewrite Hstrip. apply IH.
Qed.

Lemma recorded_elsewhere entries (result : gmap string string) p :
  p ∉ map status_path entries ->
  fold_left (fun m e => <[status_path e := status_sha e]> m) entries result !! p
  = result !! p.
Proof.
  revert result. induction entries as [|e entries IH]; intros result Hp; [done|].
  cbn [map] in Hp. rewrite not_elem_of_cons in Hp. destruct Hp as [Hne Hp].
  cbn [fold_left]. rewrite IH by done. by rewrite lookup_insert_ne.
Qed.

Lemma recorded_entry entries (result : gmap string string) e :
  NoDup (map status_path entries) -> e ∈ entries ->
  fold_left (fun m e => <[status_path e := status_sha e]> m) entries result
    !! status_path e
  = Some (status_sha e).
Proof.
  revert result. induction entries as [|e' entries IH]; intros result Hnd Hin.
  - by apply elem_of_nil in Hin.
  - cbn [map] in Hnd. apply NoDup_cons in Hnd as [Hfirst Hnd].
    cbn [fold_left]. apply elem_of_cons in Hin as [->|Hin].
    + rewrite recorded_elsewhere by done. by rewrite lookup_insert_eq.
    + by apply IH.
Qed.

(** X14: [getSubmoduleCommits] reads the output of [git submodule
    status].  For an output made of one line per submodule (a space, a
    minus or a plus, the commit, the path and maybe a description), with
    distinct paths, the object returned maps each path to its commit, the
    sign removed, and holds nothing else; the world is left as it was. *)
Theorem getSubmoduleCommits_reads_the_status w entries :
  Forall reported entries ->
  NoDup (map status_path entries) ->
  git_submodule_status (files w) = Some (status_text entries) ->
  exists commits,
    getSubmoduleCommits w = (w, Val commits)
    /\ (forall e, e ∈ entries -> commits !! status_path e = Some (status_sha e))
    /\ (forall p, p ∉ map status_path entries -> commits !! p = None).
Proof.
  intros Hall Hnd Hgit.
  unfold Submodules.getSubmoduleCommits, try_catch, bind, Submodules.execSync_git.
  rewrite Hgit. unfold ret.
  eexists. split; [reflexivity|].
  unfold status_text.
  rewrite <- (map_map status_line (fun line => line +:+ nl)).
  rewrite split_lines.
  - rewrite status_lines_recorded by done. split.
    + intros e He. by apply recorded_entry.
    + intros p Hp. by rewrite recorded_elsewhere.
  - apply Forall_map. eapply Forall_impl; [exact Hall|].
    intros e He. by apply status_line_on_one_line.
Qed.

(** X15: a failing [git] command does not stop the script:
    [getSubmoduleCommits] catches the error, reports it on the standard
    error and returns the empty object.  Whatever the command does,
    [getSubmoduleCommits] returns an object, and the files and the
    standard output are as before. *)
Theorem getSubmoduleCommits_survives_a_failing_git w :
  (exists commits report,
     getSubmoduleCommits w
     = (World (files w) (stdout w) (stderr w ++ report), Val commits))
  /\ (git_submodule_status (files w) = None ->
      exists report,
        report <> []
        /\ getSubmoduleCommits w
           = (World (files w) (stdout w) (stderr w ++ report), Val ∅)).
Proof.
  unfold Submodules.getSubmoduleCommits, try_catch, bind, Submodules.execSync_git.
  destruct (git_submodule_status (files w)) as [out|].
  - split; [|done]. eexists _, []. rewrite app_nil_r. unfold ret. by destruct w.
  - split; [eexists _, [_]; reflexivity|].
    intros _. eexists [_]. split; [done|reflexivity].
Qed.

End GitStatusProperties.

(** *** [Object.keys] *)

Lemma array_index_pretty k n : Submodules.array_index k = Some n -> pretty n = k.
Proof.
  unfold Submodules.array_index. destruct (chars k); [done|].
  destruct (Submodules.digits_value _ _) as [m|]; [|done].
  destruct (bool_decide (pretty m = k) && (m <? 4294967295)%N) eqn:E; [|done].
  intros [= <-]. apply andb_true_iff in E as [E _]. by apply bool_decide_eq_true in E.
Qed.

Lemma indices_and_names ks :
  map pretty (omap Submodules.array_index ks)
  ++ List.filter (fun k => bool_decide (Submodules.array_index k = None)) ks
  ≡ₚ ks.
Proof.
  induction ks as [|k ks IH]; [done|]. cbn [omap list_omap List.filter].
  destruct (Submodules.array_index k) as [n|] eqn:E.
  - rewrite bool_decide_false by done. cbn [map app].
    rewrite (array_index_pretty k n E). by constructor.
  - rewrite bool_decide_true by done.
    rewrite <- Permutation_middle. by constructor.
Qed.

Lemma Object_keys_permutation {A} (o : list (string * A)) :
  Submodules.Object_keys o ≡ₚ map fst o.
Proof.
  unfold Submodules.Object_keys.
  rewrite <- (indices_and_names (map fst o)) at 3.
  apply Permutation_app; [|done].
  apply Permutation_map. apply merge_sort_Permutation.
Qed.

Lemma Object_keys_plain {A} (o : list (string * A)) :
  Forall (fun k => Submodules.array_index k = None) (map fst o) ->
  Submodules.Object_keys o = map fst o.
Proof.
  unfold Submodules.Object_keys. generalize (map fst o). intros ks Hks.
  assert (omap Submodules.array_index ks = []) as ->.
  { induction Hks as [|k ks Hk _ IH]; [done|]. cbn. by rewrite Hk. }
  cbn. induction Hks as [|k ks Hk _ IH]; [done|].
  cbn. rewrite bool_decide_true by done. by rewrite IH.
Qed.

Lemma Object_keys_own {A} (o : list (string * A)) :
  Forall (fun k => is_Some (Submodules.own k o)) (Submodules.Object_keys o).
Proof.
  apply Forall_forall. intros k Hk. apply own_is_Some.
  by rewrite <- (Object_keys_permutation o).
Qed.

(** *** The layer files *)

Lemma layer_file_name_simple n : simple_name (replace_slashes n +:+ ".json").
Proof.
  assert (chars (replace_slashes n +:+ ".json")
          = map (fun c => if char_is 47 c then ascii_of_N 95 else c) (chars n)
            ++ chars ".json") as Hchars.
  { rewrite chars_app. unfold replace_slashes. by rewrite chars_text. }
  assert (5 <= length (chars (replace_slashes n +:+ ".json"))) as Hlen.
  { rewrite Hchars, length_app. cbn. lia. }
  repeat split.
  - intros Heq. rewrite Heq in Hlen. cbn in Hlen. lia.
  - intros Heq. rewrite Heq in Hlen. cbn in Hlen. lia.
  - intros Heq. rewrite Heq in Hlen. cbn in Hlen. lia.
  - unfold plain. rewrite Hchars. apply Forall_app. split.
    + apply Forall_map. apply Forall_forall. intros c _. cbn beta.
      unfold is_slash. destruct (char_is 47 c) eqn:E; [reflexivity|exact E].
    + by repeat constructor.
Qed.

Lemma layer_file_name_inj n m :
  replace_slashes n +:+ ".json" = replace_slashes m +:+ ".json" ->
  replace_slashes n = replace_slashes m.
Proof.
  intros Heq. apply (f_equal chars) in Heq. rewrite !chars_app in Heq.
  apply app_inv_tail in Heq. by apply chars_inj.
Qed.

Section LayerPaths.

Variable cwd : string.
Variable segs : list string.
Hypothesis Hcwd : cwd = under_root segs.
Hypothesis Hsegs : Forall simple_name segs.

Local Abbreviation L := (Submodules.SUBMODULE_LAYER_DIR cwd).
Local Abbreviation M := (path_join [cwd; "manifest.json"]).
Local Abbreviation F := (layer_file cwd).

Lemma layer_paths :
  L = under_root (segs ++ ["submodule-layers"])
  /\ M = under_root (segs ++ ["manifest.json"])
  /\ (forall n, F n = under_root ((segs ++ ["submodule-layers"])
                                   ++ [replace_slashes n +:+ ".json"])).
Proof.
  assert (simple_name "manifest.json") as Hn1 by simple_literal.
  assert (simple_name "submodule-layers") as Hn2 by simple_literal.
  unfold layer_file, Submodules.SUBMODULE_LAYER_DIR. rewrite Hcwd.
  rewrite !path_join_under_root by done.
  split; [done|]. split; [done|]. intros n.
  apply path_join_under_root; [|apply layer_file_name_simple].
  apply Forall_app. split; [done|]. by constructor.
Qed.

Lemma layer_file_facts n :
  path_dirname (F n) = L
  /\ F n <> L /\ F n <> cwd /\ F n <> M
  /\ L <> cwd /\ M <> cwd /\ M <> L
  /\ path_dirname L = cwd /\ path_dirname M = cwd.
Proof.
  destruct layer_paths as (HL & HM & HF).
  assert (simple_name "manifest.json") as Hn1 by simple_literal.
  assert (simple_name "submodule-layers") as Hn2 by simple_literal.
  pose proof (layer_file_name_simple n) as Hn3.
  assert (Forall simple_name (segs ++ ["submodule-layers"])) as Hs2
    by (apply Forall_app; split; [done|by constructor]).
  assert (Forall simple_name (segs ++ ["manifest.json"])) as Hs1
    by (apply Forall_app; split; [done|by constructor]).
  rewrite HF, HL, HM, Hcwd.
  split; [by apply path_dirname_under_root|].
  split; [by apply child_not_parent|].
  split.
  { intros Heq. apply under_root_inj in Heq; [|by apply Forall_app; split; [|constructor]|done].
    apply (f_equal length) in Heq. rewrite !length_app in Heq. cbn in Heq. lia. }
  split.
  { intros Heq. apply under_root_inj in Heq; [|by apply Forall_app; split; [|constructor]|done].
    apply (f_equal length) in Heq. rewrite !length_app in Heq. cbn in Heq. lia. }
  split; [by apply child_not_parent|].
  split; [by apply child_not_parent|].
  split; [by apply sibling_distinct|].
  split; by apply path_dirname_under_root.
Qed.

Lemma layer_file_inj n m : F n = F m -> replace_slashes n = replace_slashes m.
Proof.
  destruct layer_paths as (_ & _ & HF). rewrite !HF. intros Heq.
  apply under_root_inj in Heq.
  - apply app_inj_tail in Heq as [_ Heq]. by apply layer_file_name_inj.
  - apply Forall_app. split; [|constructor; [apply layer_file_name_simple|constructor]].
    apply Forall_app. split; [done|]. constructor; [simple_literal|constructor].
  - apply Forall_app. split; [|constructor; [apply layer_file_name_simple|constructor]].
    apply Forall_app. split; [done|]. constructor; [simple_literal|constructor].
Qed.

Lemma layer_file_same n m : replace_slashes n = replace_slashes m -> F n = F m.
Proof. unfold layer_file. by intros ->. Qed.

End LayerPaths.

(** Writing a regular file in a directory that is there. *)
Lemma write_file_in_place syscall p data (fs : gmap string node) :
  is_dir fs (path_dirname p) = true ->
  is_dir fs p = false ->
  p <> path_dirname p ->
  exists fs1,
    write_file syscall p data fs = inl fs1
    /\ fs1 !! p = Some (File data)
    /\ is_dir fs1 (path_dirname p) = true
    /\ (forall q, q <> p -> q <> path_dirname p -> fs1 !! q = fs !! q)
    /\ (forall q, is_dir fs q = false -> q <> path_dirname p -> is_dir fs1 q = false).
Proof.
  intros Hparent Hnodir Hne. unfold write_file.
  unfold is_dir in Hnodir.
  destruct (fs !! p) as [[d|es]|] eqn:Hp; [|done|].
  - eexists. split; [reflexivity|]. split; [by rewrite lookup_insert_eq|].
    split; [unfold is_dir; by rewrite lookup_insert_ne|].
    split; [intros q Hq _; by rewrite lookup_insert_ne|].
    intros q Hq _. unfold is_dir in *. destruct (decide (q = p)) as [->|Hqp].
    + by rewrite lookup_insert_eq.
    + by rewrite lookup_insert_ne.
  - pose proof Hparent as Hparent'. apply is_dir_lookup in Hparent' as [es ->].
    eexists. split; [reflexivity|]. split; [by rewrite lookup_insert_eq|].
    split.
    { unfold is_dir. rewrite lookup_insert_ne by done. by apply add_entry_parent. }
    split.
    { intros q Hq1 Hq2. rewrite lookup_insert_ne by done. by apply add_entry_other. }
    intros q Hq Hq2. unfold is_dir in *. destruct (decide (q = p)) as [->|Hqp].
    + by rewrite lookup_insert_eq.
    + rewrite lookup_insert_ne by done. by rewrite add_entry_other.
Qed.

Lemma layer_step {B} p blob w fs1 (k : string * N -> js B) :
  write_file "open" p blob (files w) = inl fs1 ->
  fs1 !! p = Some (File blob) ->
  bind (writeFileSync p blob)
       (fun _ => bind (Submodules.computeDigestAndSize p) k) w
  = k ("sha256:" +:+ sha256_hex blob, N.of_nat (length blob)) (with_files w fs1).
Proof.
  intros Hwrite Hread. unfold bind at 1, writeFileSync. rewrite Hwrite.
  unfold bind at 1, Submodules.computeDigestAndSize, bind at 1, readFileSync.
  cbn [files with_files]. rewrite Hread. reflexivity.
Qed.

Section LayerLoop.

Variable cwd : string.
Variable segs : list string.
Hypothesis Hcwd : cwd = under_root segs.
Hypothesis Hsegs : Forall simple_name segs.

Local Abbreviation L := (Submodules.SUBMODULE_LAYER_DIR cwd).
Local Abbreviation F := (layer_file cwd).

(** The loop over the names: one layer per name, in order; the files
    written are the layer files, each holding the data of the last name
    written to it. *)
Lemma submodule_layers_run submodules commits names acc w :
  is_dir (files w) L = true ->
  Forall (fun n => is_dir (files w) (F n) = false) names ->
  Forall (fun n => is_Some (Submodules.own n submodules)) names ->
  exists fs' layers,
    Submodules.submodule_layers cwd submodules commits names acc w
    = (with_files w fs', Val (acc ++ layers))
    /\ Forall2 (fun n layer =>
                  exists info, Submodules.own n submodules = Some info
                               /\ layer = layer_of n (layer_blob commits info))
               names layers
    /\ is_dir fs' L = true
    /\ (forall p, p <> L -> (forall n, n ∈ names -> p <> F n) -> fs' !! p = files w !! p)
    /\ (forall pre n post info,
          names = pre ++ n :: post ->
          replace_slashes n ∉ map replace_slashes post ->
          Submodules.own n submodules = Some info ->
          fs' !! F n = Some (File (layer_blob commits info))).
Proof.
  intros HL HF Hown. revert acc w HL HF.
  induction Hown as [|n names [info Hn] _ IH]; intros acc w HL HF.
  - exists (files w), []. rewrite app_nil_r, with_files_same.
    split; [done|]. split; [constructor|]. split; [done|].
    split; [done|]. intros pre n post info Heq. by destruct pre.
  - apply Forall_cons in HF as [HFn HFrest].
    destruct (layer_file_facts cwd segs Hcwd Hsegs n) as (Hd & HnL & _).
    destruct (write_file_in_place "open" (F n) (layer_blob commits info) (files w))
      as (fs1 & Hwrite & Hread & HL1 & Hframe1 & Hnodir1);
      [by rewrite Hd|done|by rewrite Hd|].
    rewrite Hd in *.
    cbn [Submodules.submodule_layers]. rewrite Hn.
    fold (commit_of commits info). fold (submodule_data commits info).
    fold (layer_file cwd n). fold (layer_blob commits info).
    rewrite (layer_step _ _ _ fs1) by done. cbn [fst snd].
    fold (layer_of n (layer_blob commits info)).
    destruct (IH (acc ++ [layer_of n (layer_blob commits info)]) (with_files w fs1))
      as (fs' & layers & Hrun & Hlayers & HL' & Hframe' & Hlast'); [done| |].
    { cbn [files with_files]. eapply Forall_impl; [exact HFrest|].
      intros m Hm. cbn beta. apply Hnodir1; [done|].
      by destruct (layer_file_facts cwd segs Hcwd Hsegs m) as (_ & ? & _). }
    cbn [files with_files] in *.
    exists fs', (layer_of n (layer_blob commits info) :: layers).
    split. { rewrite Hrun. destruct w. cbn. by rewrite <- app_assoc. }
    split. { constructor; [by exists info|done]. }
    split; [done|]. split.
    { intros p Hp1 Hp2. rewrite Hframe'.
      - apply Hframe1; [|done]. apply Hp2. left.
      - done.
      - intros m Hm. apply Hp2. by right. }
    intros pre m post info' Heq Hfresh Hm.
    destruct pre as [|x pre]; cbn [app] in Heq; injection Heq as -> ->.
    + assert (info' = info) as -> by congruence.
      rewrite Hframe'; [done|done|].
      intros k Hk Hsame. apply Hfresh.
      apply (layer_file_inj cwd segs Hcwd Hsegs) in Hsame. rewrite Hsame.
      by apply list_elem_of_fmap_2.
    + by eapply Hlast'.
Qed.

End LayerLoop.

(** *** A complete run *)

Lemma forEach_console_log {A} (l : list A) (f : A -> string) w :
  forEach l (fun x => console_log (f x)) w
  = (World (files w) (stdout w ++ map f l) (stderr w), Val tt).
Proof.
  revert w. induction l as [|x l IH]; intros w; cbn [forEach map].
  - rewrite app_nil_r. by destruct w.
  - rewrite bind_console_log. rewrite IH. cbn [files stdout stderr].
    by rewrite <- app_assoc.
Qed.

(** Making the layer directory where no regular file stands in its
    place. *)
Lemma layer_dir_made layerDir parent w :
  path_dirname layerDir = parent ->
  is_dir (files w) parent = true ->
  layerDir <> parent ->
  is_file (files w) layerDir = false ->
  exists fs1,
    (let* present := existsSync layerDir in
     if negb present then mkdirSync layerDir else ret tt) w
    = (with_files w fs1, Val tt)
    /\ is_dir fs1 parent = true
    /\ is_dir fs1 layerDir = true
    /\ (forall p, p <> parent -> p <> layerDir -> fs1 !! p = files w !! p).
Proof.
  intros Hparent Hdir Hne Hnofile.
  unfold bind, existsSync, mkdirSync, ret. unfold is_file in Hnofile.
  destruct (files w !! layerDir) as [[d|es]|] eqn:HL; [done| |].
  - rewrite bool_decide_true by eauto. cbn [negb].
    exists (files w). rewrite with_files_same. unfold is_dir at 2. rewrite HL. done.
  - rewrite bool_decide_false by (by intros [? ?]). cbn [negb].
    rewrite HL, Hparent.
    pose proof Hdir as Hdir'. apply is_dir_lookup in Hdir' as [es Hes]. rewrite Hes.
    eexists. split; [reflexivity|]. split; [|split].
    + unfold is_dir. rewrite lookup_insert_ne by done.
      rewrite <- Hparent. apply add_entry_parent. by rewrite Hparent.
    + unfold is_dir. by rewrite lookup_insert_eq.
    + intros p Hp1 Hp2. rewrite lookup_insert_ne by done.
      by rewrite add_entry_other by (by rewrite Hparent).
Qed.

Section SubmodulesRuns.

Variable git_submodule_status : gmap string node -> option string.

Local Abbreviation main := (fun cwd => Submodules.main cwd git_submodule_status).
Local Abbreviation getSubmoduleCommits := (Submodules.getSubmoduleCommits git_submodule_status).

Lemma main_run cwd w submodules :
  absolute_path cwd ->
  is_dir (files w) cwd = true ->
  Submodules.parseGitmodules (path_join [cwd; ".gitmodules"]) w = (w, Val submodules) ->
  is_file (files w) (Submodules.SUBMODULE_LAYER_DIR cwd) = false ->
  Forall (fun kv => is_dir (files w) (layer_file cwd (fst kv)) = false) submodules ->
  is_dir (files w) (path_join [cwd; "manifest.json"]) = false ->
  exists w' commits layers,
    snd (getSubmoduleCommits w) = Val commits
    /\ main cwd w = (w', Val tt)
    /\ files w' !! path_join [cwd; "manifest.json"]
       = Some (File (utf8_encode (JSON_stringify (manifest_of layers))))
    /\ Forall2 (fun n layer =>
                  exists info, Submodules.own n submodules = Some info
                               /\ layer = layer_of n (layer_blob commits info))
               (Submodules.Object_keys submodules) layers
    /\ (forall pre n post info,
          Submodules.Object_keys submodules = pre ++ n :: post ->
          replace_slashes n ∉ map replace_slashes post ->
          Submodules.own n submodules = Some info ->
          files w' !! layer_file cwd n = Some (File (layer_blob commits info)))
    /\ (forall p, p <> cwd ->
                  p <> path_join [cwd; "manifest.json"] ->
                  p <> Submodules.SUBMODULE_LAYER_DIR cwd ->
                  (forall n, n ∈ map fst submodules -> p <> layer_file cwd n) ->
                  files w' !! p = files w !! p)
    /\ stderr w' = stderr (fst (getSubmoduleCommits w))
    /\ (exists rest,
          stdout w'
          = stdout w
            ++ [ "Wrote manifest to " +:+ path_join [cwd; "manifest.json"] +:+ ".";
                 "Created submodule layer files in "
                 +:+ Submodules.SUBMODULE_LAYER_DIR cwd +:+ ".";
                 nl +:+ "Manifest layers:" ]
            ++ map Submodules.layer_line layers ++ rest
          /\ last rest = Some (nl +:+ "Done!")).
Proof.
  intros (segs & Hsegs & Hcwd) Hdir Hparse HnoL HnoF HnoM.
  set (L := Submodules.SUBMODULE_LAYER_DIR cwd) in *.
  set (M := path_join [cwd; "manifest.json"]) in *.
  destruct (layer_file_facts cwd segs Hcwd Hsegs "") as (_ & _ & _ & _ & HLc & HMc & HML & HdL & HdM).
  fold L M in HLc, HMc, HML, HdL, HdM.
  assert (forall n, layer_file cwd n <> L /\ layer_file cwd n <> cwd /\ layer_file cwd n <> M)
    as Hapart.
  { intros n. by destruct (layer_file_facts cwd segs Hcwd Hsegs n) as (_ & ? & ? & ? & _). }
  destruct (getSubmoduleCommits_spec git_submodule_status w) as (commits & report & Hcommits).
  set (w2 := World (files w) (stdout w) (stderr w ++ report)) in *.
  destruct (layer_dir_made L cwd w2) as (fs1 & Hstep & Hcwd1 & HL1 & Hframe1); try done.
  cbn [files w2] in Hframe1.
  destruct (submodule_layers_run cwd segs Hcwd Hsegs submodules commits
              (Submodules.Object_keys submodules) [] (with_files w2 fs1))
    as (fs2 & layers & Hrun & Hlayers & HL2 & Hframe2 & Hlast2).
  { done. }
  { cbn [files with_files]. apply Forall_forall. intros n Hn.
    rewrite (Object_keys_permutation submodules) in Hn.
    apply list_elem_of_fmap in Hn as ([k info] & -> & Hin).
    rewrite Forall_forall in HnoF. specialize (HnoF _ Hin). cbn [fst] in *.
    destruct (Hapart k) as (H1 & H2 & _).
    unfold is_dir in *. by rewrite Hframe1. }
  { apply Object_keys_own. }
  cbn [files with_files app] in *.
  assert (forall p, p <> L -> (forall n, n ∈ map fst submodules -> p <> layer_file cwd n) ->
            fs2 !! p = fs1 !! p) as Hframe2'.
  { intros p Hp1 Hp2. apply Hframe2; [done|]. intros n Hn. apply Hp2.
    by rewrite <- (Object_keys_permutation submodules). }
  destruct (write_file_in_place "open" M
              (utf8_encode (JSON_stringify (manifest_of layers))) fs2)
    as (fs3 & Hwrite & Hread & _ & Hframe3 & _).
  { rewrite HdM. unfold is_dir. rewrite Hframe2'; [done|done|].
    intros n _ Heq. by destruct (Hapart n) as (_ & ? & _). }
  { unfold is_dir. rewrite Hframe2'; [|done|].
    - rewrite Hframe1 by done. exact HnoM.
    - intros n _ Heq. by destruct (Hapart n) as (_ & _ & ?). }
  { by rewrite HdM. }
  rewrite HdM in Hframe3.
  exists (World fs3
            (stdout w
             ++ [ "Wrote manifest to " +:+ M +:+ ".";
                  "Created submodule layer files in " +:+ L +:+ ".";
                  nl +:+ "Manifest layers:" ]
             ++ map (Submodules.layer_line) layers
             ++ [ nl +:+ "Next steps to push to GitHub’s OCI registry:";
                  "1) Upload each layer blob (the .json files) to the registry, for example using ORAS:";
                  "   oras push ghcr.io/<OWNER>/<REPO>:<TAG> " +:+ backslash;
                  "       --artifact-type application/vnd.example.git-submodules " +:+ backslash;
                  "       --config /dev/null:application/vnd.oci.empty.v1+json " +:+ backslash;
                  "       ./submodule-layers/deps_foo.json:application/vnd.example.git-submodule.layer.v1+json " +:+ backslash;
                  "       ./submodule-layers/deps_bar.json:application/vnd.example.git-submodule.layer.v1+json ...";
                  "   (ORAS will automatically create a manifest with references to these blobs, although you may need to pass some flags.)";
                  "   Alternatively, you can separately upload blobs and then link them in a custom step if you prefer a more manual approach.";
                  nl +:+ "2) Or manually push using 'manifest.json' if your tooling supports passing a pre-built manifest.";
                  nl +:+ "Done!" ])
            (stderr w ++ report)),
         commits, layers.
  split; [by rewrite Hcommits|].
  split.
  { unfold Submodules.main. fold L M.
    unfold bind at 1. rewrite Hparse.
    unfold bind at 1. rewrite Hcommits.
    unfold bind at 1. rewrite Hstep.
    unfold bind at 1. rewrite Hrun. cbn [app].
    fold (manifest_of layers).
    unfold bind at 1, writeFileSync. cbn [files with_files]. rewrite Hwrite.
    run_console.
    unfold bind at 1. rewrite forEach_console_log. cbn [files stdout stderr with_files].
    run_console. unfold console_log. cbn [files stdout stderr with_files w2].
    f_equal. f_equal. rewrite <- !app_assoc. reflexivity. }
  split; [exact Hread|]. split; [exact Hlayers|]. split; [|split; [|split]].
  - intros pre n post info Heq Hfresh Hown. cbn [files].
    destruct (Hapart n) as (H1 & H2 & H3).
    rewrite Hframe3 by done. by eapply Hlast2.
  - intros p Hp1 Hp2 Hp3 Hp4. cbn [files].
    rewrite Hframe3 by done. rewrite Hframe2' by done. by apply Hframe1.
  - rewrite Hcommits. done.
  - eexists. cbn [stdout]. split; reflexivity.
Qed.

(** X16: a complete run on a repository with submodules.  The script
    completes whatever [git] does; it writes one layer file per parsed
    submodule and a manifest whose layers are, in the order of
    [Object.keys] (the names of the file in their order, when none of
    them is an array index), one descriptor per submodule: its title is
    the name, its digest and size are those of the JSON text of the
    submodule's data.  When no two names give the same file name, each
    layer file holds the bytes that its descriptor addresses.  (Paths
    that name an inherited property of objects are left aside.) *)
Theorem main_writes_one_layer_per_submodule cwd w submodules :
  absolute_path cwd ->
  is_dir (files w) cwd = true ->
  Submodules.parseGitmodules (path_join [cwd; ".gitmodules"]) w = (w, Val submodules) ->
  Forall (fun kv => default "undefined" (Submodules.path (snd kv)) ∉ inherited_names)
         submodules ->
  is_file (files w) (Submodules.SUBMODULE_LAYER_DIR cwd) = false ->
  Forall (fun kv => is_dir (files w) (layer_file cwd (fst kv)) = false) submodules ->
  is_dir (files w) (path_join [cwd; "manifest.json"]) = false ->
  exists w' commits layers,
    snd (getSubmoduleCommits w) = Val commits
    /\ main cwd w = (w', Val tt)
    /\ files w' !! path_join [cwd; "manifest.json"]
       = Some (File (utf8_encode (JSON_stringify (manifest_of layers))))
    /\ Forall2 (fun n layer =>
                  exists info, Submodules.own n submodules = Some info
                               /\ layer = layer_of n (layer_blob commits info))
               (Submodules.Object_keys submodules) layers
    /\ Submodules.Object_keys submodules ≡ₚ map fst submodules
    /\ (Forall (fun k => Submodules.array_index k = None) (map fst submodules) ->
        Submodules.Object_keys submodules = map fst submodules)
    /\ (NoDup (map replace_slashes (map fst submodules)) ->
        forall n info,
          Submodules.own n submodules = Some info ->
          files w' !! layer_file cwd n = Some (File (layer_blob commits info)))
    /\ (forall p, p <> cwd ->
                  p <> path_join [cwd; "manifest.json"] ->
                  p <> Submodules.SUBMODULE_LAYER_DIR cwd ->
                  (forall n, n ∈ map fst submodules -> p <> layer_file cwd n) ->
                  files w' !! p = files w !! p).
Proof.
  intros Hcwd Hdir Hparse _ HnoL HnoF HnoM.
  destruct (main_run cwd w submodules Hcwd Hdir Hparse HnoL HnoF HnoM)
    as (w' & commits & layers & Hcommits & Hrun & Hman & Hlayers & Hlast & Hframe & _).
  exists w', commits, layers.
  split; [done|]. split; [done|]. split; [done|]. split; [done|].
  split; [apply Object_keys_permutation|].
  split; [apply Object_keys_plain|].
  split; [|done].
  intros Hnd n info Hown.
  assert (n ∈ Submodules.Object_keys submodules) as Hin.
  { rewrite (Object_keys_permutation submodules). apply own_is_Some. eauto. }
  apply list_elem_of_split in Hin as (pre & post & Hsplit).
  apply (Hlast pre n post info Hsplit); [|done].
  rewrite <- (Object_keys_permutation submodules) in Hnd.
  rewrite Hsplit, map_app in Hnd. cbn [map] in Hnd.
  apply NoDup_app in Hnd as (_ & _ & Hnd).
  by apply NoDup_cons in Hnd as [? _].
Qed.

(** X17: the name of a layer file is the name of the submodule with
    every slash replaced by an underscore, so two submodules can share a
    file.  When they do, the second write replaces the first: after the
    run the file holds the data of the later submodule, while the layer of
    the earlier one still carries the digest of its own data, which
    differs and is no longer on disk.  (Paths that name an inherited
    property of objects are left aside.) *)
Theorem colliding_names_share_a_layer_file cwd w submodules pre n1 mid n2 post i1 i2 :
  absolute_path cwd ->
  is_dir (files w) cwd = true ->
  Submodules.parseGitmodules (path_join [cwd; ".gitmodules"]) w = (w, Val submodules) ->
  Forall (fun kv => default "undefined" (Submodules.path (snd kv)) ∉ inherited_names)
         submodules ->
  is_file (files w) (Submodules.SUBMODULE_LAYER_DIR cwd) = false ->
  Forall (fun kv => is_dir (files w) (layer_file cwd (fst kv)) = false) submodules ->
  is_dir (files w) (path_join [cwd; "manifest.json"]) = false ->
  Submodules.Object_keys submodules = pre ++ n1 :: mid ++ n2 :: post ->
  replace_slashes n1 = replace_slashes n2 ->
  replace_slashes n2 ∉ map replace_slashes post ->
  Submodules.own n1 submodules = Some i1 ->
  Submodules.own n2 submodules = Some i2 ->
  exists w' commits layers,
    main cwd w = (w', Val tt)
    /\ files w' !! path_join [cwd; "manifest.json"]
       = Some (File (utf8_encode (JSON_stringify (manifest_of layers))))
    /\ layers !! length pre = Some (layer_of n1 (layer_blob commits i1))
    /\ layer_file cwd n1 = layer_file cwd n2
    /\ files w' !! layer_file cwd n1 = Some (File (layer_blob commits i2))
    /\ submodule_data commits i1 <> submodule_data commits i2.
Proof.
  intros Hcwd Hdir Hparse _ HnoL HnoF HnoM Hkeys Hsame Hfresh Hown1 Hown2.
  destruct (main_run cwd w submodules Hcwd Hdir Hparse HnoL HnoF HnoM)
    as (w' & commits & layers & _ & Hrun & Hman & Hlayers & Hlast & _).
  destruct (parseGitmodules_invariant _ _ _ _ Hparse) as (_ & Hnd & _ & Hname).
  exists w', commits, layers.
  split; [done|]. split; [done|]. split; [|split; [|split]].
  - assert (Submodules.Object_keys submodules !! length pre = Some n1) as Hat
      by (rewrite Hkeys; apply list_lookup_middle; done).
    destruct (Forall2_lookup_l _ _ _ _ _ Hlayers Hat) as (layer & Hl & info & Hinfo & ->).
    rewrite Hl. congruence.
  - by apply layer_file_same.
  - rewrite (layer_file_same cwd n1 n2 Hsame).
    apply (Hlast (pre ++ n1 :: mid) n2 post i2); [|done|done].
    rewrite Hkeys. by rewrite <- app_assoc.
  - rewrite <- (Object_keys_permutation submodules) in Hnd.
    rewrite Hkeys in Hnd. apply NoDup_app in Hnd as (_ & _ & Hnd).
    apply NoDup_cons in Hnd as [Hnot _].
    assert (n1 <> n2) as Hne.
    { intros ->. apply Hnot. apply elem_of_app. right. left. }
    unfold submodule_data. intros Heq. cbn [app] in Heq.
    injection Heq as Heq _. apply Hne.
    rewrite <- (Hname _ _ Hown1), <- (Hname _ _ Hown2). done.
Qed.

Lemma layer_line_of n blob :
  Submodules.layer_line (layer_of n blob)
  = "  - " +:+ n +:+ " => " +:+ ("sha256:" +:+ sha256_hex blob)
    +:+ " (size: " +:+ pretty (N.of_nat (length blob)) +:+ ")".
Proof.
  unfold Submodules.layer_line, Submodules.field_text, layer_of.
  cbn [get lookup_prop]. decide_literals. cbn [get lookup_prop]. decide_literals.
  reflexivity.
Qed.

Lemma layer_of_is_addressed n blob :
  is_descriptor (layer_of n blob)
  /\ exists hash,
       get "digest" (layer_of n blob) = Some (Str ("sha256:" +:+ hash))
       /\ String.length hash = 64
       /\ Forall (fun c => lowercase_hex c = true) (chars hash).
Proof.
  split.
  - do 3 eexists. repeat split; reflexivity.
  - exists (sha256_hex blob). split; [reflexivity|]. unfold sha256_hex. split.
    + by rewrite hex_of_bytes_length, hash_length.
    + apply hex_of_bytes_lowercase, hash_range.
Qed.

(** X19: the manifest that a complete run of the submodules script
    writes has the required fields (schema version 2, the image manifest
    media type, one config descriptor, here the empty descriptor), and
    each of its layers is a descriptor whose digest is the text sha256,
    a colon and 64 lowercase hexadecimal digits. *)
Theorem main_writes_a_well_formed_manifest cwd w submodules :
  absolute_path cwd ->
  is_dir (files w) cwd = true ->
  Submodules.parseGitmodules (path_join [cwd; ".gitmodules"]) w = (w, Val submodules) ->
  is_file (files w) (Submodules.SUBMODULE_LAYER_DIR cwd) = false ->
  Forall (fun kv => is_dir (files w) (layer_file cwd (fst kv)) = false) submodules ->
  is_dir (files w) (path_join [cwd; "manifest.json"]) = false ->
  exists w' m layers,
    main cwd w = (w', Val tt)
    /\ files w' !! path_join [cwd; "manifest.json"]
       = Some (File (utf8_encode (JSON_stringify m)))
    /\ has_required_fields m
    /\ get "config" m = Some Submodules.EMPTY_DESCRIPTOR
    /\ get "layers" m = Some (Arr layers)
    /\ length layers = length submodules
    /\ Forall (fun layer =>
                 is_descriptor layer
                 /\ exists hash,
                      get "digest" layer = Some (Str ("sha256:" +:+ hash))
                      /\ String.length hash = 64
                      /\ Forall (fun c => lowercase_hex c = true) (chars hash))
              layers.
Proof.
  intros Hcwd Hdir Hparse HnoL HnoF HnoM.
  destruct (main_run cwd w submodules Hcwd Hdir Hparse HnoL HnoF HnoM)
    as (w' & commits & layers & _ & Hrun & Hman & Hlayers & _).
  exists w', (manifest_of layers), layers.
  split; [done|]. split; [done|]. split.
  { apply (required_fields_of_shape _ _ _ []); [|by repeat constructor].
    do 3 eexists. repeat split; reflexivity. }
  split; [reflexivity|]. split; [reflexivity|]. split.
  { apply Forall2_length in Hlayers. rewrite <- Hlayers.
    rewrite (Object_keys_permutation submodules). by rewrite length_map. }
  clear -Hlayers. induction Hlayers as [|n layer names layers (info & _ & ->) _ IH];
    constructor; [apply layer_of_is_addressed|exact IH].
Qed.

(** X20: what a complete run of the submodules script prints agrees with
    what it writes.  After the two lines naming the manifest and the layer
    directory and the heading of the layers, it prints one line per layer
    of the manifest, in order, made of the name of the submodule, the
    digest and the size of its layer; the last line printed is the
    closing one. *)
Theorem main_prints_the_layers_it_writes cwd w submodules :
  absolute_path cwd ->
  is_dir (files w) cwd = true ->
  Submodules.parseGitmodules (path_join [cwd; ".gitmodules"]) w = (w, Val submodules) ->
  is_file (files w) (Submodules.SUBMODULE_LAYER_DIR cwd) = false ->
  Forall (fun kv => is_dir (files w) (layer_file cwd (fst kv)) = false) submodules ->
  is_dir (files w) (path_join [cwd; "manifest.json"]) = false ->
  exists w' layers lines rest,
    main cwd w = (w', Val tt)
    /\ files w' !! path_join [cwd; "manifest.json"]
       = Some (File (utf8_encode (JSON_stringify (manifest_of layers))))
    /\ stdout w'
       = stdout w
         ++ [ "Wrote manifest to " +:+ path_join [cwd; "manifest.json"] +:+ ".";
              "Created submodule layer files in "
              +:+ Submodules.SUBMODULE_LAYER_DIR cwd +:+ ".";
              nl +:+ "Manifest layers:" ]
         ++ lines ++ rest
    /\ last rest = Some (nl +:+ "Done!")
    /\ Forall2 (fun layer line =>
                  exists n blob,
                    layer = layer_of n blob
                    /\ line = "  - " +:+ n +:+ " => " +:+ ("sha256:" +:+ sha256_hex blob)
                              +:+ " (size: " +:+ pretty (N.of_nat (length blob)) +:+ ")")
               layers lines.
Proof.
  intros Hcwd Hdir Hparse HnoL HnoF HnoM.
  destruct (main_run cwd w submodules Hcwd Hdir Hparse HnoL HnoF HnoM)
    as (w' & commits & layers & _ & Hrun & Hman & Hlayers & _ & _ & _ & rest & Hout & Hlast).
  exists w', layers, (map Submodules.layer_line layers), rest.
  split; [done|]. split; [done|]. split; [done|]. split; [done|].
  clear -Hlayers. induction Hlayers as [|n layer names layers (info & _ & ->) _ IH];
    cbn [map]; constructor; [|exact IH].
  eexists _, _. split; [reflexivity|]. apply layer_line_of.
Qed.

End SubmodulesRuns.

(** ** The properties on a sample repository *)

Lemma member_name_literal n :
  (bool_decide (n <> "") && forallb shell_literal (chars n)
   && negb (startsWith n "-") && negb (startsWith n "@"))%bool = true ->
  member_name n.
Proof.
  intros H. repeat (apply andb_prop in H as [H ?]).
  apply bool_decide_eq_true in H.
  split; [done|]. split; [by apply quotable_literal|].
  split; by apply negb_true_iff.
Defined.

Ltac member_literals :=
  repeat (constructor; [apply member_name_literal; vm_compute; reflexivity|]);
  constructor.

Lemma demo_read_as_written out :
  out = Abis.SINGLE_LAYER_TGZ "/repo" \/ out = Abis.SINGLE_CONFIG_TGZ "/repo" ->
  Abis.read_as_written Demo.abiFiles out.
Proof.
  intros Hout.
  split; [destruct Hout as [->| ->]; apply quotable_literal; vm_compute; reflexivity|].
  split; [destruct Hout as [->| ->]; vm_compute; reflexivity|].
  split; [apply quotable_literal; vm_compute; reflexivity|].
  assert (map path_basename Demo.abiFiles = ["A.abi"; "B.abi"]) as ->
    by (vm_compute; reflexivity).
  member_literals.
Defined.

Lemma demo_archivable_layer :
  Abis.archivable Demo.repo_world Demo.abiFiles (Abis.SINGLE_LAYER_TGZ "/repo").
Proof.
  split; [|split; [|split; [|split; [|split]]]].
  - vm_compute. repeat constructor.
  - apply (bool_decide_unpack _). vm_compute. exact I.
  - vm_compute. reflexivity.
  - vm_compute. reflexivity.
  - apply demo_read_as_written. by left.
  - vm_compute. reflexivity.
Defined.

Lemma demo_archivable_config :
  Abis.archivable Demo.repo_world Demo.abiFiles (Abis.SINGLE_CONFIG_TGZ "/repo").
Proof.
  split; [|split; [|split; [|split; [|split]]]].
  - vm_compute. repeat constructor.
  - apply (bool_decide_unpack _). vm_compute. exact I.
  - vm_compute. reflexivity.
  - vm_compute. reflexivity.
  - apply demo_read_as_written. by right.
  - vm_compute. reflexivity.
Defined.

Lemma demo_files : Forall (fun f => is_file (files Demo.repo_world) f = true) Demo.abiFiles.
Proof. vm_compute. repeat constructor. Defined.

Lemma demo_nonempty : Demo.abiFiles <> [].
Proof. discriminate. Defined.

(** On the sample repository, with one [tar] for both approaches, the
    config descriptor of B is not the layer descriptor of A, whose media
    type is another: the two manifests do not differ only in the slot
    that holds one descriptor. *)
Lemma approachA_approachB_descriptors_differ :
  exists mA mB layer config,
    snd (Abis.approachA "/repo" Demo.stored_archive Demo.abiFiles Demo.repo_world) = Val mA
    /\ snd (Abis.approachB "/repo" Demo.stored_archive Demo.abiFiles Demo.repo_world) = Val mB
    /\ get "layers" mA = Some (Arr [layer])
    /\ get "config" mB = Some config
    /\ config <> layer
    /\ get "mediaType" config
       = Some (Str "application/vnd.solidity.abi.config.v1+tar+gzip")
    /\ get "mediaType" layer
       = Some (Str "application/vnd.solidity.abi.layer.v1+tar+gzip").
Proof.
  vm_compute. do 4 eexists.
  split; [reflexivity|]. split; [reflexivity|].
  split; [reflexivity|]. split; [reflexivity|].
  split; [discriminate|]. split; reflexivity.
Qed.

(** When the archive holds the time of the run, the two digests differ
    as well. *)
Example approachA_approachB_digests_at_two_times :
  exists mA mB layer config,
    snd (Abis.approachA "/repo" (Demo.stamped_archive x00) Demo.abiFiles Demo.repo_world)
    = Val mA
    /\ snd (Abis.approachB "/repo" (Demo.stamped_archive x01) Demo.abiFiles Demo.repo_world)
       = Val mB
    /\ get "layers" mA = Some (Arr [layer])
    /\ get "config" mB = Some config
    /\ get "digest" config <> get "digest" layer.
Proof.
  vm_compute. do 4 eexists.
  split; [reflexivity|]. split; [reflexivity|].
  split; [reflexivity|]. split; [reflexivity|]. discriminate.
Qed.

Lemma approachA_approachB_archive_the_same_members_on_sample :
  exists wA wB mA mB layer config,
    Abis.approachA "/repo" (Demo.stamped_archive x00) Demo.abiFiles Demo.repo_world
    = (wA, Val mA)
    /\ Abis.approachB "/repo" (Demo.stamped_archive x01) Demo.abiFiles Demo.repo_world
       = (wB, Val mB)
    /\ map fst (Abis.members Demo.repo_world Demo.abiFiles) = ["A.abi"; "B.abi"]
    /\ get "layers" mA = Some (Arr [layer])
    /\ get "config" mB = Some config
    /\ get "mediaType" config <> get "mediaType" layer.
Proof.
  destruct (approachA_approachB_archive_the_same_members "/repo"
              (Demo.stamped_archive x00) (Demo.stamped_archive x01)
              Demo.repo_world Demo.abiFiles demo_nonempty
              demo_archivable_layer demo_archivable_config)
    as (wA & wB & mA & mB & layer & config & HA & HB & Hn & _ & _ & _ & Hl & Hc
        & _ & _ & _ & Hm & _).
  exists wA, wB, mA, mB, layer, config.
  split; [exact HA|]. split; [exact HB|]. split; [exact Hn|].
  split; [exact Hl|]. split; [exact Hc|]. exact Hm.
Defined.

(** On the sample repository approach D, which is given no subject,
    returns a manifest. *)
Lemma approachD_without_subject_returns_a_manifest :
  exists w' m,
    Abis.approachD "/repo" Demo.stored_archive Demo.abiFiles Demo.repo_world = (w', Val m)
    /\ get "subject" m = Some Abis.SUBJECT_DESCRIPTOR.
Proof. vm_compute. do 2 eexists. split; reflexivity. Qed.

Lemma approachD_attaches_the_fixed_subject_on_sample :
  exists w' m,
    Abis.approachD "/repo" Demo.stored_archive Demo.abiFiles Demo.repo_world = (w', Val m)
    /\ get "subject" m = Some Abis.SUBJECT_DESCRIPTOR.
Proof.
  destruct (approachD_attaches_the_fixed_subject "/repo" Demo.stored_archive
              Demo.repo_world Demo.abiFiles) as (Hall & Hrun & _).
  destruct (Hrun demo_nonempty demo_archivable_layer) as (w' & m & H & _).
  exists w', m. split; [exact H|exact (Hall w' m H)].
Defined.

(** On the sample repository the manifest of approach D is not the
    manifest of approach A with another subject, here the empty
    descriptor, appended. *)
Lemma approachD_does_not_take_the_subject :
  exists mA mD,
    snd (Abis.approachA "/repo" Demo.stored_archive Demo.abiFiles Demo.repo_world) = Val mA
    /\ snd (Abis.approachD "/repo" Demo.stored_archive Demo.abiFiles Demo.repo_world) = Val mD
    /\ mD <> set "subject" Abis.EMPTY_DESCRIPTOR mA.
Proof.
  vm_compute. do 2 eexists. split; [reflexivity|]. split; [reflexivity|].
  discriminate.
Qed.

Lemma approachD_is_approachA_plus_subject_on_sample :
  exists wA wD propsA inner,
    Abis.approachA "/repo" Demo.stored_archive Demo.abiFiles Demo.repo_world
    = (wA, Val (Obj propsA))
    /\ Abis.approachD "/repo" Demo.stored_archive Demo.abiFiles Demo.repo_world
       = (wD, Val (Obj (propsA ++ [("subject", Abis.SUBJECT_DESCRIPTOR)])))
    /\ Obj (propsA ++ [("subject", Abis.SUBJECT_DESCRIPTOR)])
       = Obj (inner ++ [("subject", Abis.SUBJECT_DESCRIPTOR)]).
Proof.
  destruct (approachD_is_approachA_plus_subject "/repo" Demo.stored_archive
              Demo.repo_world Demo.abiFiles) as (Hall & Hrun).
  destruct (Hrun demo_nonempty demo_archivable_layer)
    as (wA & wD & propsA & HA & HD & _).
  destruct (Hall wD _ HD) as (inner & _ & Hinner & _).
  exists wA, wD, propsA, inner.
  split; [exact HA|]. split; [exact HD|exact Hinner].
Defined.

Lemma demo_cwd : absolute_path "/repo".
Proof. exists ["repo"]. split; [|reflexivity]. constructor; [simple_literal|constructor]. Defined.

Lemma empty_input_fails_without_manifest_on_sample :
  exists w',
    Abis.main "/repo" Demo.stored_archive (Some "C") Demo.bare_world = (w', Exit 1)
    /\ stdout w' = []
    /\ stderr w' = ["No .abi files found in 'contracts' directory."]
    /\ files w' !! Abis.MANIFEST_JSON "/repo" = None.
Proof.
  destruct (empty_input_fails_without_manifest "/repo" Demo.stored_archive "C"
              Demo.bare_world
              (fst (Abis.ensureOutputDir "/repo" Demo.bare_world))
              ["notes.txt"])
    as (w' & Hrun & Hout & Herr & _ & Hmanifest & _).
  - exact demo_cwd.
  - apply (bool_decide_unpack _). vm_compute. exact I.
  - vm_compute. reflexivity.
  - vm_compute. reflexivity.
  - vm_compute. reflexivity.
  - exists w'. rewrite Hmanifest, Hout, Herr.
    split; [exact Hrun|]. split; [reflexivity|]. split; [reflexivity|].
    vm_compute. reflexivity.
Defined.

Lemma config_is_the_empty_descriptor_on_sample :
  (exists wA mA,
     Abis.approachA "/repo" Demo.stored_archive Demo.abiFiles Demo.repo_world = (wA, Val mA)
     /\ get "config" mA = Some Abis.EMPTY_DESCRIPTOR)
  /\ (exists wC mC,
        Abis.approachC Demo.abiFiles Demo.repo_world = (wC, Val mC)
        /\ get "config" mC = Some Abis.EMPTY_DESCRIPTOR).
Proof.
  destruct (config_is_the_empty_descriptor "/repo" Demo.stored_archive
              Demo.repo_world Demo.abiFiles) as (HallA & HallC & HA & HC & _).
  destruct (HA demo_nonempty demo_archivable_layer) as (wA & mA & HrunA & _).
  destruct (HC demo_files) as (wC & mC & HrunC & _).
  split.
  - exists wA, mA. split; [exact HrunA|exact (HallA wA mA HrunA)].
  - exists wC, mC. split; [exact HrunC|exact (HallC wC mC HrunC)].
Defined.

Lemma approachC_layers_follow_the_payloads_on_sample :
  exists w' m layers,
    Abis.approachC Demo.abiFiles Demo.repo_world = (w', Val m)
    /\ get "layers" m = Some (Arr layers)
    /\ length layers = 2.
Proof.
  destruct (approachC_layers_follow_the_payloads Demo.repo_world Demo.abiFiles demo_files)
    as (w' & m & layers & Hrun & Hl & Hlen & _).
  exists w', m, layers. repeat split; assumption.
Defined.

Lemma every_manifest_has_the_required_fields_on_sample :
  exists w' m,
    Abis.switch_approach "/repo" Demo.stored_archive (Some "B") Demo.abiFiles Demo.repo_world
    = (w', Val (Some m))
    /\ has_required_fields m.
Proof.
  destruct (every_manifest_has_the_required_fields "/repo" Demo.stored_archive "B"
              Demo.repo_world Demo.abiFiles) as [Hinv Hrun].
  assert ("B" ∈ ["A"; "B"; "C"; "D"]) as Hin
    by (apply (bool_decide_unpack _); vm_compute; exact I).
  destruct (Hrun Hin demo_nonempty demo_archivable_config) as (w' & m & Hm & _).
  exists w', m. split; [exact Hm|]. exact (Hinv w' m Hm).
Defined.

Lemma content_address_on_sample :
  Abis.computeDigestAndSize "/repo/contracts/B.abi" Demo.repo_world
  = (Demo.repo_world,
     Val {| Abis.digest := "sha256:" +:+ hex_of_bytes (SHA256.hash (utf8_encode "{}"));
            Abis.size := 2 |}).
Proof.
  destruct (content_address_is_sha256_and_length Demo.repo_world
              "/repo/contracts/B.abi" (utf8_encode "{}")) as (H & _).
  - vm_compute. reflexivity.
  - exact H.
Defined.

Lemma builders_do_not_guard_empty_input_on_sample :
  (exists w' e,
     Abis.approachA "/repo" Demo.stored_archive [] Demo.repo_world = (w', Throw e)
     /\ e = undefined_path)
  /\ (exists w',
        Abis.main "/repo" Demo.stored_archive (Some "A") Demo.bare_world = (w', Exit 1)
        /\ stdout w' = []).
Proof.
  destruct (builders_do_not_guard_empty_input "/repo" Demo.stored_archive Demo.repo_world)
    as (_ & _ & (w' & e & HA & _ & He) & _ & _).
  destruct (builders_do_not_guard_empty_input "/repo" Demo.stored_archive Demo.bare_world)
    as (_ & _ & _ & _ & Hmain).
  destruct (Hmain "A" (fst (Abis.ensureOutputDir "/repo" Demo.bare_world)) ["notes.txt"])
    as (w'' & Hrun & Hout & _).
  - apply (bool_decide_unpack _). vm_compute. exact I.
  - vm_compute. reflexivity.
  - vm_compute. reflexivity.
  - vm_compute. reflexivity.
  - split.
    + exists w', e. split; [exact HA|]. apply He. vm_compute. reflexivity.
    + exists w''. split; assumption.
Defined.

(** A repository without a [.gitmodules] file, and one whose file holds
    a comment only. *)
Lemma no_submodules_still_writes_a_manifest_on_sample :
  exists w',
    Submodules.main "/repo" (fun _ => None) Demo.bare_world = (w', Val tt)
    /\ files w' !! "/repo/manifest.json"
       = Some (File (utf8_encode (JSON_stringify Submodules.bare_manifest))).
Proof.
  destruct (no_submodules_still_writes_a_manifest (fun _ => None) "/repo" Demo.bare_world)
    as (_ & w' & Hrun & Hfile & _).
  - exact demo_cwd.
  - left. vm_compute. reflexivity.
  - vm_compute. reflexivity.
  - vm_compute. reflexivity.
  - exists w'. split; [exact Hrun|exact Hfile].
Defined.

(** The addresser applied to an empty file. *)
Example content_address_of_an_empty_file :
  Abis.computeDigestAndSize "/e" (World {["/e" := File []]} [] [])
  = (World {["/e" := File []]} [] [],
     Val {| Abis.digest := "sha256:e3b0c44298fc1c149afbf4c8996fb92427ae41e4649b934ca495991b7852b855";
            Abis.size := 0 |}).
Proof. vm_compute. reflexivity. Qed.

(** A run of approach C on the sample repository, as the list of the
    titles and sizes of the layers it writes. *)
Example approachC_on_sample :
  match snd (Abis.approachC Demo.abiFiles Demo.repo_world) with
  | Val m =>
      match get "layers" m with
      | Some (Arr layers) =>
          map (fun l => (get "org.opencontainers.image.title"
                           (default (Obj []) (get "annotations" l)),
                         get "size" l)) layers
      | _ => []
      end
  | _ => []
  end
  = [ (Some (Str "A.abi"), Some (Num 2)); (Some (Str "B.abi"), Some (Num 2)) ].
Proof. vm_compute. reflexivity. Qed.

Example main_on_sample :
  snd (Abis.main "/repo" Demo.stored_archive (Some "A") Demo.repo_world) = Val tt
  /\ snd (Abis.main "/repo" Demo.stored_archive None Demo.repo_world) = Exit 1
  /\ snd (Abis.main "/repo" Demo.stored_archive (Some "E") Demo.repo_world) = Exit 1.
Proof. vm_compute. repeat split; reflexivity. Qed.

(** ** More properties on the sample repositories *)

Lemma Forall_by_forallb {A} (f : A -> bool) (b : bool) (l : list A) :
  forallb (fun x => bool_decide (f x = b)) l = true -> Forall (fun x => f x = b) l.
Proof.
  induction l as [|x l IH]; cbn [forallb]; [constructor|].
  intros [Hx Hl]%andb_true_iff. constructor; [|by apply IH].
  by apply bool_decide_eq_true in Hx.
Qed.

Ltac all_true := apply Forall_by_forallb; vm_compute; reflexivity.

Lemma main_rejects_an_unknown_approach_on_sample :
  Abis.main "/repo" Demo.stored_archive (Some "a") Demo.repo_world
  = (World Demo.repo [] ["Usage: node store-solidity-abis.js [A|B|C|D]"], Exit 1)
  /\ Abis.main "/repo" Demo.stored_archive None Demo.repo_world
     = (World Demo.repo [] ["Usage: node store-solidity-abis.js [A|B|C|D]"], Exit 1).
Proof.
  split.
  - apply (main_rejects_an_unknown_approach "/repo" Demo.stored_archive (Some "a")
             Demo.repo_world).
    apply (bool_decide_unpack _). vm_compute. exact I.
  - apply (main_rejects_an_unknown_approach "/repo" Demo.stored_archive None
             Demo.repo_world).
    apply (bool_decide_unpack _). vm_compute. exact I.
Defined.

Lemma ensureOutputDir_keeps_files_and_is_idempotent_on_sample :
  (forall q data,
     files (fst (Abis.ensureOutputDir "/repo" Demo.bare_world)) !! q = Some (File data)
     <-> Demo.bare !! q = Some (File data))
  /\ Abis.ensureOutputDir "/repo" (fst (Abis.ensureOutputDir "/repo" Demo.bare_world))
     = (fst (Abis.ensureOutputDir "/repo" Demo.bare_world), Val tt).
Proof.
  destruct (ensureOutputDir_keeps_files_and_is_idempotent "/repo" Demo.bare_world
              (fst (Abis.ensureOutputDir "/repo" Demo.bare_world)) (Val tt))
    as [Hfiles Hrest].
  - vm_compute. reflexivity.
  - split; [exact Hfiles|]. destruct (Hrest eq_refl) as (_ & _ & _ & Hagain). exact Hagain.
Defined.

Lemma main_reports_a_missing_contracts_directory_on_sample :
  exists w',
    Abis.main "/repo" Demo.stored_archive (Some "B") Demo.empty_world = (w', Exit 1)
    /\ stderr w' = ["No 'contracts' directory found at: /repo/contracts"]
    /\ files w' !! "/repo/output" = Some (Dir []).
Proof.
  destruct (main_reports_a_missing_contracts_directory "/repo" Demo.stored_archive "B"
              Demo.empty_world)
    as (w' & Hrun & _ & Herr & Hout & _).
  - exact demo_cwd.
  - apply (bool_decide_unpack _). vm_compute. exact I.
  - vm_compute. reflexivity.
  - vm_compute. reflexivity.
  - vm_compute. reflexivity.
  - exists w'. split; [exact Hrun|]. split; [exact Herr|exact Hout].
Defined.

Lemma demo_entries : Forall simple_name ["A.abi"; "notes.txt"; "B.abi"].
Proof.
  constructor; [simple_literal|]. constructor; [simple_literal|].
  constructor; [simple_literal|]. constructor.
Defined.

Lemma demo_members :
  Forall member_name
         (List.filter (fun f => endsWith f ".abi") ["A.abi"; "notes.txt"; "B.abi"]).
Proof.
  assert (List.filter (fun f => endsWith f ".abi") ["A.abi"; "notes.txt"; "B.abi"]
          = ["A.abi"; "B.abi"]) as -> by (vm_compute; reflexivity).
  member_literals.
Defined.

Lemma demo_cwd_quotable : quotable "/repo".
Proof. apply quotable_literal. vm_compute. reflexivity. Defined.

Lemma listAbiFiles_lists_the_abi_entries_on_sample :
  exists abiFiles,
    Abis.listAbiFiles "/repo" Demo.repo_world = (Demo.repo_world, Val abiFiles)
    /\ map path_basename abiFiles = ["A.abi"; "B.abi"].
Proof.
  destruct (listAbiFiles_lists_the_abi_entries "/repo" Demo.repo_world
              ["A.abi"; "notes.txt"; "B.abi"])
    as (abiFiles & Hrun & Hnames & _).
  - exact demo_cwd.
  - vm_compute. reflexivity.
  - exact demo_entries.
  - exists abiFiles. split; [exact Hrun|exact Hnames].
Defined.

Lemma main_writes_a_manifest_on_sample :
  exists w' m,
    Abis.main "/repo" Demo.stored_archive (Some "D") Demo.repo_world = (w', Val tt)
    /\ files w' !! "/repo/output/manifest.json"
       = Some (File (utf8_encode (JSON_stringify m)))
    /\ last (stdout w') = Some (JSON_stringify m)
    /\ has_required_fields m.
Proof.
  destruct (main_writes_a_manifest "/repo" Demo.stored_archive "D" Demo.repo_world
              ["A.abi"; "notes.txt"; "B.abi"])
    as (w' & m & Hrun & Hfile & Hlast & Hfields).
  - exact demo_cwd.
  - apply (bool_decide_unpack _). vm_compute. exact I.
  - vm_compute. reflexivity.
  - vm_compute. reflexivity.
  - exact demo_entries.
  - vm_compute. discriminate.
  - intros _. split; [exact demo_cwd_quotable|exact demo_members].
  - all_true.
  - vm_compute. reflexivity.
  - vm_compute. reflexivity.
  - vm_compute. reflexivity.
  - exists w', m. split; [exact Hrun|]. split; [exact Hfile|]. split; [exact Hlast|exact Hfields].
Defined.


Lemma approachC_stops_at_the_first_unreadable_file_on_sample :
  Abis.approachC ["/repo/contracts/A.abi"; "/repo/contracts/C.abi"; "/repo/contracts/B.abi"]
    Demo.repo_world
  = (World Demo.repo ["Approach C: minimal config, each ABI as a separate layer."] [],
     Throw (SystemError "ENOENT" "open" (Some "/repo/contracts/C.abi"))).
Proof.
  apply (approachC_stops_at_the_first_unreadable_file Demo.repo_world
           ["/repo/contracts/A.abi"] "/repo/contracts/C.abi" ["/repo/contracts/B.abi"]).
  - all_true.
  - vm_compute. reflexivity.
Defined.

Lemma rerun_archives_the_same_members_on_sample :
  exists w1 m1 w2 m2,
    Abis.approachA "/repo" Demo.stored_archive Demo.abiFiles Demo.repo_world = (w1, Val m1)
    /\ Abis.approachA "/repo" Demo.stored_archive Demo.abiFiles w1 = (w2, Val m2)
    /\ m2 = m1.
Proof.
  destruct (rerun_archives_the_same_members "/repo" Demo.stored_archive
              Demo.stored_archive Demo.repo_world Demo.abiFiles demo_nonempty)
    as [HA _].
  destruct (HA demo_archivable_layer) as (w1 & m1 & w2 & m2 & layer & H1 & H2 & _ & _ & _ & _ & Heq).
  exists w1, m1, w2, m2. split; [exact H1|]. split; [exact H2|]. exact (Heq eq_refl).
Defined.

Lemma main_manifest_addresses_the_archive_on_sample :
  exists w' m descriptor blob,
    Abis.main "/repo" Demo.stored_archive (Some "B") Demo.repo_world = (w', Val tt)
    /\ files w' !! "/repo/output/manifest.json"
       = Some (File (utf8_encode (JSON_stringify m)))
    /\ get "config" m = Some descriptor
    /\ get "digest" descriptor = Some (Str ("sha256:" +:+ sha256_hex blob))
    /\ files w' !! "/repo/output/abis-config.tgz" = Some (File blob).
Proof.
  destruct (main_manifest_addresses_the_archive "/repo" Demo.stored_archive "B"
              Demo.repo_world ["A.abi"; "notes.txt"; "B.abi"])
    as (w' & m & descriptor & Hrun & Hfile & Hdesc & Hdigest & _ & Hblob & _).
  - exact demo_cwd.
  - exact demo_cwd_quotable.
  - apply (bool_decide_unpack _). vm_compute. exact I.
  - vm_compute. reflexivity.
  - vm_compute. reflexivity.
  - exact demo_entries.
  - vm_compute. discriminate.
  - exact demo_members.
  - all_true.
  - vm_compute. reflexivity.
  - vm_compute. reflexivity.
  - exists w', m, descriptor. eexists.
    split; [exact Hrun|]. split; [exact Hfile|]. split; [exact Hdesc|].
    split; [exact Hdigest|exact Hblob].
Defined.

Lemma main_C_describes_every_abi_entry_on_sample :
  exists w' m layers,
    Abis.main "/repo" Demo.stored_archive (Some "C") Demo.repo_world = (w', Val tt)
    /\ files w' !! "/repo/output/manifest.json"
       = Some (File (utf8_encode (JSON_stringify m)))
    /\ get "layers" m = Some (Arr layers)
    /\ length layers = 2
    /\ files w' !! "/repo/output/abis-single-layer.tgz" = None.
Proof.
  destruct (main_C_describes_every_abi_entry "/repo" Demo.stored_archive
              Demo.repo_world ["A.abi"; "notes.txt"; "B.abi"])
    as (w' & m & layers & Hrun & Hfile & Hlayers & Hall & Hframe).
  - exact demo_cwd.
  - vm_compute. reflexivity.
  - vm_compute. reflexivity.
  - exact demo_entries.
  - vm_compute. discriminate.
  - all_true.
  - vm_compute. reflexivity.
  - exists w', m, layers.
    split; [exact Hrun|]. split; [exact Hfile|]. split; [exact Hlayers|]. split.
    + apply Forall2_length in Hall. rewrite <- Hall. vm_compute. reflexivity.
    + rewrite Hframe.
      * vm_compute. reflexivity.
      * apply (bool_decide_unpack _). vm_compute. exact I.
      * apply (bool_decide_unpack _). vm_compute. exact I.
Defined.

(** *** The submodules script on the sample repositories *)

Lemma parseGitmodules_keeps_one_record_per_name_on_sample :
  exists submodules,
    Submodules.parseGitmodules "/repo/.gitmodules" Demo.submodules_world
    = (Demo.submodules_world, Val submodules)
    /\ NoDup (map fst submodules)
    /\ (forall k info, Submodules.own k submodules = Some info -> Submodules.name info = k).
Proof.
  destruct (parseGitmodules_keeps_one_record_per_name "/repo/.gitmodules"
              Demo.submodules_world Demo.submodules_world
              (map (fun s => (Submodules.name s, s)) Demo.sections))
    as (_ & Hnd & _ & Hname).
  - vm_compute. reflexivity.
  - eexists. split; [vm_compute; reflexivity|]. split; [exact Hnd|exact Hname].
Defined.

Lemma demo_values :
  plain_value "deps/foo" /\ plain_value "deps/bar"
  /\ plain_value "https://example.com/foo.git"
  /\ plain_value "https://example.com/bar.git"
  /\ plain_value "main".
Proof.
  repeat split; try discriminate; try (vm_compute; reflexivity); all_true.
Defined.

Lemma demo_sections : Forall describable Demo.sections.
Proof.
  destruct demo_values as (H1 & H2 & H3 & H4 & H5).
  constructor; [|constructor; [|constructor]].
  - split; [discriminate|]. split; [discriminate|].
    split; [all_true|].
    split; [|split]; cbn; intros v Hv; try discriminate;
      injection Hv as <-; assumption.
  - split; [discriminate|]. split; [discriminate|].
    split; [all_true|].
    split; [|split]; cbn; intros v Hv; try discriminate;
      injection Hv as <-; assumption.
Defined.

Lemma parseGitmodules_reads_back_the_sections_on_sample :
  Submodules.parseGitmodules "/repo/.gitmodules" Demo.submodules_world
  = (Demo.submodules_world,
     Val (map (fun s => (Submodules.name s, s)) Demo.sections)).
Proof.
  apply (parseGitmodules_reads_back_the_sections "/repo/.gitmodules"
           Demo.submodules_world Demo.sections).
  - exact demo_sections.
  - apply (bool_decide_unpack _). vm_compute. exact I.
  - vm_compute. reflexivity.
Defined.

Lemma demo_status : Forall reported Demo.status_entries.
Proof.
  constructor; [|constructor; [|constructor]].
  - split; [apply (bool_decide_unpack _); vm_compute; exact I|].
    split; [split; [discriminate|all_true]|].
    split; [all_true|].
    split; [split; [discriminate|all_true]|].
    split; [discriminate|].
    cbn. intros d Hd. injection Hd as <-. all_true.
  - split; [apply (bool_decide_unpack _); vm_compute; exact I|].
    split; [split; [discriminate|all_true]|].
    split; [all_true|].
    split; [split; [discriminate|all_true]|].
    split; [discriminate|].
    cbn. intros d Hd. discriminate.
Defined.

Lemma getSubmoduleCommits_reads_the_status_on_sample :
  exists commits,
    Submodules.getSubmoduleCommits Demo.git_status Demo.submodules_world
    = (Demo.submodules_world, Val commits)
    /\ commits !! "deps/foo" = Some "0123abc"
    /\ commits !! "deps/bar" = Some "89def01"
    /\ commits !! "deps/baz" = None.
Proof.
  destruct (getSubmoduleCommits_reads_the_status Demo.git_status
              Demo.submodules_world Demo.status_entries)
    as (commits & Hrun & Hin & Hout).
  - exact demo_status.
  - apply (bool_decide_unpack _). vm_compute. exact I.
  - reflexivity.
  - exists commits. split; [exact Hrun|]. split; [|split].
    + apply (Hin (Status " " "0123abc" "deps/foo" (Some "heads/main"))). left.
    + apply (Hin (Status "-" "89def01" "deps/bar" None)). right. left.
    + apply Hout. apply (bool_decide_unpack _). vm_compute. exact I.
Defined.

Lemma getSubmoduleCommits_survives_a_failing_git_on_sample :
  exists report,
    report <> []
    /\ Submodules.getSubmoduleCommits (fun _ => None) Demo.submodules_world
       = (World Demo.with_submodules [] report, Val ∅).
Proof.
  destruct (getSubmoduleCommits_survives_a_failing_git (fun _ => None)
              Demo.submodules_world) as [_ Hfail].
  destruct (Hfail eq_refl) as (report & Hne & Hrun).
  exists report. split; [exact Hne|exact Hrun].
Defined.

Lemma main_writes_one_layer_per_submodule_on_sample :
  exists w' commits layers,
    Submodules.main "/repo" Demo.git_status Demo.submodules_world = (w', Val tt)
    /\ files w' !! "/repo/manifest.json"
       = Some (File (utf8_encode (JSON_stringify (manifest_of layers))))
    /\ length layers = 2
    /\ files w' !! "/repo/submodule-layers/deps_foo.json"
       = Some (File (layer_blob commits
                       (Submodules.Submodule "deps/foo" (Some "deps/foo")
                          (Some "https://example.com/foo.git") None))).
Proof.
  destruct (main_writes_one_layer_per_submodule Demo.git_status "/repo"
              Demo.submodules_world
              (map (fun s => (Submodules.name s, s)) Demo.sections))
    as (w' & commits & layers & _ & Hrun & Hfile & Hlayers & _ & _ & Hdisk & _).
  - exact demo_cwd.
  - vm_compute. reflexivity.
  - vm_compute. reflexivity.
  - apply (bool_decide_unpack _). vm_compute. exact I.
  - vm_compute. reflexivity.
  - all_true.
  - vm_compute. reflexivity.
  - exists w', commits, layers.
    split; [exact Hrun|]. split; [exact Hfile|]. split.
    + apply Forall2_length in Hlayers. rewrite <- Hlayers. vm_compute. reflexivity.
    + apply (Hdisk ltac:(apply (bool_decide_unpack _); vm_compute; exact I) "deps/foo").
      vm_compute. reflexivity.
Defined.

Lemma colliding_names_share_a_layer_file_on_sample :
  exists w' commits (layers : list value),
    Submodules.main "/repo" (fun _ => None) Demo.colliding_world = (w', Val tt)
    /\ layers !! 0
       = Some (layer_of "a/b"
                 (layer_blob commits (Submodules.Submodule "a/b" (Some "a/b") None None)))
    /\ files w' !! "/repo/submodule-layers/a_b.json"
       = Some (File (layer_blob commits
                       (Submodules.Submodule "a_b" (Some "a_b") None None))).
Proof.
  destruct (colliding_names_share_a_layer_file (fun _ => None) "/repo"
              Demo.colliding_world
              (map (fun s => (Submodules.name s, s)) Demo.colliding_sections)
              [] "a/b" [] "a_b" []
              (Submodules.Submodule "a/b" (Some "a/b") None None)
              (Submodules.Submodule "a_b" (Some "a_b") None None))
    as (w' & commits & layers & Hrun & _ & Hlayer & _ & Hdisk & _).
  - exact demo_cwd.
  - vm_compute. reflexivity.
  - vm_compute. reflexivity.
  - apply (bool_decide_unpack _). vm_compute. exact I.
  - vm_compute. reflexivity.
  - all_true.
  - vm_compute. reflexivity.
  - vm_compute. reflexivity.
  - vm_compute. reflexivity.
  - apply (bool_decide_unpack _). vm_compute. exact I.
  - vm_compute. reflexivity.
  - vm_compute. reflexivity.
  - exists w', commits, layers. split; [exact Hrun|]. split; [exact Hlayer|exact Hdisk].
Defined.

Lemma reopened_section_forgets_its_fields_on_sample :
  exists subs',
    Submodules.parse_line
      (Some "deps/bar", map (fun s => (Submodules.name s, s)) Demo.sections)
      ("[submodule " +:+ dq +:+ "deps/foo" +:+ dq +:+ "]")
    = (Some "deps/foo", subs')
    /\ Submodules.own "deps/foo" subs'
       = Some (Submodules.Submodule "deps/foo" None None None)
    /\ map fst subs' = ["deps/foo"; "deps/bar"].
Proof.
  destruct (reopened_section_forgets_its_fields "deps/foo" (Some "deps/bar")
              (map (fun s => (Submodules.name s, s)) Demo.sections))
    as (subs' & Hrun & Hown & _ & Hkeys).
  - discriminate.
  - all_true.
  - exists subs'. split; [exact Hrun|]. split; [exact Hown|].
    apply Hkeys. apply (bool_decide_unpack _). vm_compute. exact I.
Defined.

Lemma main_writes_a_well_formed_manifest_on_sample :
  exists w' m layers,
    Submodules.main "/repo" Demo.git_status Demo.submodules_world = (w', Val tt)
    /\ files w' !! "/repo/manifest.json" = Some (File (utf8_encode (JSON_stringify m)))
    /\ has_required_fields m
    /\ get "layers" m = Some (Arr layers)
    /\ length layers = 2.
Proof.
  destruct (main_writes_a_well_formed_manifest Demo.git_status "/repo"
              Demo.submodules_world
              (map (fun s => (Submodules.name s, s)) Demo.sections))
    as (w' & m & layers & Hrun & Hfile & Hfields & _ & Hlayers & Hlen & _).
  - exact demo_cwd.
  - vm_compute. reflexivity.
  - vm_compute. reflexivity.
  - vm_compute. reflexivity.
  - all_true.
  - vm_compute. reflexivity.
  - exists w', m, layers. split; [exact Hrun|]. split; [exact Hfile|].
    split; [exact Hfields|]. split; [exact Hlayers|exact Hlen].
Defined.

Lemma main_prints_the_layers_it_writes_on_sample :
  exists w' (layers : list value) lines rest,
    Submodules.main "/repo" (fun _ => None) Demo.submodules_world = (w', Val tt)
    /\ stdout w'
       = [ "Wrote manifest to /repo/manifest.json.";
           "Created submodule layer files in /repo/submodule-layers.";
           nl +:+ "Manifest layers:" ]
         ++ lines ++ rest
    /\ length lines = length layers.
Proof.
  destruct (main_prints_the_layers_it_writes (fun _ => None) "/repo"
              Demo.submodules_world
              (map (fun s => (Submodules.name s, s)) Demo.sections))
    as (w' & layers & lines & rest & Hrun & _ & Hout & _ & Hlines).
  - exact demo_cwd.
  - vm_compute. reflexivity.
  - vm_compute. reflexivity.
  - vm_compute. reflexivity.
  - all_true.
  - vm_compute. reflexivity.
  - exists w', layers, lines, rest. split; [exact Hrun|]. split; [exact Hout|].
    symmetry. exact (Forall2_length _ _ _ Hlines).
Defined.
